(** * mintty child.c: the child process supervisor and its I/O bridge

    A shallow embedding of [child.c].  The module's static variables and the
    globals it reads form one record; every function of the file becomes a
    computation in a small monad that threads this record, collects the calls
    made to the outside (signals sent, terminal writes, pty and log writes) in
    a trace, and stops at [exit].  What the operating system answers
    ([waitpid], [kill], [select], [read], ...) is given to the functions as
    explicit arguments.  [child_is_parent] and [child_fork] change nothing
    of the state: they are functions of it, with a trace of their own. *)

From Stdlib Require Import ZArith List String Ascii Bool Lia DecimalString.
Import ListNotations.
Local Open Scope Z_scope.

(** Concatenation of C strings and byte buffers. *)
Notation "a +++ b" := (String.append a b)
  (at level 60, right associativity).

(** ** What the platform headers provide

    [signal.h], [errno.h], [sys/wait.h], the Cygwin version macros and a few
    libc lookups are not part of the repository: they are parameters. *)

Class Platform := {
  SIGHUP : Z; SIGINT : Z; SIGQUIT : Z; SIGILL : Z; SIGTRAP : Z; SIGABRT : Z;
  SIGFPE : Z; SIGKILL : Z; SIGBUS : Z; SIGSEGV : Z; SIGSYS : Z; SIGPIPE : Z;
  SIGTERM : Z; SIGCHLD : Z; SIGTSTP : Z; SIGTTIN : Z; SIGTTOU : Z;
  EINTR : Z; EAGAIN : Z;
  WIFEXITED : Z -> bool;
  WIFSIGNALED : Z -> bool;
  WEXITSTATUS : Z -> Z;
  WTERMSIG : Z -> Z;
  CYGWIN_VERSION_DLL_MAJOR : Z;
  MAX_PATH : Z;
  strsignal : Z -> string;
  strerror : Z -> string;
  getpid : Z;
  UT_LINESIZE : nat; UT_IDLEN : nat; UT_NAMESIZE : nat
}.

(** The values of Cygwin's own headers, used to run the model on concrete
    inputs. *)
Definition cygwin_strsignal (sig : Z) : string :=
  if Z.eqb sig 1 then "Hangup"
  else if Z.eqb sig 2 then "Interrupt"
  else if Z.eqb sig 9 then "Killed"
  else if Z.eqb sig 11 then "Segmentation fault"
  else if Z.eqb sig 15 then "Terminated"
  else "Unknown signal".

Definition cygwin_strerror (e : Z) : string :=
  if Z.eqb e 11 then "Resource temporarily unavailable"
  else if Z.eqb e 13 then "Permission denied"
  else "Unknown error".

#[local] Instance cygwin : Platform := {|
  SIGHUP := 1; SIGINT := 2; SIGQUIT := 3; SIGILL := 4; SIGTRAP := 5;
  SIGABRT := 6; SIGFPE := 8; SIGKILL := 9; SIGBUS := 10; SIGSEGV := 11;
  SIGSYS := 12; SIGPIPE := 13; SIGTERM := 15; SIGCHLD := 20; SIGTSTP := 18;
  SIGTTIN := 21; SIGTTOU := 22;
  EINTR := 4; EAGAIN := 11;
  WIFEXITED := fun w => Z.land w 255 =? 0;
  WIFSIGNALED := fun w => (0 <? Z.land w 127) && (Z.land w 127 <? 127);
  WEXITSTATUS := fun w => Z.land (Z.shiftr w 8) 255;
  WTERMSIG := fun w => Z.land w 127;
  CYGWIN_VERSION_DLL_MAJOR := 1007;
  MAX_PATH := 260;
  strsignal := cygwin_strsignal;
  strerror := cygwin_strerror;
  getpid := 4242;
  UT_LINESIZE := 16; UT_IDLEN := 2; UT_NAMESIZE := 16
|}.

(** ** The module's state *)

(** Modelled from the spec: [hold_t] of config.h is not in the sources.  The
    spec names the policies NEVER, DEFAULT and ERROR, the three that
    [sigchld] tests; [HOLD_ALWAYS] stands for any other value, which falls
    through its chain of tests. *)
Inductive hold_t := HOLD_NEVER | HOLD_DEFAULT | HOLD_ERROR | HOLD_ALWAYS.

Definition hold_eqb (a b : hold_t) : bool :=
  match a, b with
  | HOLD_NEVER, HOLD_NEVER | HOLD_DEFAULT, HOLD_DEFAULT
  | HOLD_ERROR, HOLD_ERROR | HOLD_ALWAYS, HOLD_ALWAYS => true
  | _, _ => false
  end.

(** [home], [cmd] and the static variables of child.c, with the configured
    [hold] policy and [errno]. *)
Record globals := mkGlobals {
  home : string;
  cmd : string;
  pid : Z;
  status : Z;
  killed : bool;
  pty_fd : Z;
  log_fd : Z;
  win_fd : Z;
  hold : hold_t;
  errno : Z
}.

Definition set_pid (v : Z) (g : globals) : globals :=
  mkGlobals (home g) (cmd g) v (status g) (killed g) (pty_fd g) (log_fd g)
            (win_fd g) (hold g) (errno g).
Definition set_status (v : Z) (g : globals) : globals :=
  mkGlobals (home g) (cmd g) (pid g) v (killed g) (pty_fd g) (log_fd g)
            (win_fd g) (hold g) (errno g).
Definition set_killed (v : bool) (g : globals) : globals :=
  mkGlobals (home g) (cmd g) (pid g) (status g) v (pty_fd g) (log_fd g)
            (win_fd g) (hold g) (errno g).
Definition set_pty_fd (v : Z) (g : globals) : globals :=
  mkGlobals (home g) (cmd g) (pid g) (status g) (killed g) v (log_fd g)
            (win_fd g) (hold g) (errno g).
Definition set_log_fd (v : Z) (g : globals) : globals :=
  mkGlobals (home g) (cmd g) (pid g) (status g) (killed g) (pty_fd g) v
            (win_fd g) (hold g) (errno g).
Definition set_win_fd (v : Z) (g : globals) : globals :=
  mkGlobals (home g) (cmd g) (pid g) (status g) (killed g) (pty_fd g)
            (log_fd g) v (hold g) (errno g).
Definition set_errno (v : Z) (g : globals) : globals :=
  mkGlobals (home g) (cmd g) (pid g) (status g) (killed g) (pty_fd g)
            (log_fd g) (win_fd g) (hold g) v.

(** The static initialisers: no child, no status, no descriptor. *)
Definition initial (h c : string) (p : hold_t) : globals :=
  mkGlobals h c 0 (-1) false (-1) (-1) 0 p 0.

(** ** Calls to the outside *)

Inductive handler := SIG_DFL | SIG_IGN | Hsigexit | Hsigchld.

(** [term_write] is called from four places; the event keeps which. *)
Inductive origin := PtyData | StatusLine | Echo | ErrorMsg.

Inductive event :=
| EvSignal (sig : Z) (h : handler)          (* signal(sig, h) *)
| EvKill (target : Z) (sig : Z)             (* kill(target, sig) *)
| EvTermWrite (o : origin) (bs : string)    (* term_write(bs, len) *)
| EvTermResetScreen                         (* term_reset_screen() *)
| EvPtyWrite (bs : string) (ret : Z)        (* write(pty_fd, bs, len) = ret *)
| EvLogWrite (bs : string)                  (* write(log_fd, bs, len) *)
| EvIoctlWinsz (fd : Z)                     (* ioctl(fd, TIOCSWINSZ, winp) *)
| EvFcntlNonblock (fd : Z)                  (* fcntl(fd, F_SETFL, O_NONBLOCK) *)
| EvLogin (ut_pid : Z) (ut_line ut_id ut_user : string)   (* login(&ut) *)
| EvAllocConsole
| EvHideConsole                             (* ShowWindowAsync(.., SW_HIDE) *)
| EvSetenv (name value : string)
| EvUnsetenv (name : string)
| EvTcsetattr (verase : Z)                  (* VERASE; VSTOP = VSTART = 0 *)
| EvExecvp (file : string)
| EvFprintfStderr (msg : string).

Definition trace := list event.

(** ** The monad: state, trace, and [exit] *)

Inductive res (A : Type) :=
| Ret (a : A)          (* the function returned *)
| Exit (code : Z)      (* exit(code) was called *)
| Exec.                (* the process image was replaced *)
Arguments Ret {A} a.
Arguments Exit {A} code.
Arguments Exec {A}.

Definition M (A : Type) : Type := globals -> trace * globals * res A.

Definition ret {A} (a : A) : M A := fun s => ([], s, Ret a).

Definition bind {A B} (m : M A) (k : A -> M B) : M B := fun s =>
  match m s with
  | (t1, s1, Ret a) => let '(t2, s2, r) := k a s1 in (t1 ++ t2, s2, r)%list
  | (t1, s1, Exit c) => (t1, s1, Exit c)
  | (t1, s1, Exec) => (t1, s1, Exec)
  end.

Notation "x <- m ;; k" := (bind m (fun x => k))
  (at level 61, m at next level, right associativity).
Notation "m ;; k" := (bind m (fun _ => k))
  (at level 61, right associativity).

Definition gets {A} (f : globals -> A) : M A := fun s => ([], s, Ret (f s)).
Definition modify (f : globals -> globals) : M unit :=
  fun s => ([], f s, Ret tt).
Definition emit (e : event) : M unit := fun s => ([e], s, Ret tt).
Definition exit {A} (code : Z) : M A := fun s => ([], s, Exit code).
Definition replaced {A} : M A := fun s => ([], s, Exec).
Definition when (b : bool) (m : M unit) : M unit := if b then m else ret tt.

Definition run_trace {A} (r : trace * globals * res A) : trace := fst (fst r).
Definition run_state {A} (r : trace * globals * res A) : globals :=
  snd (fst r).
Definition run_res {A} (r : trace * globals * res A) : res A := snd r.

(** A run that comes after the calls of [t]. *)
Definition after {A} (t : trace) (r : trace * globals * res A)
  : trace * globals * res A :=
  let '(t', s, x) := r in ((t ++ t')%list, s, x).

(** ** C integers *)

(** A value brought into the range of a 32-bit [int]. *)
Definition int32 (z : Z) : Z := (z + 2 ^ 31) mod 2 ^ 32 - 2 ^ 31.

(** [a << n] on [int]: the shifted value cut to 32 bits.  C defines the shift
    for a count from 0 to 31 only.  For any other count the model takes what
    the shift instruction of the x86 code computes, which uses the count
    modulo 32: [1 << 36] is [1 << 4]. *)
Definition shl (a n : Z) : Z := int32 (Z.shiftl a (n mod 32)).

(** [printf]'s %i and %u. *)
Definition decimal (z : Z) : string := NilZero.string_of_int (Z.to_int z).

Section Supervisor.
Context {P : Platform}.

(** ** sigchld *)

(** One answer of [waitpid(-1, &chld_status, WNOHANG)]: the value returned,
    the status stored, and [errno] when the value is -1. *)
Record wait_result := mkWait { w_pid : Z; w_status : Z; w_errno : Z }.

(** [error_sigs] of the HOLD_ERROR branch. *)
Definition error_sigs : Z :=
  Z.lor (Z.lor (Z.lor (Z.lor (Z.lor (Z.lor (Z.lor
    (shl 1 SIGILL) (shl 1 SIGTRAP)) (shl 1 SIGABRT)) (shl 1 SIGFPE))
    (shl 1 SIGBUS)) (shl 1 SIGSEGV)) (shl 1 SIGPIPE)) (shl 1 SIGSYS).

(** "Decide whether we want to exit now or later". *)
Definition decide_exit : M unit :=
  k <- gets killed ;;
  h <- gets hold ;;
  st <- gets status ;;
  if k || hold_eqb h HOLD_NEVER then exit 0
  else if hold_eqb h HOLD_DEFAULT then
    when (WIFSIGNALED st || negb (WEXITSTATUS st =? 255)) (exit 0)
  else if hold_eqb h HOLD_ERROR then
    if WIFEXITED st then when (WEXITSTATUS st =? 0) (exit 0)
    else when (negb (Z.land error_sigs (shl 1 (WTERMSIG st)) =? 0)) (exit 0)
  else ret tt.

(** The [for (;;)] loop.  [ws] holds what the successive [waitpid] calls
    answer; once it is used up, [waitpid] finds nothing and returns 0.  The
    answers not consumed are returned. *)
Fixpoint sigchld_loop (ws : list wait_result) : M (list wait_result) :=
  match ws with
  | [] => modify (set_errno 0) ;; ret []
  | w :: ws' =>
      modify (set_errno (if w_pid w =? -1 then w_errno w else 0)) ;;
      p <- gets pid ;;
      e <- gets errno ;;
      if ((0 <? w_pid w) && negb (w_pid w =? p))
         || ((w_pid w =? -1) && (e =? EINTR))
      then sigchld_loop ws'
      else if w_pid w <=? 0 then ret ws'
      else
        modify (set_pid 0) ;;
        modify (set_status (w_status w)) ;;
        decide_exit ;;
        sigchld_loop ws'
  end.

Definition signal (sig : Z) (h : handler) : M unit := emit (EvSignal sig h).

Definition sigchld (sig : Z) (ws : list wait_result) : M (list wait_result) :=
  saved_errno <- gets errno ;;
  rest <- sigchld_loop ws ;;
  modify (set_errno saved_errno) ;;
  signal sig Hsigchld ;;
  ret rest.

(** ** error, sigexit *)

Definition error (action : string) : M unit :=
  e <- gets errno ;;
  emit (EvTermWrite ErrorMsg
          ("Failed to " +++ action +++ ": " +++ strerror e +++ ".")).

(** The calls of the handler.  What the signal it sends to the process
    itself does to the process is in [life] below. *)
Definition sigexit (sig : Z) : M unit :=
  p <- gets pid ;;
  when (negb (p =? 0)) (emit (EvKill (- p) SIGHUP)) ;;
  signal sig SIG_DFL ;;
  emit (EvKill getpid sig).

(** ** child_create *)

(** What the calls of [child_create] answer, and the configuration it
    reads. *)
Record spawn := mkSpawn {
  sp_lang : option string;          (* cs_init() *)
  sp_forkpty : Z;                   (* value returned by forkpty *)
  sp_master : Z;                    (* descriptor it stores in pty_fd *)
  sp_fork_errno : Z;                (* errno when it fails *)
  sp_windows7 : bool;               (* GetVersion() is 6.1 or later *)
  sp_alloc_console : bool;          (* AllocConsole() *)
  sp_exec_errno : Z;                (* errno when execvp returns *)
  sp_exec_fails : bool;
  sp_ptsname : option string;
  sp_getlogin : option string;
  sp_open_windows : Z;              (* open("/dev/windows", O_RDONLY) *)
  sp_open_log : Z;                  (* open(log_file, ...) *)
  sp_open_log_errno : Z;
  cfg_term : string;
  cfg_backspace_sends_bs : bool;
  utmp_enabled : bool;
  log_file : option string
}.

Definition has_prefix (p s : string) : bool := String.prefix p s.

Definition drop (n : nat) (s : string) : string :=
  substring n (String.length s - n) s.

(** The child side of the fork, up to [execvp]. *)
Definition child_side (sp : spawn) : M unit :=
  when ((CYGWIN_VERSION_DLL_MAJOR <? 1007)
        && (negb (CYGWIN_VERSION_DLL_MAJOR =? 1005) || sp_windows7 sp))
       (emit EvAllocConsole ;;
        when (sp_alloc_console sp) (emit EvHideConsole)) ;;
  signal SIGHUP SIG_DFL ;;
  signal SIGINT SIG_DFL ;;
  signal SIGQUIT SIG_DFL ;;
  signal SIGTERM SIG_DFL ;;
  signal SIGCHLD SIG_DFL ;;
  signal SIGTSTP SIG_IGN ;;
  signal SIGTTIN SIG_IGN ;;
  signal SIGTTOU SIG_IGN ;;
  emit (EvSetenv "TERM" (cfg_term sp)) ;;
  match sp_lang sp with
  | Some lang =>
      emit (EvUnsetenv "LC_ALL") ;;
      emit (EvUnsetenv "LC_CTYPE") ;;
      emit (EvSetenv "LANG" lang)
  | None => ret tt
  end ;;
  emit (EvTcsetattr (if cfg_backspace_sends_bs sp then 8 else 127)) ;;
  c <- gets cmd ;;
  emit (EvExecvp c) ;;
  if sp_exec_fails sp then
    emit (EvFprintfStderr
            (c +++ ": " +++ strerror (sp_exec_errno sp)
               +++ String "013" (String "010" ""))) ;;
    exit 255
  else replaced.

(** The accounting record of the parent side. *)
Definition write_utmp (sp : spawn) : M unit :=
  p <- gets pid ;;
  let user : string :=
    match sp_getlogin sp with Some u => u | None => "?"%string end in
  match sp_ptsname sp with
  | Some dev =>
      let dev1 := if has_prefix "/dev/" dev then drop 5 dev else dev in
      let dev2 := if has_prefix "pty" dev1 || has_prefix "tty" dev1
                  then drop 3 dev1 else dev1 in
      emit (EvLogin p (substring 0 UT_LINESIZE dev1)
                      (substring 0 UT_IDLEN dev2)
                      (substring 0 UT_NAMESIZE user))
  | None => emit (EvLogin p "" "" (substring 0 UT_NAMESIZE user))
  end.

Definition child_create (sp : spawn) : M unit :=
  signal SIGHUP SIG_IGN ;;
  signal SIGINT Hsigexit ;;
  signal SIGTERM Hsigexit ;;
  signal SIGQUIT Hsigexit ;;
  signal SIGCHLD Hsigchld ;;
  modify (set_pid (sp_forkpty sp)) ;;
  (if sp_forkpty sp <? 0 then
     modify (set_pid 0) ;;
     modify (set_errno (sp_fork_errno sp)) ;;
     let rebase_prompt := sp_fork_errno sp =? EAGAIN in
     error "fork child process" ;;
     when rebase_prompt
       (emit (EvTermWrite ErrorMsg
          (String "013" (String "010"
             "DLL rebasing may be required. See 'rebaseall --help'."))))
   else if sp_forkpty sp =? 0 then child_side sp
   else
     modify (set_pty_fd (sp_master sp)) ;;
     emit (EvFcntlNonblock (sp_master sp)) ;;
     when (utmp_enabled sp) (write_utmp sp)) ;;
  modify (set_win_fd (sp_open_windows sp)) ;;
  match log_file sp with
  | Some _ =>
      modify (set_log_fd (sp_open_log sp)) ;;
      when (sp_open_log sp <? 0)
        (modify (set_errno (sp_open_log_errno sp)) ;; error "open log file")
  | None => ret tt
  end.

(** ** child_kill, child_write, child_send, child_sendw, child_resize *)

(** What [kill] and [write] return when one of these functions calls
    them. *)
Record syscalls := mkSys { kill_ret : Z; write_ret : Z }.

Definition child_kill (point_blank : bool) (sc : syscalls) : M unit :=
  p <- gets pid ;;
  if p =? 0 then exit 0
  else
    emit (EvKill (- p) (if point_blank then SIGKILL else SIGHUP)) ;;
    if (kill_ret sc <? 0) || point_blank then exit 0
    else modify (set_killed true).

Definition child_write (buf : string) (sc : syscalls) : M unit :=
  fd <- gets pty_fd ;;
  if 0 <=? fd then emit (EvPtyWrite buf (write_ret sc))
  else child_kill false sc.

(** [echoing] is [term.echoing]. *)
Definition child_send (buf : string) (echoing : bool) (sc : syscalls)
  : M unit :=
  emit EvTermResetScreen ;;
  when echoing (emit (EvTermWrite Echo buf)) ;;
  child_write buf sc.

Definition wchar := Z.

(** charset.h: [cs_wcntombn ws len wlen] is the value returned and the bytes
    stored in the destination. *)
Class Charset := {
  cs_cur_max : Z;
  cs_wcntombn : list wchar -> Z -> Z -> Z * string
}.

Definition child_sendw {C : Charset} (ws : list wchar) (wlen : Z)
  (echoing : bool) (sc : syscalls) : M unit :=
  let '(len, s) := cs_wcntombn ws (wlen * cs_cur_max) wlen in
  if 0 <? len then child_send (substring 0 (Z.to_nat len) s) echoing sc
  else ret tt.

Definition child_resize : M unit :=
  fd <- gets pty_fd ;;
  when (0 <=? fd) (emit (EvIoctlWinsz fd)).

End Supervisor.

(** ** child_proc *)

Section Bridge.
Context {P : Platform}.

(** What the pty delivers to successive [read] calls: bytes, of which a call
    takes as many as it asked for and leaves the rest, or a failure.  An
    empty delivery is the end of file; a used-up list reads as one too. *)
Inductive pty_read := RdData (bs : string) | RdError.

Definition pty_stream := list pty_read.

(** [read(pty_fd, buf, n)]: the value returned, the bytes stored, and what
    the pty still holds. *)
Definition read (n : nat) (q : pty_stream) : Z * string * pty_stream :=
  match q with
  | [] => (0, EmptyString, [])
  | RdError :: q' => (-1, EmptyString, q')
  | RdData bs :: q' =>
      if (String.length bs <=? n)%nat
      then (Z.of_nat (String.length bs), bs, q')
      else (Z.of_nat n, substring 0 n bs, RdData (drop n bs) :: q')
  end.

(** The [do ... while] of the old Cygwin versions, which fills a buffer of
    512 bytes.  Every round adds a byte at least, so 512 rounds are never
    used up. *)
Fixpoint read_haul (rounds : nat) (len : nat) (buf : string) (q : pty_stream)
  : Z * string * pty_stream :=
  match rounds with
  | O => (Z.of_nat len, buf, q)
  | S rounds' =>
      let '(ret, bs, q') := read (512 - len) q in
      if 0 <? ret then
        let len' := (len + Z.to_nat ret)%nat in
        if (len' <? 512)%nat then read_haul rounds' len' (buf +++ bs) q'
        else (Z.of_nat len', buf +++ bs, q')
      else (Z.of_nat len, buf, q')
  end.

(** The body of [if (pty_fd >= 0 && FD_ISSET(pty_fd, &fds))]. *)
Definition pty_input (q : pty_stream) : M pty_stream :=
  let '(len, buf, q') :=
    if 1005 <=? CYGWIN_VERSION_DLL_MAJOR then read 4096 q
    else read_haul 512 0 EmptyString q in
  if 0 <? len then
    emit (EvTermWrite PtyData buf) ;;
    lf <- gets log_fd ;;
    when (0 <=? lf) (emit (EvLogWrite buf)) ;;
    ret q'
  else
    modify (set_pty_fd (-1)) ;;
    ret q'.

(** The body of [if (status != -1 && pty_fd == -1)]. *)
Definition report_status : M unit :=
  st <- gets status ;;
  fd <- gets pty_fd ;;
  when (negb (st =? -1) && (fd =? -1))
    (c <- gets cmd ;;
     (if WIFEXITED st then
        let code := WEXITSTATUS st in
        when (negb (code =? 0) && negb (code =? 255))
          (emit (EvTermWrite StatusLine (c +++ ": Exit " +++ decimal code)))
      else
        when (WIFSIGNALED st)
          (emit (EvTermWrite StatusLine
                   (c +++ ": " +++ strsignal (WTERMSIG st))))) ;;
     modify (set_status (-1))).

(** Modelled from the spec: [term_send_paste] of term.c is not in the
    sources; it flushes the staged paste buffer to the child, a write that
    can itself start the kill on a closed pty, that is [child_send]. *)
Definition term_send_paste (staged : string) (echoing : bool)
  (sc : syscalls) : M unit :=
  child_send staged echoing sc.

(** One round of the loop as the outside drives it: the paste buffer staged
    at its top, a SIGCHLD that arrives while [select] waits, and what
    [select] reports. *)
Record round := mkRound {
  rd_paste : option string;             (* term.paste_buffer *)
  rd_echoing : bool;                    (* term.echoing *)
  rd_sys : syscalls;
  rd_sigchld : option (list wait_result);
  rd_select : Z;                        (* value returned by select *)
  rd_pty_isset : bool;                  (* FD_ISSET(pty_fd, &fds) *)
  rd_win_isset : bool                   (* FD_ISSET(win_fd, &fds) *)
}.

Inductive proc_end :=
| HostEvent     (* returned to the caller *)
| Looping.      (* still in the loop after the rounds given *)

(** The loop over the rounds given. *)
Fixpoint child_proc (rds : list round) (q : pty_stream)
  : M (proc_end * pty_stream) :=
  match rds with
  | [] => ret (Looping, q)
  | rd :: rds' =>
      match rd_paste rd with
      | Some staged => term_send_paste staged (rd_echoing rd) (rd_sys rd)
      | None => ret tt
      end ;;
      report_status ;;
      match rd_sigchld rd with
      | Some ws => _ <- sigchld SIGCHLD ws ;; ret tt
      | None => ret tt
      end ;;
      if 0 <? rd_select rd then
        fd <- gets pty_fd ;;
        q' <- (if (0 <=? fd) && rd_pty_isset rd then pty_input q
               else ret q) ;;
        if rd_win_isset rd then ret (HostEvent, q')
        else child_proc rds' q'
      else child_proc rds' q
  end.

End Bridge.

(** ** child_conv_path *)

Section Paths.
Context {P : Platform} {C : Charset}.

(** What the libc and Cygwin lookups of [child_conv_path] answer. *)
Class PathHost := {
  getpwnam : string -> option (option string);   (* the entry's pw_dir *)
  tcgetpgrp : Z -> Z;
  realpath : string -> option string;
  cygwin_create_path : string -> option (list wchar);
  cygwin_conv_to_win32_path : string -> string;
  MultiByteToWideChar : string -> list wchar
}.
Context {H : PathHost}.

(** A wide string literal. *)
Definition L (s : string) : list wchar :=
  map (fun c => Z.of_N (N_of_ascii c)) (list_ascii_of_string s).

Fixpoint wcslen (w : list wchar) : nat :=
  match w with
  | [] => O
  | c :: w' => if c =? 0 then O else S (wcslen w')
  end.

(** The bytes of a buffer up to its first NUL. *)
Fixpoint cstr (s : string) : string :=
  match s with
  | EmptyString => EmptyString
  | String c s' => if Ascii.eqb c "000" then EmptyString
                   else String c (cstr s')
  end.

(** [strchr(s, c)] as the part before the first [c] and the part after
    it. *)
Fixpoint strchr (s : string) (c : ascii) : option (string * string) :=
  match s with
  | EmptyString => None
  | String d s' =>
      if Ascii.eqb d c then Some (EmptyString, s')
      else match strchr s' c with
           | Some (before, rest) => Some (String d before, rest)
           | None => None
           end
  end.

Fixpoint wide_eqb (a b : list wchar) : bool :=
  match a, b with
  | [], [] => true
  | x :: a', y :: b' => (x =? y) && wide_eqb a' b'
  | _, _ => false
  end.

(** The conversion to the multibyte [path] buffer.  It has no defined
    result when the length returned is negative or leaves no room for the
    closing NUL. *)
Definition mb_path (wpath : list wchar) : option string :=
  let wlen := Z.of_nat (wcslen wpath) in
  let len := wlen * cs_cur_max in
  let '(n, buf) := cs_wcntombn wpath len wlen in
  if (0 <=? n) && (n <? len)
  then Some (cstr (substring 0 (Z.to_nat n) buf))
  else None.

(** Tilde expansion and the resolution of relative paths: [exp_path]. *)
Definition expand_path (g : globals) (path : string) : string :=
  match path with
  | String "~" after_tilde =>
      let '(name, rest) :=
        match strchr path "/" with
        | Some (before, rest) => (drop 1 before, rest)
        | None => (after_tilde, EmptyString)
        end in
      let base :=
        match name with
        | EmptyString => home g
        | _ =>
            if 1005 <=? CYGWIN_VERSION_DLL_MAJOR then
              match getpwnam name with
              | Some (Some dir) => dir
              | _ => EmptyString
              end
            else EmptyString
        end in
      base +++ "/" +++ rest
  | String "/" _ => path
  | _ =>
      if 1005 <=? CYGWIN_VERSION_DLL_MAJOR then
        let fg_pid0 := if 0 <=? pty_fd g then tcgetpgrp (pty_fd g) else 0 in
        let fg_pid := if fg_pid0 <=? 0 then pid g else fg_pid0 in
        let cwd :=
          if 0 <? fg_pid
          then realpath ("/proc/" +++ decimal fg_pid +++ "/cwd")
          else None in
        match cwd with
        | Some dir => dir +++ "/" +++ path
        | None => home g +++ "/" +++ path
        end
      else home g +++ "/" +++ path
  end.

(** The conversion of [exp_path] to a Windows path, with the long path
    prefix dropped where possible. *)
Definition to_win (exp_path : string) : option (list wchar) :=
  if 1007 <=? CYGWIN_VERSION_DLL_MAJOR then
    match cygwin_create_path exp_path with
    | Some w =>
        if Z.of_nat (wcslen w) <? MAX_PATH then
          if wide_eqb (firstn 8 w) (L "\\?\UNC\")
          then Some (92 :: tl (skipn 6 w))
          else if wide_eqb (firstn 4 w) (L "\\?\")
          then Some (skipn 4 w)
          else Some w
        else Some w
    | None => None
    end
  else Some (MultiByteToWideChar (cygwin_conv_to_win32_path exp_path)).

Definition is_absolute (path : string) : bool :=
  match path with
  | String "/" _ => true
  | _ => false
  end.

(** [None]: no defined result; [Some None]: a null pointer. *)
Definition child_conv_path (g : globals) (wpath : list wchar)
  : option (option (list wchar)) :=
  match mb_path wpath with
  | Some path => Some (to_win (expand_path g path))
  | None => None
  end.

End Paths.

(** ** child_is_parent *)

Section ProcessTable.
Context {P : Platform}.

(** What [child_is_parent] finds under /proc: the names [readdir] gives, or
    nothing when [opendir] fails; and, for a file name, whether [fopen]
    opens it and the number [fscanf] reads from it, if it reads one. *)
Record proc_fs := mkProc {
  proc_entries : option (list string);
  proc_ppid : string -> option (option Z)
}.

Inductive proc_event :=
| PrOpendir (ok : bool)
| PrClosedir
| PrFopen (fn : string) (ok : bool)
| PrFclose (fn : string).

Definition isdigit (c : ascii) : bool :=
  (48 <=? nat_of_ascii c)%nat && (nat_of_ascii c <=? 57)%nat.

Definition starts_with_digit (pn : string) : bool :=
  match pn with
  | String c _ => isdigit c
  | EmptyString => false
  end.

(** [snprintf(dst, n, ...)] stores [n - 1] bytes at most. *)
Definition snprintf (n : nat) (s : string) : string := substring 0 (n - 1) s.

(** The [while ((e = readdir(d)))] loop: the result and the files opened
    and closed. *)
Fixpoint scan_proc (fs : proc_fs) (p : Z) (entries : list string)
  : bool * list proc_event :=
  match entries with
  | [] => (false, [])
  | pn :: entries' =>
      if starts_with_digit pn && (String.length pn <=? 6)%nat then
        let fn := "/proc/" +++ snprintf 12 (pn +++ "/ppid") in
        match proc_ppid fs fn with
        | None =>
            let '(res, t) := scan_proc fs p entries' in
            (res, PrFopen fn false :: t)
        | Some scanned =>
            let ppid := match scanned with Some v => v | None => 0 end in
            if ppid =? p then (true, [PrFopen fn true; PrFclose fn])
            else
              let '(res, t) := scan_proc fs p entries' in
              (res, PrFopen fn true :: PrFclose fn :: t)
        end
      else scan_proc fs p entries'
  end.

Definition child_is_parent (g : globals) (fs : proc_fs)
  : bool * list proc_event :=
  if pid g =? 0 then (false, [])
  else
    match proc_entries fs with
    | None => (false, [PrOpendir false])
    | Some entries =>
        let '(res, t) := scan_proc fs (pid g) entries in
        (res, PrOpendir true :: t ++ [PrClosedir])
    end.

(** The files and directories a trace leaves open. *)
Fixpoint left_open (files dirs : Z) (t : list proc_event) : Z * Z :=
  match t with
  | [] => (files, dirs)
  | PrOpendir true :: t' => left_open files (dirs + 1) t'
  | PrClosedir :: t' => left_open files (dirs - 1) t'
  | PrFopen _ true :: t' => left_open (files + 1) dirs t'
  | PrFclose _ :: t' => left_open (files - 1) dirs t'
  | _ :: t' => left_open files dirs t'
  end.

(** An entry that [child_is_parent] looks into: a name of six characters at
    most that starts with a digit. *)
Definition looked_into (pn : string) : bool :=
  starts_with_digit pn && (String.length pn <=? 6)%nat.

(** ** child_fork *)

Inductive fork_event :=
| FkClose (fd : Z)
| FkExecv (path : string)
| FkExecvp (file : string).

Inductive fork_end :=
| ForkReturns               (* back in the caller *)
| ForkReplaced              (* the image of the new process is replaced *)
| ForkExits (code : Z).

Fixpoint last_char (s : string) : option ascii :=
  match s with
  | EmptyString => None
  | String c EmptyString => Some c
  | String _ s' => last_char s'
  end.

Definition is_quote (c : option ascii) : bool :=
  match c with
  | Some c => Ascii.eqb c "034"
  | None => false
  end.

(** "Strip enclosing quotes if present".  For a path that is one quote the
    code writes before the copy it made: no defined result. *)
Definition strip_quotes (path : string) : option string :=
  let len := String.length path in
  if is_quote (get 0 path) && is_quote (last_char path) then
    if (len <=? 1)%nat then None
    else Some (substring 0 (len - 2) (drop 1 path))
  else Some path.

(** [fork_ret] is what [fork] returns, [argv0] is [argv[0]], and
    [exec_returns] tells whether the exec call comes back. *)
Definition child_fork (g : globals) (fork_ret : Z) (argv0 : string)
  (exec_returns : bool) : option (list fork_event * fork_end) :=
  if fork_ret =? 0 then
    let closes :=
      ((if 0 <=? pty_fd g then [FkClose (pty_fd g)] else [])
       ++ (if 0 <=? log_fd g then [FkClose (log_fd g)] else [])
       ++ [FkClose (win_fd g)])%list in
    let ending := if exec_returns then ForkExits 255 else ForkReplaced in
    if 1005 <=? CYGWIN_VERSION_DLL_MAJOR then
      Some ((closes ++ [FkExecv "/proc/self/exe"])%list, ending)
    else
      match strip_quotes argv0 with
      | Some path => Some ((closes ++ [FkExecvp path])%list, ending)
      | None => None
      end
  else Some ([], ForkReturns).

End ProcessTable.

(** ** Reading traces and runs *)

Section Observations.
Context {P : Platform}.

(** [waitpid]'s answer sends the loop of [sigchld] back to its top: another
    process than [p] died, or the call was interrupted. *)
Definition skips (p : Z) (w : wait_result) : bool :=
  ((0 <? w_pid w) && negb (w_pid w =? p))
  || ((w_pid w =? -1) && (w_errno w =? EINTR)).

(** What the loop leaves of [ws] when it tracks no child: it goes on until
    an answer that is not skipped. *)
Fixpoint drain (ws : list wait_result) : list wait_result :=
  match ws with
  | [] => []
  | w :: ws' => if skips 0 w then drain ws' else ws'
  end.



(** The handler in place for [sig] after the calls of [t], when it was [h]
    before them. *)
Fixpoint disposition_from (h : handler) (t : trace) (sig : Z) : handler :=
  match t with
  | [] => h
  | EvSignal sig' h' :: t' =>
      disposition_from (if sig' =? sig then h' else h) t' sig
  | _ :: t' => disposition_from h t' sig
  end.

Definition disposition (t : trace) (sig : Z) : handler :=
  disposition_from SIG_DFL t sig.

Definition origin_eqb (a b : origin) : bool :=
  match a, b with
  | PtyData, PtyData | StatusLine, StatusLine | Echo, Echo
  | ErrorMsg, ErrorMsg => true
  | _, _ => false
  end.

(** The bytes given to [term_write] from the place [o], in order. *)
Fixpoint shown (o : origin) (t : trace) : string :=
  match t with
  | [] => EmptyString
  | EvTermWrite o' bs :: t' =>
      if origin_eqb o' o then bs +++ shown o t' else shown o t'
  | _ :: t' => shown o t'
  end.

(** All the bytes given to [term_write]. *)
Fixpoint displayed (t : trace) : string :=
  match t with
  | [] => EmptyString
  | EvTermWrite _ bs :: t' => bs +++ displayed t'
  | _ :: t' => displayed t'
  end.

(** The bytes written to the log file. *)
Fixpoint logged (t : trace) : string :=
  match t with
  | [] => EmptyString
  | EvLogWrite bs :: t' => bs +++ logged t'
  | _ :: t' => logged t'
  end.

(** The number of status lines written. *)
Fixpoint status_lines (t : trace) : nat :=
  match t with
  | [] => O
  | EvTermWrite StatusLine _ :: t' => S (status_lines t')
  | _ :: t' => status_lines t'
  end.

(** The signals sent to [target]. *)
Fixpoint signals_sent (target : Z) (t : trace) : list Z :=
  match t with
  | [] => []
  | EvKill target' sig :: t' =>
      if target' =? target then sig :: signals_sent target t'
      else signals_sent target t'
  | _ :: t' => signals_sent target t'
  end.

(** The bytes a pty stream delivers. *)
Fixpoint pty_bytes (q : pty_stream) : string :=
  match q with
  | [] => EmptyString
  | RdData bs :: q' => bs +++ pty_bytes q'
  | RdError :: q' => pty_bytes q'
  end.

(** ** A session: what runs once [child_create] is done *)

Context {C : Charset}.

Inductive action :=
| Do_sigchld (sig : Z) (ws : list wait_result)
| Do_sigexit (sig : Z)
| Do_child_proc (rds : list round) (q : pty_stream)
| Do_child_kill (point_blank : bool) (sc : syscalls)
| Do_child_write (buf : string) (sc : syscalls)
| Do_child_send (buf : string) (echoing : bool) (sc : syscalls)
| Do_child_sendw (ws : list wchar) (wlen : Z) (echoing : bool)
    (sc : syscalls)
| Do_child_resize.

Definition perform (a : action) : M unit :=
  match a with
  | Do_sigchld sig ws => _ <- sigchld sig ws ;; ret tt
  | Do_sigexit sig => sigexit sig
  | Do_child_proc rds q => _ <- child_proc rds q ;; ret tt
  | Do_child_kill point_blank sc => child_kill point_blank sc
  | Do_child_write buf sc => child_write buf sc
  | Do_child_send buf echoing sc => child_send buf echoing sc
  | Do_child_sendw ws wlen echoing sc => child_sendw ws wlen echoing sc
  | Do_child_resize => child_resize
  end.

Fixpoint session (acts : list action) : M unit :=
  match acts with
  | [] => ret tt
  | a :: acts' => perform a ;; session acts'
  end.

(** How many status lines the state can still give rise to: one for a child
    still tracked, one for a status pending. *)
Definition pending_reports (s : globals) : nat :=
  Nat.add (if pid s =? 0 then O else S O) (if status s =? -1 then O else S O).

(** ** Properties of runs *)

(** A run from [s] that shows no pty bytes, writes nothing to the log file
    and keeps the log descriptor. *)
Definition silent_run {A} (s : globals) (r : trace * globals * res A)
  : Prop :=
  shown PtyData (run_trace r) = EmptyString
  /\ logged (run_trace r) = EmptyString
  /\ log_fd (run_state r) = log_fd s.

Definition silent {A} (m : M A) : Prop := forall s, silent_run s (m s).

Definition quiet_event (e : event) : bool :=
  match e with
  | EvTermWrite PtyData _ | EvLogWrite _ => false
  | _ => true
  end.

(** A run from [s] on the stream [q] that shows the bytes it takes from the
    stream, in order, writes the same bytes to the log file when there is
    one, and leaves the rest in the stream; [left] reads the stream left out
    of the value returned. *)
Definition relayed {A} (left : A -> pty_stream) (q : pty_stream)
  (s : globals) (r : trace * globals * res A) : Prop :=
  exists q',
    pty_bytes q = shown PtyData (run_trace r) +++ pty_bytes q'
    /\ logged (run_trace r)
       = (if 0 <=? log_fd s then shown PtyData (run_trace r)
          else EmptyString)
    /\ log_fd (run_state r) = log_fd s
    /\ forall a, run_res r = Ret a -> left a = q'.

(** A run from [s] that writes no more status lines than [s] had pending,
    counting those its final state still has. *)
Definition within {A} (s : globals) (r : trace * globals * res A) : Prop :=
  (status_lines (run_trace r) + pending_reports (run_state r)
   <= pending_reports s)%nat.

Definition frugal {A} (m : M A) : Prop := forall s, within s (m s).

End Observations.

(** ** What a session keeps *)

Section Keeping.
Context {P : Platform}.

(** The size of the static buffer [child_proc] reads into. *)
Definition buffer_size : nat :=
  if 1005 <=? CYGWIN_VERSION_DLL_MAJOR then 4096%nat else 512%nat.

(** How the state may differ after a run: the configuration and the log and
    window descriptors stay, [killed] is not taken back, [pid] and [pty_fd]
    stay or are reset, and [status] changes only when it is cleared or the
    child is reaped. *)
Definition steps_to (s s' : globals) : Prop :=
  home s' = home s /\ cmd s' = cmd s /\ hold s' = hold s
  /\ log_fd s' = log_fd s /\ win_fd s' = win_fd s
  /\ (killed s = true -> killed s' = true)
  /\ (pid s' = pid s \/ pid s' = 0)
  /\ (pty_fd s' = pty_fd s \/ pty_fd s' = -1)
  /\ (status s' = status s \/ status s' = -1
      \/ (pid s <> 0 /\ pid s' = 0)).

(** The calls a run that starts in [s] may make. *)
Definition allowed (s : globals) (e : event) : Prop :=
  match e with
  | EvKill target sig =>
      target = getpid
      \/ (pid s <> 0 /\ target = - pid s /\ (sig = SIGHUP \/ sig = SIGKILL))
  | EvTermWrite PtyData bs =>
      0 <= pty_fd s /\ (1 <= String.length bs <= buffer_size)%nat
  | EvLogWrite bs =>
      0 <= pty_fd s /\ 0 <= log_fd s
      /\ (1 <= String.length bs <= buffer_size)%nat
  | EvPtyWrite _ _ => 0 <= pty_fd s
  | EvIoctlWinsz fd => fd = pty_fd s /\ 0 <= fd
  | EvSignal _ h => h = SIG_DFL \/ h = Hsigchld
  | EvTermWrite _ _ | EvTermResetScreen => True
  | _ => False
  end.

(** A run from [s] that changes the state and calls the outside as above,
    and that ends, if it ends the process, with [exit(0)]. *)
Definition obeys {A} (s : globals) (r : trace * globals * res A) : Prop :=
  steps_to s (run_state r)
  /\ Forall (allowed s) (run_trace r)
  /\ match run_res r with
     | Ret _ => True
     | Exit code => code = 0
     | Exec => False
     end.

Definition lawful {A} (m : M A) : Prop := forall s, obeys s (m s).

(** A round in which [select] reports the host descriptor. *)
Definition host_event (rd : round) : bool :=
  (0 <? rd_select rd) && rd_win_isset rd.

(** A call that reads, writes or resizes the pty, or relays its bytes. *)
Definition pty_traffic (e : event) : bool :=
  match e with
  | EvPtyWrite _ _ | EvTermWrite PtyData _ | EvLogWrite _
  | EvIoctlWinsz _ => true
  | _ => false
  end.



End Keeping.

(** ** The life of the process *)

Section Lifetime.
Context {P : Platform} {C : Charset}.

(** How the process stands after a sequence of handler runs and calls. *)
Inductive ending :=
| Goes_on                  (* still running *)
| Exits (code : Z)         (* exit(code) was called *)
| Replaced                 (* the process image was replaced *)
| Dies_of (sig : Z).       (* ended by the default action of a signal *)

(** [sigexit] returns the signal it was called for to its default
    disposition and sends it to the process itself.  [ends] tells for which
    signals the default action ends the process, as it does for SIGINT,
    SIGTERM and SIGQUIT, the signals [sigexit] is installed for. *)
Definition raised (ends : Z -> bool) (a : action) : option Z :=
  match a with
  | Do_sigexit sig => if ends sig then Some sig else None
  | _ => None
  end.

(** The life of the process over the handler runs and calls of [acts]:
    nothing runs once the process has exited or has died of a signal. *)
Fixpoint life (ends : Z -> bool) (acts : list action) (s : globals)
  : trace * globals * ending :=
  match acts with
  | [] => ([], s, Goes_on)
  | a :: acts' =>
      match perform a s with
      | (t, s1, Ret _) =>
          match raised ends a with
          | Some sig => (t, s1, Dies_of sig)
          | None =>
              let '(t', s2, e) := life ends acts' s1 in ((t ++ t')%list, s2, e)
          end
      | (t, s1, Exit code) => (t, s1, Exits code)
      | (t, s1, Exec) => (t, s1, Replaced)
      end
  end.

End Lifetime.

(** ** Rounds of the loop *)

Section Rounds.
Context {P : Platform}.



End Rounds.

(** ** Shapes of paths *)

(** A base directory under which a path is absolute: an absolute directory,
    or the empty base. *)
Definition rooted (dir : string) : bool := is_absolute (dir +++ "/").

(** A path that starts neither with a tilde nor with a slash. *)
Definition is_relative (path : string) : bool :=
  match path with
  | String c _ => negb (Ascii.eqb c "~") && negb (Ascii.eqb c "/")
  | EmptyString => true
  end.

(** ** A session, a charset and path lookups to run the model on *)

(** A session under way: child 100 on pty descriptor 3, no log file. *)
Definition running (policy : hold_t) : globals :=
  mkGlobals "/home/u" "sh" 100 (-1) false 3 (-1) 4 policy 0.

(** The child is spawned as process 100 on descriptor 3. *)
Definition spawn_100 : spawn :=
  mkSpawn None 100 3 0 false false 0 false (Some "/dev/tty0"%string)
    (Some "u"%string) 4 (-1) 0 "xterm" false false None.

(** Child 100 prints "hi" and exits with code 1 under the ERROR policy: the
    session is held, the pty reaches its end, the status line is written. *)
Definition host_event_round : round :=
  mkRound None false (mkSys 0 0) None 1 false true.

Definition exit_1_rounds : list round :=
  [mkRound None false (mkSys 0 0) None 1 true false;
   mkRound None false (mkSys 0 0) (Some [mkWait 100 256 0]) (-1) false false;
   mkRound None false (mkSys 0 0) None 1 true false;
   host_event_round].

Definition exit_1_stream : pty_stream := [RdData "hi"; RdData ""].

(** That child reaped, its status pending, the pty closed. *)
Definition reaped_exit_1 : globals :=
  set_pty_fd (-1) (set_status 256 (set_pid 0 (running HOLD_ERROR))).

(** One byte per character, four bytes of room for each. *)
#[local] Instance latin_charset : Charset := {|
  cs_cur_max := 4;
  cs_wcntombn := fun ws len wlen =>
    let bytes := map (fun c => ascii_of_N (Z.to_N c))
                     (firstn (Z.to_nat wlen) ws) in
    (Z.of_nat (List.length bytes), string_of_list_ascii bytes)
|}.

(** A charset that converts nothing. *)
Definition mute_charset : Charset := {|
  cs_cur_max := 4;
  cs_wcntombn := fun _ _ _ => (0, EmptyString)
|}.

#[local] Instance plain_host : PathHost := {|
  getpwnam := fun _ => None;
  tcgetpgrp := fun _ => 0;
  realpath := fun _ => None;
  cygwin_create_path := fun p => Some (L ("\\?\C:\cygwin" +++ p));
  cygwin_conv_to_win32_path := fun p => p;
  MultiByteToWideChar := L
|}.

(** A host on which every path converts to a share of a server. *)
Definition unc_host : PathHost := {|
  getpwnam := fun _ => None;
  tcgetpgrp := fun _ => 0;
  realpath := fun _ => None;
  cygwin_create_path := fun p => Some (L "\\?\UNC\" ++ L ("srv\share" +++ p));
  cygwin_conv_to_win32_path := fun p => p;
  MultiByteToWideChar := L
|}.

(** A path of 301 characters. *)
Definition long_path : string :=
  String "/" (string_of_list_ascii (repeat "a"%char 300)).

(** The fork fails with EAGAIN. *)
Definition spawn_fails : spawn :=
  mkSpawn None (-1) 0 11 false false 0 false None None 4 (-1) 0 "xterm"
    false false None.

(** The child side of the fork, with an exec that fails. *)
Definition spawn_child : spawn :=
  mkSpawn (Some "C.UTF-8"%string) 0 0 0 false false 2 true None None 4 (-1)
    0 "xterm" false false None.

(** Under /proc: init, the child 100 of this terminal, and 4711, a child of
    100; "self" and "cpuinfo" are not process directories, and the name of
    1234567 is too long to be looked into. *)
Definition sample_proc : proc_fs :=
  mkProc (Some ["1"; "100"; "self"; "1234567"; "4711"; "cpuinfo"]%string)
    (fun fn =>
       if String.eqb fn "/proc/1/ppid" then Some (Some 0)
       else if String.eqb fn "/proc/100/ppid" then Some (Some 4242)
       else if String.eqb fn "/proc/4711/ppid" then Some (Some 100)
       else None).

(** A Cygwin older than 1.5: no /proc/self/exe, a buffer of 512 bytes. *)
Definition cygwin_1_3 : Platform := {|
  SIGHUP := 1; SIGINT := 2; SIGQUIT := 3; SIGILL := 4; SIGTRAP := 5;
  SIGABRT := 6; SIGFPE := 8; SIGKILL := 9; SIGBUS := 10; SIGSEGV := 11;
  SIGSYS := 12; SIGPIPE := 13; SIGTERM := 15; SIGCHLD := 20; SIGTSTP := 18;
  SIGTTIN := 21; SIGTTOU := 22;
  EINTR := 4; EAGAIN := 11;
  WIFEXITED := fun w => Z.land w 255 =? 0;
  WIFSIGNALED := fun w => (0 <? Z.land w 127) && (Z.land w 127 <? 127);
  WEXITSTATUS := fun w => Z.land (Z.shiftr w 8) 255;
  WTERMSIG := fun w => Z.land w 127;
  CYGWIN_VERSION_DLL_MAJOR := 1003;
  MAX_PATH := 260;
  strsignal := cygwin_strsignal;
  strerror := cygwin_strerror;
  getpid := 4242;
  UT_LINESIZE := 16; UT_IDLEN := 2; UT_NAMESIZE := 16
|}.

(** A string between double quotes. *)
Definition quoted (s : string) : string :=
  String "034" (s +++ String "034" EmptyString).

(** The log file cannot be opened: permission denied. *)
Definition spawn_no_log : spawn :=
  mkSpawn None 100 3 0 false false 0 false (Some "/dev/tty0"%string)
    (Some "u"%string) 4 (-1) 13 "xterm" false false (Some "/log"%string).

(** A table of default actions under which SIGINT, SIGQUIT and SIGTERM end
    the process. *)
Definition exit_signals_end (sig : Z) : bool :=
  existsb (Z.eqb sig) [2; 3; 15].


(** A host on which the foreground process of pty 3 is 200, whose working
    directory cannot be resolved, while that of every other process is
    /srv/work. *)
Definition lost_cwd_host : PathHost := {|
  getpwnam := fun _ => None;
  tcgetpgrp := fun fd => if fd =? 3 then 200 else 0;
  realpath := fun link =>
    if String.eqb link "/proc/200/cwd" then None
    else Some "/srv/work"%string;
  cygwin_create_path := fun p => Some (L ("\\?\C:\cygwin" +++ p));
  cygwin_conv_to_win32_path := fun p => p;
  MultiByteToWideChar := L
|}.

(** * Properties *)

(** ** The monad *)

Section MonadLaws.
Context {A B : Type}.

Lemma after_nil (r : trace * globals * res A) : after [] r = r.
Proof. destruct r as [[t s] x]. reflexivity. Qed.

Lemma bind_ret (a : A) (k : A -> M B) (s : globals) :
  bind (ret a) k s = k a s.
Proof. unfold bind, ret. destruct (k a s) as [[t s'] r]. reflexivity. Qed.

Lemma bind_gets (f : globals -> A) (k : A -> M B) (s : globals) :
  bind (gets f) k s = k (f s) s.
Proof. unfold bind, gets. destruct (k (f s) s) as [[t s'] r]. reflexivity. Qed.

Lemma bind_modify (f : globals -> globals) (k : unit -> M B) (s : globals) :
  bind (modify f) k s = k tt (f s).
Proof.
  unfold bind, modify. destruct (k tt (f s)) as [[t s'] r]. reflexivity.
Qed.

Lemma bind_emit (e : event) (k : unit -> M B) (s : globals) :
  bind (emit e) k s = after [e] (k tt s).
Proof. reflexivity. Qed.

Lemma bind_exit (c : Z) (k : A -> M B) (s : globals) :
  bind (exit c) k s = ([], s, Exit c).
Proof. reflexivity. Qed.

Lemma bind_run (m : M A) (k : A -> M B) (s s1 : globals) (t1 : trace)
  (a : A) :
  m s = (t1, s1, Ret a) -> bind m k s = after t1 (k a s1).
Proof. intros Hm. unfold bind. rewrite Hm. reflexivity. Qed.

Lemma bind_stop (m : M A) (k : A -> M B) (s s1 : globals) (t1 : trace)
  (c : Z) :
  m s = (t1, s1, Exit c) -> bind m k s = (t1, s1, Exit c).
Proof. intros Hm. unfold bind. rewrite Hm. reflexivity. Qed.

End MonadLaws.

(** ** The bit test of the HOLD_ERROR branch *)

Section Bits.
Context {P : Platform}.



(** The count of a shift is used modulo 32. *)
Lemma shl_count_wraps (a n : Z) : shl a (n + 32) = shl a n.
Proof.
  unfold shl. replace (n + 32) with (n + 1 * 32) by lia.
  rewrite Z.mod_add by lia. reflexivity.
Qed.



End Bits.

(** ** The loop of sigchld *)

Section Reaping.
Context {P : Platform}.

Lemma sigchld_loop_errno (ws : list wait_result) (e : Z) (s : globals) :
  sigchld_loop ws (set_errno e s) = sigchld_loop ws s.
Proof. destruct ws; reflexivity. Qed.

Lemma skips_loop (w : wait_result) (ws : list wait_result) (s : globals) :
  skips (pid s) w = true ->
  sigchld_loop (w :: ws) s = sigchld_loop ws s.
Proof.
  intros Hs. rewrite <- (sigchld_loop_errno ws (if w_pid w =? -1 then w_errno w else 0) s).
  unfold skips in Hs.
  cbn [sigchld_loop]. unfold bind at 1 2 3, modify, gets. cbn.
  destruct (w_pid w =? -1) eqn:E1.
  - rewrite Hs. destruct (sigchld_loop ws _) as [[t s'] r]. destruct r; reflexivity.
  - rewrite andb_false_l, orb_false_r in Hs |- *. rewrite Hs.
    destruct (sigchld_loop ws _) as [[t s'] r]. destruct r; reflexivity.
Qed.

Lemma skipped_prefix (pre ws : list wait_result) (s : globals) :
  forallb (skips (pid s)) pre = true ->
  sigchld_loop (pre ++ ws) s = sigchld_loop ws s.
Proof.
  induction pre as [| w pre IH]; intros Hpre; [reflexivity |].
  cbn in Hpre. apply andb_true_iff in Hpre. destruct Hpre as [Hw Hpre].
  rewrite <- app_comm_cons, skips_loop by assumption. auto.
Qed.

(** An answer that is neither skipped nor a child: the loop breaks. *)
Lemma nothing_loop (w : wait_result) (ws : list wait_result) (s : globals) :
  skips (pid s) w = false -> w_pid w <= 0 ->
  sigchld_loop (w :: ws) s
  = ([], set_errno (if w_pid w =? -1 then w_errno w else 0) s, Ret ws).
Proof.
  intros Hs Hle. unfold skips in Hs.
  cbn [sigchld_loop]. unfold bind, modify, gets, ret. cbn.
  destruct (w_pid w =? -1) eqn:E1.
  - rewrite Hs. apply Z.leb_le in Hle. rewrite Hle. reflexivity.
  - rewrite andb_false_l, orb_false_r in Hs |- *. rewrite Hs.
    apply Z.leb_le in Hle. rewrite Hle. reflexivity.
Qed.

(** With no child tracked the loop changes [errno] only. *)
Lemma idle_loop (ws : list wait_result) (s : globals) :
  pid s = 0 ->
  exists e, sigchld_loop ws s = ([], set_errno e s, Ret (drain ws)).
Proof.
  intros Hp. induction ws as [| w ws IH].
  - exists 0. reflexivity.
  - cbn [drain]. destruct (skips 0 w) eqn:Hs.
    + rewrite skips_loop by (rewrite Hp; assumption). exact IH.
    + eexists. apply nothing_loop; [rewrite Hp; assumption |].
      unfold skips in Hs. apply orb_false_iff in Hs. destruct Hs as [Hs _].
      destruct (0 <? w_pid w) eqn:Hpos; [| apply Z.ltb_ge in Hpos; lia].
      cbn in Hs. apply negb_false_iff, Z.eqb_eq in Hs. lia.
Qed.

Lemma decide_exit_cases (s : globals) :
  decide_exit s = ([], s, Ret tt) \/ decide_exit s = ([], s, Exit 0).
Proof.
  unfold decide_exit. rewrite !bind_gets. unfold when.
  repeat match goal with
         | |- context [if ?b then _ else _] => destruct b
         end; auto.
Qed.

Lemma decide_exit_errno (e : Z) (s : globals) (r : res unit) :
  decide_exit s = ([], s, r) ->
  decide_exit (set_errno e s) = ([], set_errno e s, r).
Proof.
  unfold decide_exit. rewrite !bind_gets. cbn [killed hold status set_errno].
  destruct (killed s || hold_eqb (hold s) HOLD_NEVER);
    [intros Hr; inversion Hr; reflexivity |].
  destruct (hold_eqb (hold s) HOLD_DEFAULT).
  { destruct (WIFSIGNALED (status s) || negb (WEXITSTATUS (status s) =? 255));
      intros Hr; inversion Hr; reflexivity. }
  destruct (hold_eqb (hold s) HOLD_ERROR); [| intros Hr; inversion Hr; reflexivity].
  destruct (WIFEXITED (status s)).
  - destruct (WEXITSTATUS (status s) =? 0); intros Hr; inversion Hr; reflexivity.
  - destruct (negb (Z.land error_sigs (shl 1 (WTERMSIG (status s))) =? 0));
      intros Hr; inversion Hr; reflexivity.
Qed.

Lemma capture_loop (w : wait_result) (rest : list wait_result) (s : globals) :
  0 < pid s -> w_pid w = pid s ->
  sigchld_loop (w :: rest) s
  = (decide_exit ;; sigchld_loop rest)
      (set_errno 0 (set_status (w_status w) (set_pid 0 s))).
Proof.
  intros Hpid Hw. cbn [sigchld_loop].
  rewrite bind_modify, !bind_gets. cbn [pid errno set_errno].
  rewrite Hw.
  replace (pid s =? -1) with false by (symmetry; apply Z.eqb_neq; lia).
  replace (0 <? pid s) with true by (symmetry; apply Z.ltb_lt; lia).
  rewrite Z.eqb_refl. cbn [negb andb orb].
  replace (pid s <=? 0) with false by (symmetry; apply Z.leb_gt; lia).
  rewrite !bind_modify. reflexivity.
Qed.

(** The tracked child is reaped: its status is recorded and the policy
    decides; when the policy holds the session, the loop goes on with no
    child tracked. *)
Lemma capture (sig : Z) (pre : list wait_result) (w : wait_result)
  (rest : list wait_result) (s : globals) :
  0 < pid s -> forallb (skips (pid s)) pre = true -> w_pid w = pid s ->
  let kept := set_status (w_status w) (set_pid 0 s) in
  (decide_exit kept = ([], kept, Ret tt) ->
   sigchld sig (pre ++ w :: rest) s
   = ([EvSignal sig Hsigchld], kept, Ret (drain rest)))
  /\ (decide_exit kept = ([], kept, Exit 0) ->
      sigchld sig (pre ++ w :: rest) s = ([], set_errno 0 kept, Exit 0)).
Proof.
  intros Hpid Hpre Hw kept.
  assert (Hloop : sigchld_loop (pre ++ w :: rest) s
                  = (decide_exit ;; sigchld_loop rest) (set_errno 0 kept)).
  { rewrite skipped_prefix by assumption. apply capture_loop; assumption. }
  unfold sigchld. rewrite bind_gets.
  split; intros Hd; apply (decide_exit_errno 0) in Hd.
  - destruct (idle_loop rest (set_errno 0 kept) eq_refl) as [e He].
    erewrite bind_run; [| rewrite Hloop; erewrite bind_run by exact Hd;
                          rewrite after_nil; exact He].
    unfold signal. rewrite after_nil, bind_modify, bind_emit. cbn.
    destruct s; reflexivity.
  - erewrite bind_stop; [reflexivity |].
    rewrite Hloop. erewrite bind_stop by exact Hd. reflexivity.
Qed.

End Reaping.

(** ** The exit policy of sigchld *)

Section Policy.
Context {P : Platform}.

Lemma decide_killed (s : globals) :
  killed s = true -> decide_exit s = ([], s, Exit 0).
Proof.
  intros Hk. unfold decide_exit. rewrite !bind_gets, Hk. reflexivity.
Qed.

Lemma decide_default (s : globals) :
  killed s = false -> hold s = HOLD_DEFAULT ->
  decide_exit s
  = ([], s,
     if WIFSIGNALED (status s) || negb (WEXITSTATUS (status s) =? 255)
     then Exit 0 else Ret tt).
Proof.
  intros Hk Hh. unfold decide_exit. rewrite !bind_gets, Hk, Hh. cbn.
  destruct (WIFSIGNALED (status s) || negb (WEXITSTATUS (status s) =? 255));
    reflexivity.
Qed.


(** C1 (as amended).  Under the DEFAULT policy, with no kill requested, once
    the status of the tracked child is captured the handler exits the whole
    process with status 0 when the child died from a signal or its exit code
    is not 255.  It holds the session open, the status kept pending and the
    handler returning, only when the child was not killed by a signal and
    its exit code is 255. *)
Theorem sigchld_default_policy (s : globals) (sig : Z)
  (pre : list wait_result) (w : wait_result) (rest : list wait_result) :
  hold s = HOLD_DEFAULT -> killed s = false ->
  0 < pid s -> forallb (skips (pid s)) pre = true -> w_pid w = pid s ->
  let r := sigchld sig (pre ++ w :: rest) s in
  if WIFSIGNALED (w_status w) || negb (WEXITSTATUS (w_status w) =? 255)
  then run_res r = Exit 0
  else r = ([EvSignal sig Hsigchld],
            set_status (w_status w) (set_pid 0 s), Ret (drain rest)).
Proof.
  intros Hh Hk Hpid Hpre Hw r.
  destruct (capture sig pre w rest s Hpid Hpre Hw) as [Hhold Hexit].
  pose proof (decide_default (set_status (w_status w) (set_pid 0 s)) Hk Hh)
    as Hd.
  cbn [status set_status] in Hd.
  destruct (WIFSIGNALED (w_status w) || negb (WEXITSTATUS (w_status w) =? 255)).
  - subst r. rewrite (Hexit Hd). reflexivity.
  - exact (Hhold Hd).
Qed.


(** C3.  [child_kill] exits the whole process with status 0 at once when no
    child is tracked, when [point_blank] is set, or when the signal cannot be
    delivered to the process group of the child.  Otherwise it sends SIGHUP
    to the group and sets [killed]; from then on, whatever the policy, the
    handler exits with status 0 when it reaps the child. *)
Theorem child_kill_then_reap (s : globals) (point_blank : bool)
  (sc : syscalls) :
  let r := child_kill point_blank sc s in
  if (pid s =? 0) || point_blank || (kill_ret sc <? 0)
  then run_res r = Exit 0
  else
    r = ([EvKill (- pid s) SIGHUP], set_killed true s, Ret tt)
    /\ forall (later : globals) (sig : Z) (pre : list wait_result)
         (w : wait_result) (rest : list wait_result),
         killed later = true -> 0 < pid later ->
         forallb (skips (pid later)) pre = true -> w_pid w = pid later ->
         run_res (sigchld sig (pre ++ w :: rest) later) = Exit 0.
Proof.
  intros r. subst r. unfold child_kill. rewrite bind_gets.
  destruct (pid s =? 0) eqn:Ep; [reflexivity |].
  rewrite bind_emit.
  destruct point_blank; [rewrite !orb_true_r; reflexivity |].
  rewrite orb_false_r. cbn [orb].
  destruct (kill_ret sc <? 0); [reflexivity |].
  split; [reflexivity |].
  intros later sig pre w rest Hk Hpid Hpre Hw.
  destruct (capture sig pre w rest later Hpid Hpre Hw) as [_ Hexit].
  rewrite Hexit; [reflexivity |].
  apply decide_killed. exact Hk.
Qed.

(** C4 (as amended).  The handler loops over the answers of the reap
    primitive: it discards the status of every process that is not the
    tracked child and retries when interrupted.  The loop ends when nothing
    is outstanding, or when the policy applied to the captured status of the
    tracked child exits the process.  A captured status that holds the
    session does not end the loop: with the child no longer tracked, the
    handler goes on reaping and discards every later status, so the policy
    is evaluated once at most. *)
Theorem sigchld_reaping (s : globals) (sig : Z) (pre : list wait_result)
  (w : wait_result) (rest : list wait_result) :
  forallb (skips (pid s)) pre = true -> skips (pid s) w = false ->
  let r := sigchld sig (pre ++ w :: rest) s in
  let kept := set_status (w_status w) (set_pid 0 s) in
  if w_pid w <=? 0 then r = ([EvSignal sig Hsigchld], s, Ret rest)
  else
    w_pid w = pid s
    /\ ((run_res (decide_exit kept) = Ret tt
         /\ r = ([EvSignal sig Hsigchld], kept, Ret (drain rest)))
        \/ (run_res (decide_exit kept) = Exit 0 /\ run_res r = Exit 0))
    /\ forall sig' ws,
         sigchld sig' ws kept = ([EvSignal sig' Hsigchld], kept, Ret (drain ws)).
Proof.
  intros Hpre Hw r kept.
  destruct (w_pid w <=? 0) eqn:Hle.
  - apply Z.leb_le in Hle. subst r. unfold sigchld.
    rewrite bind_gets.
    erewrite bind_run;
      [| rewrite skipped_prefix by assumption; apply nothing_loop; assumption].
    unfold signal. rewrite after_nil, bind_modify, bind_emit. cbn.
    destruct s; reflexivity.
  - apply Z.leb_gt in Hle.
    assert (Hsame : w_pid w = pid s).
    { unfold skips in Hw. apply orb_false_iff in Hw. destruct Hw as [Hw _].
      replace (0 <? w_pid w) with true in Hw by (symmetry; apply Z.ltb_lt; lia).
      cbn in Hw. apply negb_false_iff, Z.eqb_eq in Hw. exact Hw. }
    assert (Hpid : 0 < pid s) by lia.
    destruct (capture sig pre w rest s Hpid Hpre Hsame) as [Hhold Hexit].
    fold kept in Hhold, Hexit.
    split; [exact Hsame |]. split.
    + destruct (decide_exit_cases kept) as [Hd | Hd].
      * left. rewrite Hd. split; [reflexivity | exact (Hhold Hd)].
      * right. rewrite Hd. split; [reflexivity |].
        subst r. rewrite (Hexit Hd). reflexivity.
    + intros sig' ws. unfold sigchld. rewrite bind_gets.
      destruct (idle_loop ws kept eq_refl) as [e He].
      erewrite bind_run by exact He.
      unfold signal. rewrite after_nil, bind_modify, bind_emit. cbn.
      destruct s; reflexivity.
Qed.

End Policy.


(** Child 100 fails to exec and exits with 255 after another process was
    reaped: the session is held. *)
Lemma sigchld_default_policy_witness :
  sigchld SIGCHLD [mkWait 77 0 0; mkWait 100 65280 0] (running HOLD_DEFAULT)
  = ([EvSignal SIGCHLD Hsigchld],
     set_status 65280 (set_pid 0 (running HOLD_DEFAULT)), Ret []).
Proof.
  exact (sigchld_default_policy (running HOLD_DEFAULT) SIGCHLD
           [mkWait 77 0 0] (mkWait 100 65280 0) []
           eq_refl eq_refl eq_refl eq_refl eq_refl).
Defined.

(** C1 as stated fails: under DEFAULT a child killed by signal 9 makes the
    handler exit; the session is not held. *)
Lemma sigchld_default_signal_exits :
  WIFSIGNALED 9 = true
  /\ run_res (sigchld SIGCHLD [mkWait 100 9 0] (running HOLD_DEFAULT))
     = Exit 0
  /\ ~ (exists rest,
          run_res (sigchld SIGCHLD [mkWait 100 9 0] (running HOLD_DEFAULT))
          = Ret rest).
Proof.
  split; [reflexivity |]. split; [reflexivity |].
  intros [rest Hr]. vm_compute in Hr. discriminate.
Qed.


(** A graceful kill of child 100, which is then reaped under ALWAYS. *)
Lemma child_kill_then_reap_witness :
  child_kill false (mkSys 0 0) (running HOLD_ALWAYS)
  = ([EvKill (-100) SIGHUP], set_killed true (running HOLD_ALWAYS), Ret tt)
  /\ run_res (sigchld SIGCHLD [mkWait 100 256 0]
                (set_killed true (running HOLD_ALWAYS))) = Exit 0.
Proof.
  destruct (child_kill_then_reap (running HOLD_ALWAYS) false (mkSys 0 0))
    as [Hkill Hreap].
  split; [exact Hkill |].
  exact (Hreap (set_killed true (running HOLD_ALWAYS)) SIGCHLD []
           (mkWait 100 256 0) [] eq_refl eq_refl eq_refl eq_refl).
Defined.

(** Nothing to reap after an interrupted call. *)
Lemma sigchld_reaping_witness :
  sigchld SIGCHLD [mkWait (-1) 0 EINTR; mkWait 0 0 0; mkWait 100 0 0]
    (running HOLD_ERROR)
  = ([EvSignal SIGCHLD Hsigchld], running HOLD_ERROR, Ret [mkWait 100 0 0]).
Proof.
  exact (sigchld_reaping (running HOLD_ERROR) SIGCHLD
           [mkWait (-1) 0 EINTR] (mkWait 0 0 0) [mkWait 100 0 0]
           eq_refl eq_refl).
Defined.

(** C4 as stated fails: under ERROR child 100 exits with code 1, the session
    is held, and the handler does not stop at the captured status: it reaps
    process 200 as well and only stops at the answer that nothing is left. *)
Lemma sigchld_reaps_after_capture :
  status (run_state
            (sigchld SIGCHLD
               [mkWait 100 256 0; mkWait 200 0 0; mkWait 0 0 0;
                mkWait 300 0 0] (running HOLD_ERROR))) = 256
  /\ run_res (sigchld SIGCHLD
                [mkWait 100 256 0; mkWait 200 0 0; mkWait 0 0 0;
                 mkWait 300 0 0] (running HOLD_ERROR))
     = Ret [mkWait 300 0 0]
  /\ run_res (sigchld SIGCHLD
                [mkWait 100 256 0; mkWait 200 0 0; mkWait 0 0 0;
                 mkWait 300 0 0] (running HOLD_ERROR))
     <> Ret [mkWait 200 0 0; mkWait 0 0 0; mkWait 300 0 0].
Proof.
  split; [reflexivity |]. split; [reflexivity |].
  intros Hr. vm_compute in Hr. discriminate.
Qed.

(** ** Byte buffers *)

Section Buffers.

Lemma append_empty_r (s : string) : s +++ EmptyString = s.
Proof. induction s as [| c s IH]; cbn; [| rewrite IH]; reflexivity. Qed.

Lemma append_assoc (a b c : string) : (a +++ b) +++ c = a +++ (b +++ c).
Proof. induction a as [| x a IH]; cbn; [| rewrite IH]; reflexivity. Qed.

Lemma length_append (a b : string) :
  String.length (a +++ b) = (String.length a + String.length b)%nat.
Proof. induction a as [| x a IH]; cbn; [| rewrite IH]; reflexivity. Qed.

Lemma length_zero (s : string) : String.length s = O -> s = EmptyString.
Proof. destruct s; [reflexivity | discriminate]. Qed.

Lemma take_drop (n : nat) (s : string) :
  (n <= String.length s)%nat -> substring 0 n s +++ drop n s = s.
Proof.
  unfold drop. revert s. induction n as [| n IH]; intros s Hn.
  - cbn. destruct s as [| c s]; cbn.
    + reflexivity.
    + f_equal. clear. induction s as [| d s IH]; cbn; [| rewrite IH]; reflexivity.
  - destruct s as [| c s]; cbn in *; [lia |].
    f_equal. apply IH. lia.
Qed.

Lemma length_take (n : nat) (s : string) :
  (n <= String.length s)%nat -> String.length (substring 0 n s) = n.
Proof.
  revert s. induction n as [| n IH]; intros s Hn.
  - destruct s; reflexivity.
  - destruct s as [| c s]; cbn in *; [lia |]. f_equal. apply IH. lia.
Qed.

End Buffers.

(** ** Trace observations over concatenation *)

Section Traces.

Lemma shown_app (o : origin) (t1 t2 : trace) :
  shown o (t1 ++ t2) = shown o t1 +++ shown o t2.
Proof.
  induction t1 as [| e t1 IH]; [reflexivity |].
  destruct e; cbn; try exact IH.
  destruct (origin_eqb o0 o); [rewrite IH, append_assoc; reflexivity | exact IH].
Qed.

Lemma logged_app (t1 t2 : trace) :
  logged (t1 ++ t2) = logged t1 +++ logged t2.
Proof.
  induction t1 as [| e t1 IH]; [reflexivity |].
  destruct e; cbn; try exact IH.
  rewrite IH, append_assoc. reflexivity.
Qed.

Lemma status_lines_app (t1 t2 : trace) :
  status_lines (t1 ++ t2) = (status_lines t1 + status_lines t2)%nat.
Proof.
  induction t1 as [| e t1 IH]; [reflexivity |].
  destruct e; cbn; try exact IH.
  destruct o; cbn; rewrite IH; reflexivity.
Qed.

End Traces.

(** ** The pty stream *)

Section PtyReads.
Context {P : Platform}.

(** [read] hands over the head of the stream and keeps the rest; the value
    it returns is the number of bytes handed over, or -1 with none. *)
Lemma read_bytes (n : nat) (q q' : pty_stream) (ret : Z) (bs : string) :
  read n q = (ret, bs, q') ->
  pty_bytes q = bs +++ pty_bytes q'
  /\ (ret = Z.of_nat (String.length bs) \/ (ret = -1 /\ bs = EmptyString)).
Proof.
  unfold read. destruct q as [| [data |] q0].
  - intros Hr. inversion Hr. split; [reflexivity | left; reflexivity].
  - destruct (String.length data <=? n)%nat eqn:Hlen; intros Hr; inversion Hr; subst.
    + split; [reflexivity | left; reflexivity].
    + apply Nat.leb_gt in Hlen. cbn [pty_bytes].
      rewrite <- append_assoc, take_drop by lia.
      split; [reflexivity | left]. rewrite length_take by lia. reflexivity.
  - intros Hr. inversion Hr. split; [reflexivity | right; split; reflexivity].
Qed.

Lemma read_haul_bytes (rounds len : nat) (buf : string) (q q' : pty_stream)
  (ret : Z) (buf' : string) :
  len = String.length buf ->
  read_haul rounds len buf q = (ret, buf', q') ->
  buf +++ pty_bytes q = buf' +++ pty_bytes q'
  /\ ret = Z.of_nat (String.length buf').
Proof.
  revert len buf q. induction rounds as [| rounds IH]; intros len buf q Hlen.
  - cbn. intros Hr. inversion Hr; subst. split; reflexivity.
  - cbn [read_haul]. destruct (read (512 - len) q) as [[r bs] q1] eqn:Hread.
    apply read_bytes in Hread. destruct Hread as [Hq Hr1].
    destruct (0 <? r) eqn:Hpos.
    + apply Z.ltb_lt in Hpos.
      destruct Hr1 as [Hr1 | [Hr1 _]]; [| lia].
      assert (Hlen' : (len + Z.to_nat r)%nat = String.length (buf +++ bs)).
      { rewrite length_append, Hr1, Nat2Z.id, Hlen. reflexivity. }
      destruct (len + Z.to_nat r <? 512)%nat.
      * intros Hh. apply IH in Hh; [| exact Hlen'].
        destruct Hh as [Hh1 Hh2]. split; [| exact Hh2].
        rewrite Hq, <- append_assoc. exact Hh1.
      * intros Hh. inversion Hh; subst buf' q'. split.
        -- rewrite Hq, append_assoc. reflexivity.
        -- rewrite Hlen'. reflexivity.
    + intros Hh. inversion Hh; subst ret buf' q'.
      apply Z.ltb_ge in Hpos.
      assert (bs = EmptyString).
      { destruct Hr1 as [Hr1 | [_ Hr1]]; [| exact Hr1].
        apply length_zero. lia. }
      subst bs. split; [rewrite Hq; reflexivity | congruence].
Qed.

End PtyReads.

(** ** Rules for silent computations *)

Section Silence.
Context {P : Platform}.

Lemma silent_ret {A} (a : A) : silent (ret a).
Proof. intros s. repeat split. Qed.

Lemma silent_gets {A} (f : globals -> A) : silent (gets f).
Proof. intros s. repeat split. Qed.

Lemma silent_exit {A} (c : Z) : silent (@exit A c).
Proof. intros s. repeat split. Qed.

Lemma silent_emit (e : event) : quiet_event e = true -> silent (emit e).
Proof.
  intros He s. unfold silent_run, emit, run_trace, run_state. cbn.
  destruct e; try discriminate; repeat split.
  destruct o; try discriminate; repeat split.
Qed.

Lemma silent_modify (f : globals -> globals) :
  (forall s, log_fd (f s) = log_fd s) -> silent (modify f).
Proof. intros Hf s. repeat split. apply Hf. Qed.

Lemma silent_bind {A B} (m : M A) (k : A -> M B) :
  silent m -> (forall a, silent (k a)) -> silent (bind m k).
Proof.
  intros Hm Hk s. specialize (Hm s). unfold silent_run, bind in *.
  destruct (m s) as [[t1 s1] [a | c |]]; try exact Hm.
  specialize (Hk a s1). unfold silent_run in Hk.
  destruct (k a s1) as [[t2 s2] r]. unfold run_trace, run_state in *. cbn in *.
  destruct Hm as (Hm1 & Hm2 & Hm3). destruct Hk as (Hk1 & Hk2 & Hk3).
  rewrite shown_app, logged_app, Hm1, Hm2, Hk1, Hk2. repeat split. congruence.
Qed.

Lemma silent_when (b : bool) (m : M unit) : silent m -> silent (when b m).
Proof. intros Hm. destruct b; [exact Hm | apply silent_ret]. Qed.

Ltac silence :=
  repeat first
    [ apply silent_ret | apply silent_gets | apply silent_exit
    | apply silent_emit; reflexivity
    | apply silent_modify; intros ?; reflexivity
    | apply silent_bind; [| intros ?]
    | apply silent_when
    | assumption
    | match goal with
      | |- silent (if ?b then _ else _) => destruct b
      | |- silent (match ?o with Some _ => _ | None => _ end) => destruct o
      end ].

Lemma silent_sigchld_loop (ws : list wait_result) : silent (sigchld_loop ws).
Proof. induction ws as [| w ws IH]; cbn [sigchld_loop]; silence. Qed.

Lemma silent_sigchld (sig : Z) (ws : list wait_result) :
  silent (sigchld sig ws).
Proof. unfold sigchld, signal. silence; apply silent_sigchld_loop. Qed.

Lemma silent_child_send (buf : string) (echoing : bool) (sc : syscalls) :
  silent (child_send buf echoing sc).
Proof. unfold child_send. silence. Qed.

Lemma silent_report_status : silent report_status.
Proof. unfold report_status. silence. Qed.

(** ** The bytes relayed by child_proc *)

Lemma relayed_after_silent {A B} (left : B -> pty_stream) (q : pty_stream)
  (m : M A) (k : A -> M B) (s : globals) :
  silent m -> (forall a s1, log_fd s1 = log_fd s -> relayed left q s1 (k a s1)) ->
  relayed left q s (bind m k s).
Proof.
  intros Hm Hk. specialize (Hm s). unfold silent_run, bind in *.
  destruct (m s) as [[t1 s1] [a | c |]]; unfold run_trace, run_state in *;
    cbn in *; destruct Hm as (Hm1 & Hm2 & Hm3).
  - specialize (Hk a s1 Hm3). destruct Hk as (q' & Hq & Hl & Hfd & Hret).
    destruct (k a s1) as [[t2 s2] r]. exists q'.
    unfold run_trace, run_state, run_res in *. cbn in *.
    rewrite shown_app, logged_app, Hm1, Hm2. cbn.
    rewrite <- Hm3. repeat split; try assumption; congruence.
  - exists q. unfold run_res. cbn. rewrite Hm1, Hm2.
    repeat split; try assumption.
    + destruct (0 <=? log_fd s); reflexivity.
    + discriminate.
  - exists q. unfold run_res. cbn. rewrite Hm1, Hm2.
    repeat split; try assumption.
    + destruct (0 <=? log_fd s); reflexivity.
    + discriminate.
Qed.

Lemma relayed_pty_input (q : pty_stream) (s : globals) :
  relayed (fun q' => q') q s (pty_input q s).
Proof.
  unfold pty_input.
  assert (Hread : exists len buf q',
            (if 1005 <=? CYGWIN_VERSION_DLL_MAJOR then read 4096 q
             else read_haul 512 0 EmptyString q) = (len, buf, q')
            /\ pty_bytes q = buf +++ pty_bytes q'
            /\ ((0 <? len) = false -> buf = EmptyString)).
  { destruct (1005 <=? CYGWIN_VERSION_DLL_MAJOR).
    - destruct (read 4096 q) as [[len buf] q'] eqn:Hr.
      exists len, buf, q'. split; [reflexivity |].
      apply read_bytes in Hr. destruct Hr as [Hq Hlen]. split; [exact Hq |].
      intros Hneg. apply Z.ltb_ge in Hneg.
      destruct Hlen as [Hlen | [_ Hlen]]; [apply length_zero; lia | exact Hlen].
    - destruct (read_haul 512 0 EmptyString q) as [[len buf] q'] eqn:Hr.
      exists len, buf, q'. split; [reflexivity |].
      apply read_haul_bytes in Hr; [| reflexivity]. destruct Hr as [Hq Hlen].
      split; [exact Hq |].
      intros Hneg. apply Z.ltb_ge in Hneg. apply length_zero. lia. }
  destruct Hread as (len & buf & q' & -> & Hq & Hempty).
  exists q'. destruct (0 <? len).
  - rewrite bind_emit, bind_gets. unfold when.
    destruct (0 <=? log_fd s); cbn;
      rewrite ?append_empty_r; repeat split; try assumption;
      intros a Ha; inversion Ha; reflexivity.
  - rewrite bind_modify. cbn. rewrite (Hempty eq_refl) in Hq. cbn in Hq.
    repeat split; try assumption.
    + destruct (0 <=? log_fd s); reflexivity.
    + intros a Ha. inversion Ha. reflexivity.
Qed.

Lemma relayed_ret {A} (left : A -> pty_stream) (a : A) (s : globals) :
  relayed left (left a) s (ret a s).
Proof.
  exists (left a). cbn. repeat split.
  - destruct (0 <=? log_fd s); reflexivity.
  - intros b Hb. inversion Hb. reflexivity.
Qed.

(** What comes after bytes were relayed relays the rest. *)
Lemma relayed_bind {A B} (left : A -> pty_stream) (left' : B -> pty_stream)
  (q : pty_stream) (m : M A) (k : A -> M B) (s : globals) :
  relayed left q s (m s) ->
  (forall a s1, log_fd s1 = log_fd s -> relayed left' (left a) s1 (k a s1)) ->
  relayed left' q s (bind m k s).
Proof.
  intros (q1 & Hq1 & Hl1 & Hfd1 & Hret1) Hk. unfold bind.
  destruct (m s) as [[t1 s1] [a | c |]]; unfold run_trace, run_state, run_res in *;
    cbn in *.
  - specialize (Hk a s1 Hfd1). rewrite (Hret1 a eq_refl) in Hk.
    destruct Hk as (q2 & Hq2 & Hl2 & Hfd2 & Hret2).
    destruct (k a s1) as [[t2 s2] r]. exists q2.
    unfold run_trace, run_state, run_res in *. cbn in *.
    rewrite shown_app, logged_app, Hl1, Hl2, Hfd1, Hq1, Hq2, append_assoc.
    repeat split; try assumption; try congruence.
    destruct (0 <=? log_fd s); reflexivity.
  - exists q1. repeat split; try assumption. discriminate.
  - exists q1. repeat split; try assumption. discriminate.
Qed.

Lemma relayed_child_proc (rds : list round) (q : pty_stream) (s : globals) :
  relayed snd q s (child_proc rds q s).
Proof.
  revert q s. induction rds as [| rd rds IH]; intros q s.
  - exact (relayed_ret snd (Looping, q) s).
  - cbn [child_proc].
    apply relayed_after_silent.
    { unfold term_send_paste. destruct (rd_paste rd);
        [apply silent_child_send | apply silent_ret]. }
    intros _ s1 H1. apply relayed_after_silent; [apply silent_report_status |].
    intros _ s2 H2. apply relayed_after_silent.
    { destruct (rd_sigchld rd); [| apply silent_ret].
      apply silent_bind; [apply silent_sigchld | intros ?; apply silent_ret]. }
    intros _ s3 H3. destruct (0 <? rd_select rd); [| apply IH].
    rewrite bind_gets.
    apply (relayed_bind (fun q' => q')).
    + destruct ((0 <=? pty_fd s3) && rd_pty_isset rd);
        [apply relayed_pty_input | exact (relayed_ret (fun q' => q') q s3)].
    + intros q1 s4 H4. cbn.
      destruct (rd_win_isset rd);
        [exact (relayed_ret snd (HostEvent, q1) s4) | apply IH].
Qed.

End Silence.

(** ** Rules for frugal computations *)

Section Frugality.
Context {P : Platform} {C : Charset}.

Lemma within_weaken {A} (s s1 : globals) (r : trace * globals * res A) :
  (pending_reports s1 <= pending_reports s)%nat -> within s1 r -> within s r.
Proof. unfold within. lia. Qed.

Lemma within_bind {A B} (m : M A) (k : A -> M B) (s : globals) :
  within s (m s) ->
  (forall a t1 s1, m s = (t1, s1, Ret a) -> within s1 (k a s1)) ->
  within s (bind m k s).
Proof.
  intros Hm Hk. unfold bind. unfold within in *.
  destruct (m s) as [[t1 s1] [a | c |]]; try exact Hm.
  specialize (Hk a t1 s1 eq_refl).
  destruct (k a s1) as [[t2 s2] r]. unfold run_trace, run_state in *. cbn in *.
  rewrite status_lines_app. lia.
Qed.

Lemma frugal_ret {A} (a : A) : frugal (ret a).
Proof. intros s. unfold within. cbn. lia. Qed.

Lemma frugal_gets {A} (f : globals -> A) : frugal (gets f).
Proof. intros s. unfold within. cbn. lia. Qed.

Lemma frugal_exit {A} (c : Z) : frugal (@exit A c).
Proof. intros s. unfold within. cbn. lia. Qed.

Lemma frugal_emit (e : event) : status_lines [e] = O -> frugal (emit e).
Proof. intros He s. unfold within, emit, run_trace, run_state. cbn [fst snd]. lia. Qed.

Lemma frugal_modify (f : globals -> globals) :
  (forall s, pending_reports (f s) = pending_reports s) -> frugal (modify f).
Proof. intros Hf s. unfold within. cbn. rewrite Hf. lia. Qed.

Lemma frugal_bind {A B} (m : M A) (k : A -> M B) :
  frugal m -> (forall a, frugal (k a)) -> frugal (bind m k).
Proof. intros Hm Hk s. apply within_bind; [apply Hm | intros; apply Hk]. Qed.

Lemma frugal_when (b : bool) (m : M unit) : frugal m -> frugal (when b m).
Proof. intros Hm. destruct b; [exact Hm | apply frugal_ret]. Qed.

Ltac thrift :=
  repeat first
    [ apply frugal_ret | apply frugal_gets | apply frugal_exit
    | apply frugal_emit; reflexivity
    | apply frugal_modify; intros ?; reflexivity
    | apply frugal_bind; [| intros ?]
    | apply frugal_when
    | assumption
    | match goal with
      | |- frugal (if ?b then _ else _) => destruct b
      | |- frugal (match ?o with Some _ => _ | None => _ end) => destruct o
      | |- frugal (let '(_, _) := ?p in _) => destruct p
      end ].

Lemma frugal_decide_exit : frugal decide_exit.
Proof. unfold decide_exit. thrift. Qed.

(** Reaping the child turns the report owed for a tracked child into the
    report owed for a pending status. *)
Lemma frugal_sigchld_loop (ws : list wait_result) : frugal (sigchld_loop ws).
Proof.
  induction ws as [| w ws IH]; intros s; cbn [sigchld_loop].
  - revert s. thrift.
  - rewrite bind_modify, !bind_gets. cbn [pid errno set_errno].
    set (s1 := set_errno _ s).
    assert (Hs1 : pending_reports s1 = pending_reports s) by reflexivity.
    destruct ((0 <? w_pid w) && negb (w_pid w =? pid s)
              || (w_pid w =? -1)
                 && ((if w_pid w =? -1 then w_errno w else 0) =? EINTR))
      eqn:Hskip.
    { apply (within_weaken s s1); [lia | apply IH]. }
    destruct (w_pid w <=? 0) eqn:Hle.
    { apply (within_weaken s s1); [lia | apply frugal_ret]. }
    rewrite !bind_modify.
    apply Z.leb_gt in Hle. apply orb_false_iff in Hskip.
    destruct Hskip as [Hskip _].
    replace (0 <? w_pid w) with true in Hskip by (symmetry; apply Z.ltb_lt; lia).
    cbn in Hskip. apply negb_false_iff, Z.eqb_eq in Hskip.
    eapply within_weaken; [| apply frugal_bind; [apply frugal_decide_exit | intros ?; apply IH]].
    unfold pending_reports. cbn.
    replace (pid s =? 0) with false by (symmetry; apply Z.eqb_neq; lia).
    destruct (w_status w =? -1); destruct (status s =? -1); lia.
Qed.

Lemma frugal_sigchld (sig : Z) (ws : list wait_result) :
  frugal (sigchld sig ws).
Proof. unfold sigchld, signal. thrift; apply frugal_sigchld_loop. Qed.

Lemma frugal_sigexit (sig : Z) : frugal (sigexit sig).
Proof. unfold sigexit, signal. thrift. Qed.

Lemma frugal_child_kill (point_blank : bool) (sc : syscalls) :
  frugal (child_kill point_blank sc).
Proof. unfold child_kill. thrift. Qed.

Lemma frugal_child_write (buf : string) (sc : syscalls) :
  frugal (child_write buf sc).
Proof. unfold child_write. thrift. Qed.

Lemma frugal_child_send (buf : string) (echoing : bool) (sc : syscalls) :
  frugal (child_send buf echoing sc).
Proof. unfold child_send. thrift. Qed.

Lemma frugal_child_sendw (ws : list wchar) (wlen : Z) (echoing : bool)
  (sc : syscalls) :
  frugal (child_sendw ws wlen echoing sc).
Proof. unfold child_sendw. thrift. Qed.

Lemma frugal_child_resize : frugal child_resize.
Proof. unfold child_resize. thrift. Qed.

(** The one place that writes a status line takes it off the pending
    status. *)
Lemma frugal_report_status : frugal report_status.
Proof.
  intros s. unfold report_status. rewrite !bind_gets.
  destruct (status s =? -1) eqn:Hst; cbn [negb andb when];
    [apply frugal_ret |].
  destruct (pty_fd s =? -1); cbn [when]; [| apply frugal_ret].
  rewrite bind_gets.
  assert (Hclear : forall t : trace,
            (status_lines t <= 1)%nat ->
            within s (t, set_status (-1) s, Ret tt)).
  { intros t Ht. unfold within, pending_reports. cbn. rewrite Hst. lia. }
  unfold when.
  destruct (WIFEXITED (status s)).
  - destruct (negb (WEXITSTATUS (status s) =? 0)
              && negb (WEXITSTATUS (status s) =? 255));
      unfold bind, emit, modify, ret; cbn; apply Hclear; cbn; lia.
  - destruct (WIFSIGNALED (status s));
      unfold bind, emit, modify, ret; cbn; apply Hclear; cbn; lia.
Qed.

Lemma frugal_pty_input (q : pty_stream) : frugal (pty_input q).
Proof. unfold pty_input. thrift. Qed.

Lemma frugal_child_proc (rds : list round) (q : pty_stream) :
  frugal (child_proc rds q).
Proof.
  revert q. induction rds as [| rd rds IH]; intros q; cbn [child_proc].
  - apply frugal_ret.
  - apply frugal_bind.
    { unfold term_send_paste. destruct (rd_paste rd);
        [apply frugal_child_send | apply frugal_ret]. }
    intros _. apply frugal_bind; [apply frugal_report_status |].
    intros _. apply frugal_bind.
    { destruct (rd_sigchld rd); [| apply frugal_ret].
      apply frugal_bind; [apply frugal_sigchld | intros ?; apply frugal_ret]. }
    intros _. destruct (0 <? rd_select rd); [| apply IH].
    apply frugal_bind; [apply frugal_gets |]. intros fd.
    apply frugal_bind.
    { destruct ((0 <=? fd) && rd_pty_isset rd);
        [apply frugal_pty_input | apply frugal_ret]. }
    intros q'. destruct (rd_win_isset rd); [apply frugal_ret | apply IH].
Qed.

Lemma frugal_perform (a : action) : frugal (perform a).
Proof.
  destruct a; cbn [perform].
  - apply frugal_bind; [apply frugal_sigchld | intros ?; apply frugal_ret].
  - apply frugal_sigexit.
  - apply frugal_bind; [apply frugal_child_proc | intros ?; apply frugal_ret].
  - apply frugal_child_kill.
  - apply frugal_child_write.
  - apply frugal_child_send.
  - apply frugal_child_sendw.
  - apply frugal_child_resize.
Qed.

Lemma frugal_session (acts : list action) : frugal (session acts).
Proof.
  induction acts as [| a acts IH]; cbn [session].
  - apply frugal_ret.
  - apply frugal_bind; [apply frugal_perform | intros _; exact IH].
Qed.

End Frugality.

(** ** child_create and the status line *)

Section Spawn.
Context {P : Platform} {C : Charset}.

(** [child_create] writes no status line and leaves [status] alone. *)
Lemma child_create_reports_nothing (sp : spawn) (s : globals) :
  status_lines (run_trace (child_create sp s)) = O
  /\ status (run_state (child_create sp s)) = status s.
Proof.
  unfold child_create, child_side, signal, error, write_utmp.
  rewrite !bind_emit, bind_modify.
  destruct sp as [lang fk master fk_errno w7 console exec_errno exec_fails
                  ptsn login open_win open_log open_log_errno term bs utmp
                  logf].
  cbn [sp_forkpty sp_fork_errno sp_master utmp_enabled sp_ptsname sp_getlogin
       sp_open_windows sp_open_log sp_open_log_errno log_file sp_lang
       sp_windows7 sp_alloc_console sp_exec_errno sp_exec_fails cfg_term
       cfg_backspace_sends_bs] in *.
  unfold when.
  destruct (fk <? 0);
    [destruct (fk_errno =? EAGAIN)
    | destruct (fk =? 0);
      [destruct ((CYGWIN_VERSION_DLL_MAJOR <? 1007)
                 && (negb (CYGWIN_VERSION_DLL_MAJOR =? 1005) || w7));
       destruct console; destruct lang; destruct exec_fails
      | destruct utmp; [destruct ptsn |]]];
    destruct logf; try destruct (open_log <? 0);
    unfold bind, emit, modify, gets, ret, exit, replaced, after, run_trace,
      run_state;
    cbn; split; reflexivity.
Qed.

Lemma session_after_create (sp : spawn) (acts : list action) (s : globals) :
  status s = -1 ->
  (status_lines (run_trace ((child_create sp ;; session acts) s)) <= 1)%nat.
Proof.
  intros Hst.
  destruct (child_create_reports_nothing sp s) as [Hlines Hstatus].
  unfold bind. destruct (child_create sp s) as [[t1 s1] [[] | c |]];
    unfold run_trace, run_state in *; cbn in *; try lia.
  pose proof (frugal_session acts s1) as Hf.
  unfold within, pending_reports in Hf.
  destruct (session acts s1) as [[t2 s2] r]. unfold run_trace, run_state in *.
  cbn in *. rewrite status_lines_app, Hlines.
  rewrite Hstatus, Hst in Hf. cbn in Hf.
  destruct (pid s1 =? 0); lia.
Qed.

End Spawn.

(** ** The status block within a round *)

Section Round.
Context {P : Platform} {C : Charset}.

(** What a round of [child_proc] does after its status block is frugal. *)
Lemma frugal_round_tail (rd : round) (rds : list round) (q : pty_stream) :
  frugal
    (match rd_sigchld rd with
     | Some ws => _ <- sigchld SIGCHLD ws ;; ret tt
     | None => ret tt
     end ;;
     if 0 <? rd_select rd then
       fd <- gets pty_fd ;;
       q' <- (if (0 <=? fd) && rd_pty_isset rd then pty_input q
              else ret q) ;;
       if rd_win_isset rd then ret (HostEvent, q')
       else child_proc rds q'
     else child_proc rds q).
Proof.
  apply frugal_bind.
  { destruct (rd_sigchld rd); [| apply frugal_ret].
    apply frugal_bind; [apply frugal_sigchld | intros ?; apply frugal_ret]. }
  intros _. destruct (0 <? rd_select rd); [| apply frugal_child_proc].
  apply frugal_bind; [apply frugal_gets |]. intros fd.
  apply frugal_bind.
  { destruct ((0 <=? fd) && rd_pty_isset rd);
      [apply frugal_pty_input | apply frugal_ret]. }
  intros q'. destruct (rd_win_isset rd);
    [apply frugal_ret | apply frugal_child_proc].
Qed.

(** With the child reaped, its status pending and the pty closed, a round
    that has nothing to paste starts with the status block, and no status
    line follows what the block writes. *)
Lemma child_proc_reports (rd : round) (rds : list round) (q : pty_stream)
  (s : globals) (line : trace) :
  rd_paste rd = None -> pid s = 0 ->
  report_status s = (line, set_status (-1) s, Ret tt) ->
  exists t,
    run_trace (child_proc (rd :: rds) q s) = (line ++ t)%list
    /\ status_lines t = O.
Proof.
  intros Hpaste Hpid Hreport. cbn [child_proc].
  rewrite Hpaste, bind_ret.
  erewrite bind_run by exact Hreport.
  pose proof (frugal_round_tail rd rds q (set_status (-1) s)) as Hf.
  cbv beta. unfold within, pending_reports in Hf.
  match type of Hf with
  | context [run_trace ?x] => destruct x as [[t s'] r]
  end.
  exists t. split; [reflexivity |].
  unfold run_trace, run_state in Hf. cbn in Hf. rewrite Hpid in Hf.
  cbn in Hf. lia.
Qed.

End Round.

(** ** The event loop *)

Section EventLoop.
Context {P : Platform} {C : Charset}.

(** C5 (as amended).  For every run of the event loop, whatever the rounds
    of [select] and the handlers that run in between, the bytes the pty read
    step gives to [term_write] are, in order, exactly the bytes read from
    the pty; what is not read stays in the pty.  When the log file is open
    the same bytes are written to it, and nothing is written to it
    otherwise.  [term_write] also receives the status line and the echo of
    pasted input, which are not bytes of the child. *)
Theorem child_proc_relays_pty_bytes (rds : list round) (q : pty_stream)
  (s : globals) :
  exists unread,
    pty_bytes q
    = shown PtyData (run_trace (child_proc rds q s)) +++ pty_bytes unread
    /\ logged (run_trace (child_proc rds q s))
       = (if 0 <=? log_fd s
          then shown PtyData (run_trace (child_proc rds q s))
          else EmptyString)
    /\ match run_res (child_proc rds q s) with
       | Ret (_, rest) => rest = unread
       | _ => True
       end.
Proof.
  destruct (relayed_child_proc rds q s) as (unread & Hq & Hlog & _ & Hret).
  exists unread. split; [exact Hq |]. split; [exact Hlog |].
  destruct (run_res (child_proc rds q s)) as [[e rest] | c |]; try exact I.
  exact (Hret (e, rest) eq_refl).
Qed.

(** C6.  With a status pending and the pty descriptor closed, the loop
    writes one status line at most and clears the status: "<cmd>: Exit
    <code>" after an exit with a code other than 0 and 255, "<cmd>: <signal
    description>" after a death by signal, nothing after an exit with code 0
    or 255; the round of the loop that finds the reaped child in that state
    writes this line and no other.  In a whole session that starts with no
    status pending, and so in the whole life of the program after
    [child_create], one status line at most is ever written. *)
Theorem status_line_once :
  (forall s : globals,
     status s <> -1 -> pty_fd s = -1 ->
     report_status s
     = ((if WIFEXITED (status s) then
           if (WEXITSTATUS (status s) =? 0) || (WEXITSTATUS (status s) =? 255)
           then []
           else [EvTermWrite StatusLine
                   (cmd s +++ ": Exit " +++ decimal (WEXITSTATUS (status s)))]
         else if WIFSIGNALED (status s) then
           [EvTermWrite StatusLine
              (cmd s +++ ": " +++ strsignal (WTERMSIG (status s)))]
         else []),
        set_status (-1) s, Ret tt))
  /\ (forall (s : globals) (rd : round) (rds : list round) (q : pty_stream),
        status s <> -1 -> pty_fd s = -1 -> pid s = 0 -> rd_paste rd = None ->
        exists t,
          run_trace (child_proc (rd :: rds) q s)
          = (run_trace (report_status s) ++ t)%list
          /\ status_lines t = O)
  /\ (forall (s : globals) (acts : list action),
        status s = -1 ->
        (status_lines (run_trace (session acts s)) <= 1)%nat)
  /\ (forall (sp : spawn) (acts : list action) (h c : string) (p : hold_t),
        (status_lines
           (run_trace ((child_create sp ;; session acts) (initial h c p)))
         <= 1)%nat).
Proof.
  assert (Hblock : forall s : globals,
            status s <> -1 -> pty_fd s = -1 ->
            report_status s
            = ((if WIFEXITED (status s) then
                  if (WEXITSTATUS (status s) =? 0)
                     || (WEXITSTATUS (status s) =? 255)
                  then []
                  else [EvTermWrite StatusLine
                          (cmd s +++ ": Exit "
                             +++ decimal (WEXITSTATUS (status s)))]
                else if WIFSIGNALED (status s) then
                  [EvTermWrite StatusLine
                     (cmd s +++ ": " +++ strsignal (WTERMSIG (status s)))]
                else []),
               set_status (-1) s, Ret tt)).
  { intros s Hst Hfd. unfold report_status. rewrite !bind_gets.
    apply Z.eqb_neq in Hst. rewrite Hst, Hfd, Z.eqb_refl.
    cbn [negb andb when].
    rewrite bind_gets. unfold when.
    destruct (WIFEXITED (status s)).
    + destruct (WEXITSTATUS (status s) =? 0); [reflexivity |].
      destruct (WEXITSTATUS (status s) =? 255); reflexivity.
    + destruct (WIFSIGNALED (status s)); reflexivity. }
  split; [exact Hblock |]. split; [| split].
  - intros s rd rds q Hst Hfd Hpid Hpaste.
    specialize (Hblock s Hst Hfd).
    destruct (child_proc_reports rd rds q s _ Hpaste Hpid Hblock)
      as (t & Ht & Hnone).
    exists t. rewrite Hblock. split; assumption.
  - intros s acts Hst. pose proof (frugal_session acts s) as Hf.
    unfold within, pending_reports in Hf. rewrite Hst in Hf. cbn in Hf.
    destruct (pid s =? 0); lia.
  - intros sp acts h c p. apply session_after_create. reflexivity.
Qed.

(** C7 (as amended).  [child_write] writes the bytes to the pty when its
    descriptor is open and pays no attention to what the write returns: a
    write that fails changes nothing and starts no kill.  Only when the
    descriptor is not open does it start the graceful [child_kill(false)]. *)
Theorem child_write_open_or_kill (s : globals) (buf : string)
  (sc : syscalls) :
  (0 <= pty_fd s ->
   child_write buf sc s = ([EvPtyWrite buf (write_ret sc)], s, Ret tt))
  /\ (pty_fd s < 0 -> child_write buf sc s = child_kill false sc s).
Proof.
  unfold child_write. rewrite bind_gets. split; intros Hfd.
  - apply Z.leb_le in Hfd. rewrite Hfd. reflexivity.
  - apply Z.leb_gt in Hfd. rewrite Hfd. reflexivity.
Qed.

(** C10.  When the conversion to the multibyte charset returns a length that
    is not positive, [child_sendw] does nothing: no write, no echo, no reset
    of the screen, and no kill, the pty closed or not. *)
Theorem child_sendw_nothing_converted (s : globals) (ws : list wchar)
  (wlen : Z) (echoing : bool) (sc : syscalls) :
  fst (cs_wcntombn ws (wlen * cs_cur_max) wlen) <= 0 ->
  child_sendw ws wlen echoing sc s = ([], s, Ret tt).
Proof.
  intros Hlen. unfold child_sendw.
  destruct (cs_wcntombn ws (wlen * cs_cur_max) wlen) as [len bytes].
  cbn in Hlen. apply Z.ltb_ge in Hlen. rewrite Hlen. reflexivity.
Qed.

End EventLoop.

Lemma child_proc_relays_pty_bytes_witness :
  exists unread,
    pty_bytes exit_1_stream
    = shown PtyData
        (run_trace (child_proc exit_1_rounds exit_1_stream
                      (running HOLD_ERROR)))
      +++ pty_bytes unread
    /\ logged (run_trace (child_proc exit_1_rounds exit_1_stream
                            (running HOLD_ERROR)))
       = EmptyString
    /\ [] = unread.
Proof.
  exact (child_proc_relays_pty_bytes exit_1_rounds exit_1_stream
           (running HOLD_ERROR)).
Defined.

(** C5 as stated fails: all the bytes given to [term_write] in that run are
    the two bytes read from the child and the status line after them. *)
Lemma child_proc_displays_status_line :
  run_res (child_proc exit_1_rounds exit_1_stream (running HOLD_ERROR))
  = Ret (HostEvent, [])
  /\ pty_bytes exit_1_stream = "hi"%string
  /\ displayed (run_trace (child_proc exit_1_rounds exit_1_stream
                             (running HOLD_ERROR)))
     = "hish: Exit 1"%string
  /\ displayed (run_trace (child_proc exit_1_rounds exit_1_stream
                             (running HOLD_ERROR)))
     <> pty_bytes exit_1_stream.
Proof.
  split; [reflexivity |]. split; [reflexivity |]. split; [reflexivity |].
  intros Heq. vm_compute in Heq. discriminate.
Qed.

Lemma status_line_once_witness :
  report_status reaped_exit_1
  = ([EvTermWrite StatusLine "sh: Exit 1"], set_status (-1) reaped_exit_1,
     Ret tt)
  /\ (exists t,
        run_trace (child_proc [host_event_round] [] reaped_exit_1)
        = (run_trace (report_status reaped_exit_1) ++ t)%list
        /\ status_lines t = O)
  /\ (status_lines
        (run_trace
           (session [Do_child_proc exit_1_rounds exit_1_stream;
                     Do_sigchld SIGCHLD [mkWait 100 256 0];
                     Do_child_proc exit_1_rounds []]
              (running HOLD_ERROR))) <= 1)%nat.
Proof.
  split; [| split].
  - exact (proj1 status_line_once reaped_exit_1 ltac:(discriminate) eq_refl).
  - exact (proj1 (proj2 status_line_once) reaped_exit_1 host_event_round
             [] [] ltac:(discriminate) eq_refl eq_refl eq_refl).
  - exact (proj1 (proj2 (proj2 status_line_once)) (running HOLD_ERROR) _
             eq_refl).
Defined.

Lemma child_write_open_or_kill_witness :
  child_write "ls" (mkSys 0 2) (running HOLD_DEFAULT)
  = ([EvPtyWrite "ls" 2], running HOLD_DEFAULT, Ret tt)
  /\ child_write "ls" (mkSys 0 2) (set_pty_fd (-1) (running HOLD_DEFAULT))
     = ([EvKill (-100) SIGHUP],
        set_killed true (set_pty_fd (-1) (running HOLD_DEFAULT)), Ret tt).
Proof.
  split.
  - exact (proj1 (child_write_open_or_kill (running HOLD_DEFAULT) "ls"
                    (mkSys 0 2)) ltac:(discriminate)).
  - exact (proj2 (child_write_open_or_kill
                    (set_pty_fd (-1) (running HOLD_DEFAULT)) "ls"
                    (mkSys 0 2)) eq_refl).
Defined.

(** C7 as stated fails: the write to the open pty fails, and no kill is
    started: no signal goes to the child and [killed] stays unset. *)
Lemma child_write_failure_ignored :
  child_write "ls" (mkSys 0 (-1)) (running HOLD_DEFAULT)
  = ([EvPtyWrite "ls" (-1)], running HOLD_DEFAULT, Ret tt)
  /\ child_write "ls" (mkSys 0 (-1)) (running HOLD_DEFAULT)
     <> after [EvPtyWrite "ls" (-1)]
          (child_kill false (mkSys 0 (-1)) (running HOLD_DEFAULT))
  /\ child_write "ls" (mkSys 0 (-1)) (running HOLD_DEFAULT)
     <> child_kill false (mkSys 0 (-1)) (running HOLD_DEFAULT).
Proof.
  split; [reflexivity |].
  split; intros Heq; vm_compute in Heq; discriminate.
Qed.

Lemma child_sendw_nothing_converted_witness :
  child_sendw (C := mute_charset) [104; 105] 2 true (mkSys 0 0)
    (set_pty_fd (-1) (running HOLD_DEFAULT))
  = ([], set_pty_fd (-1) (running HOLD_DEFAULT), Ret tt).
Proof.
  exact (child_sendw_nothing_converted (C := mute_charset)
           (set_pty_fd (-1) (running HOLD_DEFAULT)) [104; 105] 2 true
           (mkSys 0 0) ltac:(discriminate)).
Defined.

(** ** Signal handlers *)

Section Handlers.
Context {P : Platform}.

Lemma disposition_from_app (h : handler) (t1 t2 : trace) (sig : Z) :
  disposition_from h (t1 ++ t2) sig
  = disposition_from (disposition_from h t1 sig) t2 sig.
Proof.
  revert h. induction t1 as [| e t1 IH]; intros h; [reflexivity |].
  destruct e; cbn; apply IH.
Qed.

Lemma disposition_from_no_signal (h : handler) (t : trace) (sig : Z) :
  (forall sig' h', ~ In (EvSignal sig' h') t) ->
  disposition_from h t sig = h.
Proof.
  induction t as [| e t IH]; intros Hfree; [reflexivity |].
  assert (Ht : forall sig' h', ~ In (EvSignal sig' h') t).
  { intros sig' h' Hin. apply (Hfree sig' h'). right. exact Hin. }
  destruct e; cbn; try (apply IH; exact Ht).
  exfalso. apply (Hfree sig0 h0). left. reflexivity.
Qed.

(** In the parent, and when the fork fails, [child_create] installs its five
    handlers and touches no signal afterwards. *)
Lemma child_create_signals (sp : spawn) (s : globals) :
  sp_forkpty sp <> 0 ->
  exists t,
    run_trace (child_create sp s)
    = [EvSignal SIGHUP SIG_IGN; EvSignal SIGINT Hsigexit;
       EvSignal SIGTERM Hsigexit; EvSignal SIGQUIT Hsigexit;
       EvSignal SIGCHLD Hsigchld] ++ t
    /\ forall sig h, ~ In (EvSignal sig h) t.
Proof.
  intros Hfork. apply Z.eqb_neq in Hfork.
  unfold child_create, signal, error, write_utmp.
  rewrite !bind_emit, bind_modify. rewrite Hfork.
  destruct sp as [lang fk master fk_errno w7 console exec_errno exec_fails
                  ptsn login open_win open_log open_log_errno term bs utmp
                  logf].
  cbn [sp_forkpty sp_fork_errno sp_master utmp_enabled sp_ptsname sp_getlogin
       sp_open_windows sp_open_log sp_open_log_errno log_file] in *.
  unfold when.
  destruct (fk <? 0); [destruct (fk_errno =? EAGAIN) |
                       destruct utmp; [destruct ptsn |]];
    destruct logf; try destruct (open_log <? 0);
    unfold bind, emit, modify, gets, ret, after, run_trace; cbn;
    (eexists; split; [reflexivity |]);
    intros sig h Hin; cbn in Hin; intuition discriminate.
Qed.

(** C8 (as amended).  [sigexit], which [child_create] installs for SIGINT,
    SIGTERM and SIGQUIT, sends SIGHUP, whatever the signal received, to the
    process group of the child when a child is tracked; it then restores the
    default disposition of the signal received and raises that signal
    against the process itself.  SIGHUP is ignored: no handler forwards
    it. *)
Theorem sigexit_hangs_up_child :
  (forall (s : globals) (sig : Z),
     sigexit sig s
     = ((if pid s =? 0 then [] else [EvKill (- pid s) SIGHUP])
          ++ [EvSignal sig SIG_DFL; EvKill getpid sig], s, Ret tt))
  /\ (forall (sp : spawn) (s : globals),
        NoDup [SIGHUP; SIGINT; SIGTERM; SIGQUIT; SIGCHLD] ->
        sp_forkpty sp <> 0 ->
        disposition (run_trace (child_create sp s)) SIGINT = Hsigexit
        /\ disposition (run_trace (child_create sp s)) SIGTERM = Hsigexit
        /\ disposition (run_trace (child_create sp s)) SIGQUIT = Hsigexit
        /\ disposition (run_trace (child_create sp s)) SIGHUP = SIG_IGN).
Proof.
  split.
  - intros s sig. unfold sigexit, signal. rewrite bind_gets.
    destruct (pid s =? 0); reflexivity.
  - intros sp s Hdistinct Hfork.
    destruct (child_create_signals sp s Hfork) as (t & -> & Hfree).
    assert (Hinstalled : forall five sig,
              disposition (five ++ t) sig = disposition five sig).
    { intros five sig. unfold disposition.
      rewrite disposition_from_app.
      apply disposition_from_no_signal. exact Hfree. }
    rewrite !Hinstalled. unfold disposition.
    repeat match goal with
           | H : NoDup (_ :: _) |- _ => inversion H; clear H; subst
           end.
    cbn [In] in *.
    assert (Hne : forall a b : Z, a <> b -> (a =? b) = false)
      by (intros a b; apply Z.eqb_neq).
    cbn [disposition_from]. rewrite !Z.eqb_refl.
    repeat split;
      repeat match goal with
             | |- context [?a =? ?b] =>
                 rewrite (Hne a b) by (intros Heq; intuition congruence)
             end; reflexivity.
Qed.

End Handlers.

Lemma cygwin_signals_distinct :
  NoDup [SIGHUP; SIGINT; SIGTERM; SIGQUIT; SIGCHLD].
Proof.
  repeat (constructor; [cbn; intros Hin; intuition discriminate |]).
  constructor.
Qed.

Lemma sigexit_hangs_up_child_witness :
  sigexit SIGTERM (running HOLD_DEFAULT)
  = ([EvKill (-100) SIGHUP; EvSignal SIGTERM SIG_DFL; EvKill getpid SIGTERM],
     running HOLD_DEFAULT, Ret tt)
  /\ disposition
       (run_trace (child_create spawn_100 (initial "/home/u" "sh" HOLD_DEFAULT)))
       SIGHUP = SIG_IGN.
Proof.
  split.
  - exact (proj1 sigexit_hangs_up_child (running HOLD_DEFAULT) SIGTERM).
  - exact (proj2 (proj2 (proj2
             (proj2 sigexit_hangs_up_child spawn_100
                (initial "/home/u" "sh" HOLD_DEFAULT)
                cygwin_signals_distinct ltac:(discriminate))))).
Defined.

(** C8 as stated fails: on SIGINT the child's process group is sent SIGHUP,
    not the signal received; and SIGHUP itself has no handler, it is
    ignored. *)
Lemma sigexit_does_not_forward_signal :
  signals_sent (-100) (run_trace (sigexit SIGINT (running HOLD_DEFAULT)))
  = [SIGHUP]
  /\ ~ In SIGINT
       (signals_sent (-100)
          (run_trace (sigexit SIGINT (running HOLD_DEFAULT))))
  /\ disposition
       (run_trace (child_create spawn_100 (initial "/home/u" "sh" HOLD_DEFAULT)))
       SIGHUP <> Hsigexit.
Proof.
  split; [reflexivity |]. split.
  - cbn. intros [Heq | []]. discriminate.
  - cbn. discriminate.
Qed.

(** ** Paths *)

Section PathProperties.
Context {P : Platform} {C : Charset} {H : PathHost}.

Lemma expand_absolute (g : globals) (path : string) :
  is_absolute path = true -> expand_path g path = path.
Proof.
  destruct path as [| c path]; [discriminate |].
  unfold is_absolute, expand_path.
  destruct c as [[] [] [] [] [] [] [] []]; try discriminate; reflexivity.
Qed.

Lemma expand_bare_tilde (g : globals) (suffix : string) :
  expand_path g ("~/" +++ suffix) = home g +++ "/" +++ suffix.
Proof. reflexivity. Qed.

(** C9.  A path "~/suffix", with no account name after the tilde, is
    translated as the absolute path made of the home directory, "/" and the
    suffix; and a path that starts with "/" is not changed before its
    conversion to the Windows form. *)
Theorem child_conv_path_round_trip (g : globals) :
  (forall (tilde_path home_path : list wchar) (suffix : string),
     mb_path tilde_path = Some ("~/" +++ suffix) ->
     mb_path home_path = Some (home g +++ "/" +++ suffix) ->
     is_absolute (home g +++ "/" +++ suffix) = true ->
     child_conv_path g tilde_path = child_conv_path g home_path)
  /\ (forall (wpath : list wchar) (path : string),
        mb_path wpath = Some path -> is_absolute path = true ->
        child_conv_path g wpath = Some (to_win path)).
Proof.
  split.
  - intros tilde_path home_path suffix Ht Hh Habs.
    unfold child_conv_path. rewrite Ht, Hh.
    rewrite expand_bare_tilde, expand_absolute by exact Habs. reflexivity.
  - intros wpath path Hw Habs.
    unfold child_conv_path. rewrite Hw, expand_absolute by exact Habs.
    reflexivity.
Qed.

End PathProperties.

Lemma child_conv_path_round_trip_witness :
  child_conv_path (running HOLD_DEFAULT) (L "~/a/b")
  = child_conv_path (running HOLD_DEFAULT) (L "/home/u/a/b")
  /\ child_conv_path (running HOLD_DEFAULT) (L "/etc/motd")
     = Some (Some (L "C:\cygwin/etc/motd")).
Proof.
  split.
  - exact (proj1 (child_conv_path_round_trip (running HOLD_DEFAULT))
             (L "~/a/b") (L "/home/u/a/b") "a/b"%string eq_refl eq_refl eq_refl).
  - exact (proj2 (child_conv_path_round_trip (running HOLD_DEFAULT))
             (L "/etc/motd") "/etc/motd"%string eq_refl eq_refl).
Defined.

(** * Further properties *)

(** ** Rules for lawful computations *)

Section Lawfulness.
Context {P : Platform} {C : Charset}.

Lemma steps_to_refl (s : globals) : steps_to s s.
Proof. unfold steps_to. intuition. Qed.

Lemma steps_to_trans (s s1 s2 : globals) :
  steps_to s s1 -> steps_to s1 s2 -> steps_to s s2.
Proof.
  unfold steps_to.
  intros (H1 & H2 & H3 & H4 & H5 & H6 & H7 & H8 & H9)
         (K1 & K2 & K3 & K4 & K5 & K6 & K7 & K8 & K9).
  repeat split; try congruence; try (intros; auto; fail).
  - destruct K7 as [K7 | K7]; [rewrite K7; exact H7 | right; exact K7].
  - destruct K8 as [K8 | K8]; [rewrite K8; exact H8 | right; exact K8].
  - destruct K9 as [K9 | [K9 | [K9 K9']]].
    + rewrite K9. destruct H9 as [H9 | [H9 | [H9 H9']]]; auto.
      right. right. split; [exact H9 |].
      destruct K7 as [K7 | K7]; congruence.
    + right. left. exact K9.
    + right. right. split; [| exact K9'].
      destruct H7 as [H7 | H7]; congruence.
Qed.

Lemma allowed_earlier (s s1 : globals) (e : event) :
  steps_to s s1 -> allowed s1 e -> allowed s e.
Proof.
  unfold steps_to.
  intros (H1 & H2 & H3 & H4 & H5 & H6 & H7 & H8 & H9) He.
  destruct e; cbn in *; try exact He.
  - destruct He as [He | (Hp & Ht & Hs)]; [left; exact He | right].
    destruct H7 as [H7 | H7]; [| congruence].
    rewrite <- H7. auto.
  - destruct o; try exact He.
    destruct He as [Hfd Hlen]. split; [| exact Hlen].
    destruct H8 as [H8 | H8]; lia.
  - destruct H8 as [H8 | H8]; lia.
  - destruct He as (Hfd & Hlog & Hlen). repeat split; lia.
  - destruct He as [Hfd Hpos]. split; lia.
Qed.

Lemma obeys_bind {A B} (m : M A) (k : A -> M B) (s : globals) :
  obeys s (m s) ->
  (forall a t1 s1, m s = (t1, s1, Ret a) -> obeys s1 (k a s1)) ->
  obeys s (bind m k s).
Proof.
  intros Hm Hk. unfold bind, obeys in *.
  destruct (m s) as [[t1 s1] [a | c |]]; try exact Hm.
  specialize (Hk a t1 s1 eq_refl).
  destruct (k a s1) as [[t2 s2] r]. unfold run_trace, run_state, run_res in *.
  cbn in *. destruct Hm as (Hs1 & Ht1 & _). destruct Hk as (Hs2 & Ht2 & Hr).
  split; [exact (steps_to_trans s s1 s2 Hs1 Hs2) |]. split; [| exact Hr].
  apply Forall_app. split; [exact Ht1 |].
  eapply Forall_impl; [| exact Ht2].
  intros e. apply allowed_earlier. exact Hs1.
Qed.

Lemma obeys_quiet {A} (s : globals) (a : A) : obeys s ([], s, Ret a).
Proof. split; [apply steps_to_refl | split; [constructor | exact I]]. Qed.

Lemma obeys_exit {A} (s : globals) : obeys s ([], s, @Exit A 0).
Proof. split; [apply steps_to_refl | split; [constructor | reflexivity]]. Qed.

Lemma obeys_moved (s s1 : globals) :
  steps_to s s1 -> obeys s ([], s1, Ret tt).
Proof. intros Hs. split; [exact Hs | split; [constructor | exact I]]. Qed.

Lemma obeys_emit (s : globals) (e : event) :
  allowed s e -> obeys s (emit e s).
Proof.
  intros He. split; [apply steps_to_refl | split; [| exact I]].
  constructor; [exact He | constructor].
Qed.

Lemma obeys_after {A} (s : globals) (e : event)
  (r : trace * globals * res A) :
  allowed s e -> obeys s r -> obeys s (after [e] r).
Proof.
  intros He (Hs & Ht & Hr). destruct r as [[t s'] x].
  unfold obeys, after, run_trace, run_state, run_res in *. cbn in *.
  split; [exact Hs | split; [| exact Hr]]. constructor; assumption.
Qed.

Lemma lawful_ret {A} (a : A) : lawful (ret a).
Proof. intros s. apply obeys_quiet. Qed.

Lemma lawful_gets {A} (f : globals -> A) : lawful (gets f).
Proof. intros s. apply obeys_quiet. Qed.

Lemma lawful_bind {A B} (m : M A) (k : A -> M B) :
  lawful m -> (forall a, lawful (k a)) -> lawful (bind m k).
Proof. intros Hm Hk s. apply obeys_bind; [apply Hm | intros; apply Hk]. Qed.

Lemma lawful_emit (e : event) : (forall s, allowed s e) -> lawful (emit e).
Proof. intros He s. apply obeys_emit, He. Qed.

Lemma lawful_when (b : bool) (m : M unit) : lawful m -> lawful (when b m).
Proof. intros Hm. destruct b; [exact Hm | apply lawful_ret]. Qed.

Lemma lawful_modify (f : globals -> globals) :
  (forall s, steps_to s (f s)) -> lawful (modify f).
Proof. intros Hf s. apply obeys_moved, Hf. Qed.

Lemma lawful_decide_exit : lawful decide_exit.
Proof.
  intros s. unfold decide_exit. rewrite !bind_gets. unfold when.
  repeat match goal with
         | |- context [if ?b then _ else _] => destruct b
         end; first [apply obeys_exit | apply obeys_quiet].
Qed.

Lemma steps_to_errno (e : Z) (s : globals) : steps_to s (set_errno e s).
Proof. unfold steps_to. cbn. intuition. Qed.

Lemma steps_to_reaped (st : Z) (s : globals) :
  pid s <> 0 -> steps_to s (set_status st (set_pid 0 s)).
Proof. unfold steps_to. cbn. intuition. Qed.

Lemma obeys_from {A} (s s1 : globals) (r : trace * globals * res A) :
  steps_to s s1 -> obeys s1 r -> obeys s r.
Proof.
  intros Hs (Hs1 & Ht & Hr). split; [| split; [| exact Hr]].
  - exact (steps_to_trans _ _ _ Hs Hs1).
  - eapply Forall_impl; [| exact Ht]. intros e. apply allowed_earlier, Hs.
Qed.

Lemma lawful_sigchld_loop (ws : list wait_result) : lawful (sigchld_loop ws).
Proof.
  induction ws as [| w ws IH]; intros s; cbn [sigchld_loop].
  - rewrite bind_modify.
    split; [apply steps_to_errno | split; [constructor | exact I]].
  - rewrite bind_modify, !bind_gets. cbn [pid errno set_errno].
    set (s1 := set_errno _ s).
    assert (Hs1 : steps_to s s1) by apply steps_to_errno.
    destruct ((0 <? w_pid w) && negb (w_pid w =? pid s)
              || (w_pid w =? -1)
                 && ((if w_pid w =? -1 then w_errno w else 0) =? EINTR))
      eqn:Hskip.
    { apply (obeys_from s s1); [exact Hs1 | apply IH]. }
    destruct (w_pid w <=? 0) eqn:Hle.
    { apply (obeys_from s s1); [exact Hs1 | apply obeys_quiet]. }
    rewrite !bind_modify.
    apply Z.leb_gt in Hle. apply orb_false_iff in Hskip.
    destruct Hskip as [Hskip _].
    replace (0 <? w_pid w) with true in Hskip by (symmetry; apply Z.ltb_lt; lia).
    cbn in Hskip. apply negb_false_iff, Z.eqb_eq in Hskip.
    apply (obeys_from s s1); [exact Hs1 |].
    eapply obeys_from;
      [| apply lawful_bind; [apply lawful_decide_exit | intros ?; apply IH]].
    apply steps_to_reaped. subst s1. cbn. lia.
Qed.

Lemma lawful_sigchld (sig : Z) (ws : list wait_result) :
  lawful (sigchld sig ws).
Proof.
  unfold sigchld, signal.
  apply lawful_bind; [apply lawful_gets | intros saved].
  apply lawful_bind; [apply lawful_sigchld_loop | intros rest].
  apply lawful_bind; [apply lawful_modify; intros s; apply steps_to_errno |].
  intros _. apply lawful_bind; [| intros _; apply lawful_ret].
  apply lawful_emit. intros s. right. reflexivity.
Qed.

Lemma lawful_sigexit (sig : Z) : lawful (sigexit sig).
Proof.
  intros s. unfold sigexit, signal. rewrite bind_gets.
  apply obeys_bind.
  - destruct (pid s =? 0) eqn:Hp; cbn [negb when]; [apply obeys_quiet |].
    apply obeys_emit. right. apply Z.eqb_neq in Hp. auto.
  - intros _ t1 s1 _. apply obeys_bind.
    + apply obeys_emit. left. reflexivity.
    + intros _ t2 s2 _. apply obeys_emit. left. reflexivity.
Qed.

Lemma lawful_child_kill (point_blank : bool) (sc : syscalls) :
  lawful (child_kill point_blank sc).
Proof.
  intros s. unfold child_kill. rewrite bind_gets.
  destruct (pid s =? 0) eqn:Hp; [apply obeys_exit |].
  apply Z.eqb_neq in Hp. rewrite bind_emit. apply obeys_after.
  - right. split; [exact Hp | split; [reflexivity |]].
    destruct point_blank; auto.
  - destruct ((kill_ret sc <? 0) || point_blank); [apply obeys_exit |].
    apply obeys_moved. unfold steps_to. cbn. intuition.
Qed.

Lemma lawful_child_write (buf : string) (sc : syscalls) :
  lawful (child_write buf sc).
Proof.
  intros s. unfold child_write. rewrite bind_gets.
  destruct (0 <=? pty_fd s) eqn:Hfd; [| apply lawful_child_kill].
  apply obeys_emit. cbn. apply Z.leb_le. exact Hfd.
Qed.

Lemma lawful_child_send (buf : string) (echoing : bool) (sc : syscalls) :
  lawful (child_send buf echoing sc).
Proof.
  unfold child_send.
  apply lawful_bind; [apply lawful_emit; intros s; exact I | intros _].
  apply lawful_bind; [| intros _; apply lawful_child_write].
  apply lawful_when, lawful_emit. intros s. exact I.
Qed.

Lemma lawful_child_sendw (ws : list wchar) (wlen : Z) (echoing : bool)
  (sc : syscalls) :
  lawful (child_sendw ws wlen echoing sc).
Proof.
  unfold child_sendw.
  destruct (cs_wcntombn ws (wlen * cs_cur_max) wlen) as [len bytes].
  destruct (0 <? len); [apply lawful_child_send | apply lawful_ret].
Qed.

Lemma lawful_child_resize : lawful child_resize.
Proof.
  intros s. unfold child_resize. rewrite bind_gets.
  destruct (0 <=? pty_fd s) eqn:Hfd; cbn [when]; [| apply obeys_quiet].
  apply obeys_emit. cbn. apply Z.leb_le in Hfd. auto.
Qed.

Lemma lawful_report_status : lawful report_status.
Proof.
  unfold report_status.
  apply lawful_bind; [apply lawful_gets | intros st].
  apply lawful_bind; [apply lawful_gets | intros fd].
  apply lawful_when.
  apply lawful_bind; [apply lawful_gets | intros c].
  apply lawful_bind.
  - destruct (WIFEXITED st);
      apply lawful_when, lawful_emit; intros s; exact I.
  - intros _. apply lawful_modify. intros s. unfold steps_to. cbn. intuition.
Qed.

(** [read] gives what was asked for at most. *)
Lemma read_bound (n : nat) (q q' : pty_stream) (ret : Z) (bs : string) :
  read n q = (ret, bs, q') -> (String.length bs <= n)%nat.
Proof.
  unfold read. destruct q as [| [data |] q0].
  - intros Hr. inversion Hr. cbn. lia.
  - destruct (String.length data <=? n)%nat eqn:Hlen; intros Hr;
      inversion Hr; subst.
    + apply Nat.leb_le. exact Hlen.
    + apply Nat.leb_gt in Hlen. rewrite length_take by lia. lia.
  - intros Hr. inversion Hr. cbn. lia.
Qed.

(** The old loop never fills more than its 512 bytes. *)
Lemma read_haul_bound (rounds len : nat) (buf : string) (q q' : pty_stream)
  (ret : Z) (buf' : string) :
  len = String.length buf -> (len <= 512)%nat ->
  read_haul rounds len buf q = (ret, buf', q') ->
  (String.length buf' <= 512)%nat.
Proof.
  revert len buf q. induction rounds as [| rounds IH]; intros len buf q Hlen Hle.
  - cbn. intros Hr. inversion Hr; subst. exact Hle.
  - cbn [read_haul]. destruct (read (512 - len) q) as [[r bs] q1] eqn:Hread.
    pose proof (read_bound _ _ _ _ _ Hread) as Hb.
    apply read_bytes in Hread. destruct Hread as [_ Hr1].
    destruct (0 <? r) eqn:Hpos.
    + apply Z.ltb_lt in Hpos.
      destruct Hr1 as [Hr1 | [Hr1 _]]; [| lia].
      assert (Hlen' : (len + Z.to_nat r)%nat = String.length (buf +++ bs)).
      { rewrite length_append, Hr1, Nat2Z.id, Hlen. reflexivity. }
      assert (Hle' : (len + Z.to_nat r <= 512)%nat).
      { rewrite Hr1, Nat2Z.id. lia. }
      destruct (len + Z.to_nat r <? 512)%nat.
      * apply IH; assumption.
      * intros Hh. inversion Hh; subst. rewrite <- Hlen'. exact Hle'.
    + intros Hh. inversion Hh; subst. exact Hle.
Qed.

Lemma obeys_pty_input (q : pty_stream) (s : globals) :
  0 <= pty_fd s -> obeys s (pty_input q s).
Proof.
  intros Hfd. unfold pty_input.
  assert (Hread : exists len buf q',
            (if 1005 <=? CYGWIN_VERSION_DLL_MAJOR then read 4096 q
             else read_haul 512 0 EmptyString q) = (len, buf, q')
            /\ (String.length buf <= buffer_size)%nat
            /\ ((0 <? len) = true -> (1 <= String.length buf)%nat)).
  { unfold buffer_size. destruct (1005 <=? CYGWIN_VERSION_DLL_MAJOR).
    - destruct (read 4096 q) as [[len buf] q'] eqn:Hr.
      exists len, buf, q'. split; [reflexivity |].
      pose proof (read_bound _ _ _ _ _ Hr) as Hb.
      apply read_bytes in Hr. destruct Hr as [_ Hlen]. split; [exact Hb |].
      intros Hpos. apply Z.ltb_lt in Hpos. destruct Hlen as [Hlen | [Hlen _]]; lia.
    - destruct (read_haul 512 0 EmptyString q) as [[len buf] q'] eqn:Hr.
      exists len, buf, q'. split; [reflexivity |].
      assert (Hb : (String.length buf <= 512)%nat).
      { eapply read_haul_bound; [| | exact Hr]; [reflexivity | lia]. }
      apply read_haul_bytes in Hr; [| reflexivity]. destruct Hr as [_ Hlen].
      split; [exact Hb |]. intros Hpos. apply Z.ltb_lt in Hpos. lia. }
  destruct Hread as (len & buf & q' & -> & Hcap & Hpos).
  destruct (0 <? len).
  - specialize (Hpos eq_refl). rewrite bind_emit. apply obeys_after.
    + cbn. split; [exact Hfd | lia].
    + rewrite bind_gets. destruct (0 <=? log_fd s) eqn:Hlog; cbn [when].
      * rewrite bind_emit. apply obeys_after; [| apply obeys_quiet].
        cbn. apply Z.leb_le in Hlog. repeat split; lia.
      * rewrite bind_ret. apply obeys_quiet.
  - rewrite bind_modify.
    split; [| split; [constructor | exact I]].
    unfold steps_to. cbn. intuition.
Qed.

Lemma lawful_child_proc (rds : list round) (q : pty_stream) :
  lawful (child_proc rds q).
Proof.
  revert q. induction rds as [| rd rds IH]; intros q; cbn [child_proc].
  - apply lawful_ret.
  - apply lawful_bind.
    { unfold term_send_paste. destruct (rd_paste rd);
        [apply lawful_child_send | apply lawful_ret]. }
    intros _. apply lawful_bind; [apply lawful_report_status |].
    intros _. apply lawful_bind.
    { destruct (rd_sigchld rd); [| apply lawful_ret].
      apply lawful_bind; [apply lawful_sigchld | intros ?; apply lawful_ret]. }
    intros _. destruct (0 <? rd_select rd); [| apply IH].
    intros s. rewrite bind_gets. apply obeys_bind.
    + destruct (0 <=? pty_fd s) eqn:Hfd; cbn [andb]; [| apply obeys_quiet].
      destruct (rd_pty_isset rd); [| apply obeys_quiet].
      apply obeys_pty_input. apply Z.leb_le. exact Hfd.
    + intros q' t1 s1 _. destruct (rd_win_isset rd);
        [apply obeys_quiet | apply IH].
Qed.

Lemma lawful_perform (a : action) : lawful (perform a).
Proof.
  destruct a; cbn [perform].
  - apply lawful_bind; [apply lawful_sigchld | intros ?; apply lawful_ret].
  - apply lawful_sigexit.
  - apply lawful_bind; [apply lawful_child_proc | intros ?; apply lawful_ret].
  - apply lawful_child_kill.
  - apply lawful_child_write.
  - apply lawful_child_send.
  - apply lawful_child_sendw.
  - apply lawful_child_resize.
Qed.

Lemma lawful_session (acts : list action) : lawful (session acts).
Proof.
  induction acts as [| a acts IH]; cbn [session].
  - apply lawful_ret.
  - apply lawful_bind; [apply lawful_perform | intros _; exact IH].
Qed.

End Lawfulness.

(** ** How the process ends *)

Section Endings.
Context {P : Platform} {C : Charset}.

Lemma sigexit_calls (sig : Z) (s : globals) :
  sigexit sig s
  = ((if pid s =? 0 then [] else [EvKill (- pid s) SIGHUP])
       ++ [EvSignal sig SIG_DFL; EvKill getpid sig], s, Ret tt)%list.
Proof.
  unfold sigexit, signal. rewrite bind_gets.
  destruct (pid s =? 0); reflexivity.
Qed.

Lemma life_dies_at (ends : Z -> bool) (before : list action) (sig : Z)
  (rest : list action) (s : globals) :
  ends sig = true ->
  life ends (before ++ Do_sigexit sig :: rest) s
  = life ends (before ++ [Do_sigexit sig]) s.
Proof.
  intros Hends. revert s.
  induction before as [| a before IH]; intros s; cbn [app life].
  - cbn [raised perform]. rewrite Hends, sigexit_calls. reflexivity.
  - destruct (perform a s) as [[t s1] [u | c |]]; try reflexivity.
    destruct (raised ends a); [reflexivity |].
    rewrite IH. reflexivity.
Qed.

(** X1.  Over any sequence of handler runs and calls the process ends in
    two ways only: by [exit(0)], or by dying of a signal whose default
    action ends the process, which [sigexit] has returned to its default
    disposition and sent to the process itself as its last two calls.  It
    never exits with another code and never replaces its image; and
    nothing runs after [sigexit]: what follows it makes no difference. *)
Theorem process_ends_by_exit_0_or_signal (ends : Z -> bool) :
  (forall (acts : list action) (s : globals),
     match life ends acts s with
     | (_, _, Goes_on) => True
     | (_, _, Exits code) => code = 0
     | (_, _, Replaced) => False
     | (t, _, Dies_of sig) =>
         ends sig = true
         /\ exists t0, t = (t0 ++ [EvSignal sig SIG_DFL;
                                   EvKill getpid sig])%list
     end)
  /\ (forall (before : list action) (sig : Z) (rest : list action)
             (s : globals),
        ends sig = true ->
        life ends (before ++ Do_sigexit sig :: rest) s
        = life ends (before ++ [Do_sigexit sig]) s).
Proof.
  split; [| intros before sig rest s; apply life_dies_at].
  intros acts. induction acts as [| a acts IH]; intros s; cbn [life];
    [exact I |].
  destruct (lawful_perform a s) as (_ & _ & Hr).
  destruct (perform a s) as [[t s1] [u | c |]] eqn:Hp; cbn in Hr;
    [| exact Hr | exact Hr].
  destruct (raised ends a) as [sig |] eqn:Hraised.
  - destruct a; try discriminate. cbn [raised] in Hraised.
    destruct (ends sig0) eqn:Hends; [| discriminate].
    injection Hraised as <-. split; [exact Hends |].
    cbn [perform] in Hp. rewrite sigexit_calls in Hp.
    injection Hp as <- _ _.
    eexists. reflexivity.
  - specialize (IH s1).
    destruct (life ends acts s1) as [[t' s2] [| code | | sig]];
      try exact IH.
    destruct IH as (Hends & t0 & ->). split; [exact Hends |].
    exists (t ++ t0)%list. rewrite app_assoc. reflexivity.
Qed.

End Endings.

(** An interrupt ends the process: the resize that follows does not run. *)
Lemma process_ends_by_exit_0_or_signal_witness :
  life exit_signals_end [Do_child_resize; Do_sigexit 2; Do_child_resize]
    (running HOLD_DEFAULT)
  = ([EvIoctlWinsz 3; EvKill (-100) SIGHUP; EvSignal 2 SIG_DFL;
      EvKill getpid 2], running HOLD_DEFAULT, Dies_of 2).
Proof.
  rewrite (proj2 (process_ends_by_exit_0_or_signal exit_signals_end)
             [Do_child_resize] 2 [Do_child_resize] (running HOLD_DEFAULT)
             eq_refl).
  reflexivity.
Defined.

(** ** Sessions *)

Section Sessions.
Context {P : Platform} {C : Charset}.

(** X2.  Over a session the home directory, the command, the policy and the
    log and window descriptors do not change; [killed], once set, stays
    set; the pid is kept or reset to 0 and the pty descriptor is kept or
    reset to -1: neither is ever given a new value; and the status changes
    only when it is cleared or when the tracked child is reaped. *)
Theorem session_keeps (acts : list action) (s : globals) :
  home (run_state (session acts s)) = home s
  /\ cmd (run_state (session acts s)) = cmd s
  /\ hold (run_state (session acts s)) = hold s
  /\ log_fd (run_state (session acts s)) = log_fd s
  /\ win_fd (run_state (session acts s)) = win_fd s
  /\ implb (killed s) (killed (run_state (session acts s))) = true
  /\ (pid (run_state (session acts s)) = pid s
      \/ pid (run_state (session acts s)) = 0)
  /\ (pty_fd (run_state (session acts s)) = pty_fd s
      \/ pty_fd (run_state (session acts s)) = -1)
  /\ (status (run_state (session acts s)) = status s
      \/ status (run_state (session acts s)) = -1
      \/ (pid s <> 0 /\ pid (run_state (session acts s)) = 0)).
Proof.
  destruct (lawful_session acts s)
    as ((H1 & H2 & H3 & H4 & H5 & H6 & H7 & H8 & H9) & _).
  repeat (split; [assumption |]).
  split; [| repeat (split; [assumption |]); assumption].
  destruct (killed s); [rewrite H6 by reflexivity |]; reflexivity.
Qed.

(** X3.  Every signal a session sends goes either to the process itself or,
    as SIGHUP or SIGKILL, to the process group of the tracked child: with
    no child tracked nothing is sent to a group, so [kill(0, ...)], which
    would reach the terminal's own group, never happens. *)
Theorem session_signals_child_group (acts : list action) (s : globals)
  (target sig : Z) :
  In (EvKill target sig) (run_trace (session acts s)) ->
  target = getpid
  \/ (pid s <> 0 /\ target = - pid s /\ (sig = SIGHUP \/ sig = SIGKILL)).
Proof.
  intros Hin. destruct (lawful_session acts s) as (_ & Ht & _).
  rewrite Forall_forall in Ht. exact (Ht _ Hin).
Qed.

Lemma no_traffic_when_closed (s : globals) (t : trace) :
  pty_fd s < 0 -> Forall (allowed s) t -> existsb pty_traffic t = false.
Proof.
  intros Hfd Ht. induction Ht as [| e t He _ IH]; [reflexivity |].
  cbn [existsb]. rewrite IH, orb_false_r.
  destruct e; cbn in *; try reflexivity; try lia.
  destruct o; cbn in *; try reflexivity. lia.
Qed.

(** X4.  Once the pty descriptor is closed it stays closed, and no session
    writes to the pty, resizes it, shows pty bytes or writes to the log
    file. *)
Theorem closed_pty_stays_silent (acts : list action) (s : globals) :
  pty_fd s < 0 ->
  pty_fd (run_state (session acts s)) < 0
  /\ existsb pty_traffic (run_trace (session acts s)) = false.
Proof.
  intros Hfd. destruct (lawful_session acts s) as (Hs & Ht & _). split.
  - destruct Hs as (_ & _ & _ & _ & _ & _ & _ & [H8 | H8] & _); lia.
  - exact (no_traffic_when_closed s _ Hfd Ht).
Qed.

(** X5.  Every piece of pty data a session shows, and every piece it writes
    to the log file, is not empty and fits the static buffer of
    [child_proc]: 4096 bytes, or 512 on the old Cygwin versions. *)
Theorem relayed_pieces_fit_buffer (acts : list action) (s : globals)
  (bs : string) :
  In (EvTermWrite PtyData bs) (run_trace (session acts s))
  \/ In (EvLogWrite bs) (run_trace (session acts s)) ->
  (1 <= String.length bs <= buffer_size)%nat.
Proof.
  destruct (lawful_session acts s) as (_ & Ht & _).
  rewrite Forall_forall in Ht.
  intros [Hin | Hin]; specialize (Ht _ Hin); cbn in Ht; tauto.
Qed.

Lemma child_write_when_gone (s : globals) (buf : string) (sc : syscalls) :
  pty_fd s < 0 -> pid s = 0 -> child_write buf sc s = ([], s, Exit 0).
Proof.
  intros Hfd Hpid.
  unfold child_write, child_kill. rewrite bind_gets.
  apply Z.leb_gt in Hfd. rewrite Hfd, bind_gets, Hpid. reflexivity.
Qed.

Lemma child_send_when_gone (s : globals) (buf : string) (echoing : bool)
  (sc : syscalls) :
  pty_fd s < 0 -> pid s = 0 ->
  child_send buf echoing sc s
  = (EvTermResetScreen :: (if echoing then [EvTermWrite Echo buf] else []),
     s, Exit 0).
Proof.
  intros Hfd Hpid.
  unfold child_send. rewrite bind_emit.
  destruct echoing; cbn [when].
  - rewrite bind_emit, (child_write_when_gone s buf sc Hfd Hpid).
    reflexivity.
  - rewrite bind_ret, (child_write_when_gone s buf sc Hfd Hpid).
    reflexivity.
Qed.

(** X6.  With the pty closed and no child tracked, as after the child is
    reaped and the pty has reached its end or after a failed fork, anything
    sent to the child ends the process with [exit(0)], without a signal
    sent: [child_send] still resets the screen and echoes first. *)
Theorem input_after_child_is_gone (s : globals) (buf : string)
  (echoing : bool) (sc : syscalls) :
  pty_fd s < 0 -> pid s = 0 ->
  child_write buf sc s = ([], s, Exit 0)
  /\ child_send buf echoing sc s
     = (EvTermResetScreen :: (if echoing then [EvTermWrite Echo buf] else []),
        s, Exit 0).
Proof.
  intros Hfd Hpid. split.
  - exact (child_write_when_gone s buf sc Hfd Hpid).
  - exact (child_send_when_gone s buf echoing sc Hfd Hpid).
Qed.

End Sessions.

Lemma session_signals_child_group_witness :
  -100 = getpid
  \/ (pid (running HOLD_DEFAULT) <> 0 /\ -100 = - pid (running HOLD_DEFAULT)
      /\ (SIGHUP = SIGHUP \/ SIGHUP = SIGKILL)).
Proof.
  exact (session_signals_child_group
           [Do_child_resize; Do_child_kill false (mkSys 0 0)]
           (running HOLD_DEFAULT) (-100) SIGHUP
           (or_intror (or_introl eq_refl))).
Defined.

Lemma closed_pty_stays_silent_witness :
  pty_fd (run_state
            (session [Do_child_resize; Do_child_proc exit_1_rounds
                                         exit_1_stream]
               reaped_exit_1)) < 0
  /\ existsb pty_traffic
       (run_trace
          (session [Do_child_resize; Do_child_proc exit_1_rounds
                                       exit_1_stream]
             reaped_exit_1)) = false.
Proof.
  exact (closed_pty_stays_silent
           [Do_child_resize; Do_child_proc exit_1_rounds exit_1_stream]
           reaped_exit_1 eq_refl).
Defined.

Lemma relayed_pieces_fit_buffer_witness :
  (1 <= String.length "hi" <= buffer_size)%nat.
Proof.
  exact (relayed_pieces_fit_buffer
           [Do_child_proc exit_1_rounds exit_1_stream] (running HOLD_ERROR)
           "hi" (or_introl (or_introl eq_refl))).
Defined.

Lemma input_after_child_is_gone_witness :
  child_write "x" (mkSys 0 0) (set_status (-1) reaped_exit_1)
  = ([], set_status (-1) reaped_exit_1, Exit 0)
  /\ child_send "x" true (mkSys 0 0) (set_status (-1) reaped_exit_1)
     = ([EvTermResetScreen; EvTermWrite Echo "x"],
        set_status (-1) reaped_exit_1, Exit 0).
Proof.
  exact (input_after_child_is_gone (set_status (-1) reaped_exit_1) "x" true
           (mkSys 0 0) eq_refl eq_refl).
Defined.

(** ** What a run of sigchld can come to *)

Section HandlerOutcomes.
Context {P : Platform}.

Lemma set_errno_twice (e e' : Z) (s : globals) :
  set_errno e (set_errno e' s) = set_errno e s.
Proof. reflexivity. Qed.

(** The loop either changes nothing but [errno], or reaps the tracked child
    and goes on, or reaps it and exits. *)
Lemma sigchld_loop_outcomes (ws : list wait_result) (s : globals) :
  (exists e rest, sigchld_loop ws s = ([], set_errno e s, Ret rest))
  \/ (exists w e rest,
        In w ws /\ 0 < pid s /\ w_pid w = pid s
        /\ decide_exit (set_status (w_status w) (set_pid 0 s))
           = ([], set_status (w_status w) (set_pid 0 s), Ret tt)
        /\ sigchld_loop ws s
           = ([], set_errno e (set_status (w_status w) (set_pid 0 s)),
              Ret rest))
  \/ (exists w,
        In w ws /\ 0 < pid s /\ w_pid w = pid s
        /\ decide_exit (set_status (w_status w) (set_pid 0 s))
           = ([], set_status (w_status w) (set_pid 0 s), Exit 0)
        /\ sigchld_loop ws s
           = ([], set_errno 0 (set_status (w_status w) (set_pid 0 s)),
              Exit 0)).
Proof.
  induction ws as [| w ws IH].
  - left. exists 0, []. reflexivity.
  - destruct (skips (pid s) w) eqn:Hskip.
    + rewrite skips_loop by exact Hskip.
      destruct IH as [IH | [(w' & e & rest & Hin & IH) | (w' & Hin & IH)]].
      * left. exact IH.
      * right. left. exists w', e, rest. split; [right; exact Hin | exact IH].
      * right. right. exists w'. split; [right; exact Hin | exact IH].
    + destruct (w_pid w <=? 0) eqn:Hle.
      * left. apply Z.leb_le in Hle. eexists. eexists.
        apply nothing_loop; assumption.
      * apply Z.leb_gt in Hle.
        assert (Hsame : w_pid w = pid s).
        { unfold skips in Hskip. apply orb_false_iff in Hskip.
          destruct Hskip as [Hskip _].
          replace (0 <? w_pid w) with true in Hskip
            by (symmetry; apply Z.ltb_lt; lia).
          cbn in Hskip. apply negb_false_iff, Z.eqb_eq in Hskip.
          exact Hskip. }
        assert (Hpid : 0 < pid s) by lia.
        rewrite (capture_loop w ws s Hpid Hsame).
        set (kept := set_status (w_status w) (set_pid 0 s)).
        destruct (decide_exit_cases kept) as [Hd | Hd].
        -- right. left.
           destruct (idle_loop ws (set_errno 0 kept) eq_refl) as [e He].
           exists w, e, (drain ws).
           repeat (split; [first [left; reflexivity | assumption] |]).
           erewrite bind_run by exact (decide_exit_errno 0 kept _ Hd).
           rewrite after_nil, He. reflexivity.
        -- right. right. exists w.
           repeat (split; [first [left; reflexivity | assumption] |]).
           erewrite bind_stop by exact (decide_exit_errno 0 kept _ Hd).
           reflexivity.
Qed.

Lemma restored (e : Z) (s : globals) : set_errno (errno s) (set_errno e s) = s.
Proof. destruct s; reflexivity. Qed.

Lemma restored_reaped (e st : Z) (s : globals) :
  set_errno (errno s) (set_errno e (set_status st (set_pid 0 s)))
  = set_status st (set_pid 0 s).
Proof. destruct s; reflexivity. Qed.

(** X7.  When the handler returns it has done nothing but install itself
    again: [errno] is what it was, and the state is unchanged, unless the
    tracked child was reaped, in which case the pid is reset and the status
    recorded, and nothing else has changed. *)
Theorem sigchld_returns_restored (sig : Z) (ws : list wait_result)
  (s s' : globals) (t : trace) (rest : list wait_result) :
  sigchld sig ws s = (t, s', Ret rest) ->
  t = [EvSignal sig Hsigchld]
  /\ errno s' = errno s
  /\ (s' = s
      \/ exists w,
           In w ws /\ 0 < pid s /\ w_pid w = pid s
           /\ s' = set_status (w_status w) (set_pid 0 s)).
Proof.
  unfold sigchld, signal. rewrite bind_gets.
  destruct (sigchld_loop_outcomes ws s)
    as [(e & r & Hl) | [(w & e & r & Hin & Hpid & Hw & _ & Hl)
                       | (w & _ & _ & _ & _ & Hl)]].
  - erewrite bind_run by exact Hl.
    rewrite after_nil, bind_modify, bind_emit. cbn. rewrite restored.
    intros Hr. inversion Hr; subst. auto.
  - erewrite bind_run by exact Hl.
    rewrite after_nil, bind_modify, bind_emit. cbn. rewrite restored_reaped.
    intros Hr. inversion Hr; subst. split; [reflexivity |].
    split; [reflexivity |]. right. exists w. auto.
  - erewrite bind_stop by exact Hl. discriminate.
Qed.

(** X8.  The handler ends the process only with [exit(0)], and only in the
    run that reaps the tracked child: a status of another process, an
    interrupted call or a call that finds nothing never ends the process,
    and neither does any run once the child is reaped. *)
Theorem sigchld_exits_on_reaping_only (sig : Z) (ws : list wait_result)
  (s : globals) :
  match sigchld sig ws s with
  | (_, _, Ret _) => True
  | (t, s', Exit code) =>
      code = 0 /\ t = [] /\ 0 < pid s /\ pid s' = 0
      /\ exists w, In w ws /\ w_pid w = pid s /\ status s' = w_status w
  | (_, _, Exec) => False
  end.
Proof.
  unfold sigchld, signal. rewrite bind_gets.
  destruct (sigchld_loop_outcomes ws s)
    as [(e & r & Hl) | [(w & e & r & _ & _ & _ & _ & Hl)
                       | (w & Hin & Hpid & Hw & _ & Hl)]].
  - erewrite bind_run by exact Hl.
    rewrite after_nil, bind_modify, bind_emit. exact I.
  - erewrite bind_run by exact Hl.
    rewrite after_nil, bind_modify, bind_emit. exact I.
  - erewrite bind_stop by exact Hl.
    repeat (split; [first [reflexivity | assumption] |]).
    exists w. auto.
Qed.

Lemma decide_never (s : globals) :
  hold s = HOLD_NEVER -> decide_exit s = ([], s, Exit 0).
Proof.
  intros Hh. unfold decide_exit. rewrite !bind_gets, Hh.
  cbn [hold_eqb]. rewrite orb_true_r. reflexivity.
Qed.

Lemma decide_always (s : globals) :
  hold s = HOLD_ALWAYS -> killed s = false ->
  decide_exit s = ([], s, Ret tt).
Proof.
  intros Hh Hk. unfold decide_exit. rewrite !bind_gets, Hh, Hk. reflexivity.
Qed.

(** X9.  Under the NEVER policy the handler exits as soon as it reaps the
    tracked child, whatever its status.  Under a policy that is none of
    NEVER, DEFAULT and ERROR, and with no kill requested, the handler never
    exits: it returns on every run. *)
Theorem sigchld_never_and_always :
  (forall (s : globals) (sig : Z) (pre : list wait_result)
          (w : wait_result) (rest : list wait_result),
     hold s = HOLD_NEVER -> 0 < pid s ->
     forallb (skips (pid s)) pre = true -> w_pid w = pid s ->
     run_res (sigchld sig (pre ++ w :: rest) s) = Exit 0)
  /\ (forall (s : globals) (sig : Z) (ws : list wait_result),
        hold s = HOLD_ALWAYS -> killed s = false ->
        exists rest, run_res (sigchld sig ws s) = Ret rest).
Proof.
  split.
  - intros s sig pre w rest Hh Hpid Hpre Hw.
    destruct (capture sig pre w rest s Hpid Hpre Hw) as [_ Hexit].
    rewrite Hexit; [reflexivity |]. apply decide_never. exact Hh.
  - intros s sig ws Hh Hk. unfold sigchld, signal. rewrite bind_gets.
    destruct (sigchld_loop_outcomes ws s)
      as [(e & r & Hl) | [(w & e & r & _ & _ & _ & _ & Hl)
                         | (w & _ & _ & _ & Hd & _)]].
    + erewrite bind_run by exact Hl.
      rewrite after_nil, bind_modify, bind_emit. exists r. reflexivity.
    + erewrite bind_run by exact Hl.
      rewrite after_nil, bind_modify, bind_emit. exists r. reflexivity.
    + rewrite decide_always in Hd by assumption. discriminate.
Qed.

End HandlerOutcomes.

Lemma sigchld_returns_restored_witness :
  [EvSignal SIGCHLD Hsigchld] = [EvSignal SIGCHLD Hsigchld]
  /\ errno (set_status 65280 (set_pid 0 (set_errno 17 (running HOLD_DEFAULT))))
     = errno (set_errno 17 (running HOLD_DEFAULT))
  /\ (set_status 65280 (set_pid 0 (set_errno 17 (running HOLD_DEFAULT)))
      = set_errno 17 (running HOLD_DEFAULT)
      \/ exists w,
           In w [mkWait (-1) 0 EINTR; mkWait 100 65280 0]
           /\ 0 < pid (set_errno 17 (running HOLD_DEFAULT))
           /\ w_pid w = pid (set_errno 17 (running HOLD_DEFAULT))
           /\ set_status 65280 (set_pid 0 (set_errno 17 (running HOLD_DEFAULT)))
              = set_status (w_status w)
                  (set_pid 0 (set_errno 17 (running HOLD_DEFAULT)))).
Proof.
  exact (sigchld_returns_restored SIGCHLD
           [mkWait (-1) 0 EINTR; mkWait 100 65280 0]
           (set_errno 17 (running HOLD_DEFAULT)) _ _ _ eq_refl).
Defined.

Lemma sigchld_never_and_always_witness :
  run_res (sigchld SIGCHLD [mkWait 100 65280 0] (running HOLD_NEVER)) = Exit 0
  /\ exists rest,
       run_res (sigchld SIGCHLD [mkWait 100 0 0] (running HOLD_ALWAYS))
       = Ret rest.
Proof.
  split.
  - exact (proj1 sigchld_never_and_always (running HOLD_NEVER) SIGCHLD []
             (mkWait 100 65280 0) [] eq_refl eq_refl eq_refl eq_refl).
  - exact (proj2 sigchld_never_and_always (running HOLD_ALWAYS) SIGCHLD
             [mkWait 100 0 0] eq_refl eq_refl).
Defined.

(** ** How child_proc ends and what it stops relaying *)

Section LoopEnds.
Context {P : Platform} {C : Charset}.

Lemma bind_returns {A B} (m : M A) (k : A -> M B) (s s' : globals)
  (t : trace) (b : B) :
  bind m k s = (t, s', Ret b) ->
  exists a t1 s1 t2,
    m s = (t1, s1, Ret a) /\ k a s1 = (t2, s', Ret b) /\ t = (t1 ++ t2)%list.
Proof.
  unfold bind. destruct (m s) as [[t1 s1] [a | c |]]; try discriminate.
  destruct (k a s1) as [[t2 s2] r] eqn:Hk. intros Hr. inversion Hr; subst.
  exists a, t1, s1, t2. auto.
Qed.

Lemma returns_on_host_event (rds : list round) (q q' : pty_stream)
  (s s' : globals) (t : trace) :
  child_proc rds q s = (t, s', Ret (HostEvent, q')) ->
  existsb host_event rds = true.
Proof.
  revert q s t. induction rds as [| rd rds IH]; intros q s t.
  - cbn. discriminate.
  - cbn [child_proc existsb]. intros Hr.
    apply bind_returns in Hr. destruct Hr as (_ & t1 & s1 & t2 & _ & Hr & _).
    apply bind_returns in Hr. destruct Hr as (_ & t3 & s2 & t4 & _ & Hr & _).
    apply bind_returns in Hr. destruct Hr as (_ & t5 & s3 & t6 & _ & Hr & _).
    unfold host_event. destruct (0 <? rd_select rd); cbn [andb].
    + apply bind_returns in Hr. destruct Hr as (fd & t7 & s4 & t8 & _ & Hr & _).
      apply bind_returns in Hr. destruct Hr as (q1 & t9 & s5 & t10 & _ & Hr & _).
      destruct (rd_win_isset rd); [reflexivity |].
      cbn [orb]. exact (IH _ _ _ Hr).
    + exact (IH _ _ _ Hr).
Qed.

(** X10.  [child_proc] returns to its caller only in a round in which
    [select] succeeds and reports the host descriptor, and in such a round
    it returns without running another one: what the later rounds would
    bring makes no difference. *)
Theorem child_proc_returns_on_host_event :
  (forall (rds : list round) (q : pty_stream) (s : globals),
     match run_res (child_proc rds q s) with
     | Ret (HostEvent, _) => existsb host_event rds = true
     | _ => True
     end)
  /\ (forall (rd : round) (rds : list round) (q : pty_stream) (s : globals),
        host_event rd = true ->
        child_proc (rd :: rds) q s = child_proc [rd] q s
        /\ match run_res (child_proc (rd :: rds) q s) with
           | Ret (Looping, _) => False
           | _ => True
           end).
Proof.
  split.
  - intros rds q s.
    destruct (child_proc rds q s) as [[t s'] [[[] q'] | c |]] eqn:Hr;
      try exact I.
    exact (returns_on_host_event rds q q' s s' t Hr).
  - intros rd rds q s Hhost. unfold host_event in Hhost.
    apply andb_true_iff in Hhost. destruct Hhost as [Hsel Hwin].
    assert (Heq : child_proc (rd :: rds) q s = child_proc [rd] q s).
    { cbn [child_proc]. rewrite Hsel.
      destruct rd as [paste echoing sc sigc sel pty win]. cbn in *. subst win.
      reflexivity. }
    split; [exact Heq |]. rewrite Heq.
    destruct (child_proc [rd] q s) as [[t s'] [[[] q'] | c |]] eqn:Hr;
      try exact I.
    cbn [child_proc] in Hr.
    apply bind_returns in Hr. destruct Hr as (_ & t1 & s1 & t2 & _ & Hr & _).
    apply bind_returns in Hr. destruct Hr as (_ & t3 & s2 & t4 & _ & Hr & _).
    apply bind_returns in Hr. destruct Hr as (_ & t5 & s3 & t6 & _ & Hr & _).
    rewrite Hsel in Hr.
    apply bind_returns in Hr. destruct Hr as (fd & t7 & s4 & t8 & _ & Hr & _).
    apply bind_returns in Hr. destruct Hr as (q1 & t9 & s5 & t10 & _ & Hr & _).
    rewrite Hwin in Hr. discriminate.
Qed.












End LoopEnds.

Lemma child_proc_returns_on_host_event_witness :
  child_proc (host_event_round :: exit_1_rounds) exit_1_stream
    (running HOLD_ERROR)
  = child_proc [host_event_round] exit_1_stream (running HOLD_ERROR)
  /\ True.
Proof.
  exact (proj2 child_proc_returns_on_host_event host_event_round
           exit_1_rounds exit_1_stream (running HOLD_ERROR) eq_refl).
Defined.


(** ** Expansion of paths *)

Section Expansion.
Context {P : Platform} {C : Charset} {H : PathHost}.

(** The three cases of [child_conv_path] by the first character. *)
Lemma expand_path_cases (g : globals) (c : ascii) (p : string) :
  expand_path g (String c p)
  = if Ascii.eqb c "~" then
      expand_path g (String "~" p)
    else if Ascii.eqb c "/" then String c p
    else
      if 1005 <=? CYGWIN_VERSION_DLL_MAJOR then
        match
          (if 0 <?
              (if (if 0 <=? pty_fd g then tcgetpgrp (pty_fd g) else 0) <=? 0
               then pid g
               else if 0 <=? pty_fd g then tcgetpgrp (pty_fd g) else 0)
           then
             realpath
               ("/proc/"
                  +++ decimal
                        (if (if 0 <=? pty_fd g then tcgetpgrp (pty_fd g)
                             else 0) <=? 0
                         then pid g
                         else if 0 <=? pty_fd g then tcgetpgrp (pty_fd g)
                              else 0)
                  +++ "/cwd")
           else None)
        with
        | Some dir => dir +++ "/" +++ String c p
        | None => home g +++ "/" +++ String c p
        end
      else home g +++ "/" +++ String c p.
Proof. destruct c as [[] [] [] [] [] [] [] []]; reflexivity. Qed.

Lemma substring_whole (s : string) : substring 0 (String.length s) s = s.
Proof. induction s as [| c s IH]; cbn; [| rewrite IH]; reflexivity. Qed.

Lemma strchr_first_slash (name rest : string) :
  strchr name "/" = None ->
  strchr (name +++ "/" +++ rest) "/" = Some (name, rest).
Proof.
  induction name as [| c name IH]; intros Hnone; [reflexivity |].
  cbn in *. destruct (Ascii.eqb c "/"); [discriminate |].
  destruct (strchr name "/") as [[b r] |]; [discriminate |].
  rewrite IH by reflexivity. reflexivity.
Qed.

Lemma rooted_base (base rest : string) :
  rooted base = true -> is_absolute (base +++ "/" +++ rest) = true.
Proof. unfold rooted. destruct base; [reflexivity | exact (fun Hb => Hb)]. Qed.

(** The base a tilde path is expanded against. *)
Lemma expand_tilde_shape (g : globals) (p : string) :
  exists base rest,
    expand_path g (String "~" p) = base +++ "/" +++ rest
    /\ (base = home g \/ base = EmptyString
        \/ exists name, getpwnam name = Some (Some base)).
Proof.
  unfold expand_path.
  destruct (strchr (String "~" p) "/") as [[before rest] |].
  - exists (match drop 1 before with
            | EmptyString => home g
            | String _ _ =>
                if 1005 <=? CYGWIN_VERSION_DLL_MAJOR then
                  match getpwnam (drop 1 before) with
                  | Some (Some dir) => dir
                  | _ => EmptyString
                  end
                else EmptyString
            end), rest.
    split; [reflexivity |].
    destruct (drop 1 before) as [| c n]; [left; reflexivity | right].
    destruct (1005 <=? CYGWIN_VERSION_DLL_MAJOR); [| left; reflexivity].
    destruct (getpwnam (String c n)) as [[dir |] |] eqn:Hpw;
      [right; exists (String c n); exact Hpw | left; reflexivity
      | left; reflexivity].
  - exists (match p with
            | EmptyString => home g
            | String _ _ =>
                if 1005 <=? CYGWIN_VERSION_DLL_MAJOR then
                  match getpwnam p with
                  | Some (Some dir) => dir
                  | _ => EmptyString
                  end
                else EmptyString
            end), EmptyString.
    split; [reflexivity |].
    destruct p as [| c n]; [left; reflexivity | right].
    destruct (1005 <=? CYGWIN_VERSION_DLL_MAJOR); [| left; reflexivity].
    destruct (getpwnam (String c n)) as [[dir |] |] eqn:Hpw;
      [right; exists (String c n); exact Hpw | left; reflexivity
      | left; reflexivity].
Qed.

(** X12.  When the home directory and every directory the lookups answer
    are absolute, the path handed to the Cygwin conversion is absolute,
    whatever the path given: tilde paths, relative paths, the empty path and
    paths of unknown accounts included. *)
Theorem expand_path_is_absolute (g : globals) (path : string) :
  rooted (home g) = true ->
  (forall name dir, getpwnam name = Some (Some dir) -> rooted dir = true) ->
  (forall link dir, realpath link = Some dir -> rooted dir = true) ->
  is_absolute (expand_path g path) = true.
Proof.
  intros Hhome Hpw Hreal.
  destruct path as [| c p].
  - cbn. destruct (1005 <=? CYGWIN_VERSION_DLL_MAJOR);
      [| apply rooted_base; exact Hhome].
    match goal with
    | |- context [match ?x with Some _ => _ | None => _ end] =>
        destruct x as [dir |] eqn:Hx
    end; apply rooted_base; [| exact Hhome].
    destruct (0 <? _); [exact (Hreal _ _ Hx) | discriminate].
  - rewrite expand_path_cases.
    destruct (Ascii.eqb c "~") eqn:Htilde.
    + destruct (expand_tilde_shape g p) as (base & rest & -> & Hbase).
      apply rooted_base.
      destruct Hbase as [-> | [-> | [name Hname]]];
        [exact Hhome | reflexivity | exact (Hpw _ _ Hname)].
    + destruct (Ascii.eqb c "/") eqn:Hslash.
      * apply Ascii.eqb_eq in Hslash. subst c. reflexivity.
      * destruct (1005 <=? CYGWIN_VERSION_DLL_MAJOR);
          [| apply rooted_base; exact Hhome].
        match goal with
        | |- context [match ?x with Some _ => _ | None => _ end] =>
            destruct x as [dir |] eqn:Hx
        end; apply rooted_base; [| exact Hhome].
        destruct (0 <? _); [exact (Hreal _ _ Hx) | discriminate].
Qed.

(** X13.  A tilde followed by an account name is expanded against the home
    directory of that account.  When the account is not known, or has no
    directory, the base is empty, so that "~name/rest" becomes "/rest". *)
Theorem expand_named_tilde (g : globals) (c : ascii) (name rest : string) :
  strchr (String c name) "/" = None ->
  1005 <= CYGWIN_VERSION_DLL_MAJOR ->
  expand_path g ("~" +++ String c name +++ "/" +++ rest)
  = match getpwnam (String c name) with
    | Some (Some dir) => dir +++ "/" +++ rest
    | _ => "/" +++ rest
    end.
Proof.
  intros Hname Hver. apply Z.leb_le in Hver.
  change ("~" +++ String c name +++ "/" +++ rest)
    with (String "~" (String c name +++ "/" +++ rest)).
  unfold expand_path.
  change (strchr (String "~" (String c name +++ "/" +++ rest)) "/")
    with (match strchr (String c name +++ "/" +++ rest) "/" with
          | Some (before, rest0) => Some (String "~" before, rest0)
          | None => None
          end).
  rewrite (strchr_first_slash (String c name) rest Hname).
  cbn [drop String.length Nat.sub substring]. rewrite substring_whole, Hver.
  destruct (getpwnam (String c name)) as [[dir |] |]; reflexivity.
Qed.

(** X14.  A relative path is resolved against the working directory of the
    foreground process of the pty or, when there is none, of the tracked
    child, as [realpath] gives it for that process's /proc/<pid>/cwd.  It is
    resolved against the home directory when there is no such process, when
    [realpath] fails for that link, and always on the Cygwin versions
    before 1.5. *)
Theorem relative_path_falls_back_to_home (g : globals) (path : string) :
  is_relative path = true ->
  ((CYGWIN_VERSION_DLL_MAJOR < 1005
    \/ (pid g <= 0 /\ (pty_fd g < 0 \/ tcgetpgrp (pty_fd g) <= 0))
    \/ (0 <= pty_fd g /\ 0 < tcgetpgrp (pty_fd g)
        /\ realpath ("/proc/" +++ decimal (tcgetpgrp (pty_fd g)) +++ "/cwd")
           = None)
    \/ ((pty_fd g < 0 \/ tcgetpgrp (pty_fd g) <= 0) /\ 0 < pid g
        /\ realpath ("/proc/" +++ decimal (pid g) +++ "/cwd") = None)) ->
   expand_path g path = home g +++ "/" +++ path)
  /\ (forall dir,
        1005 <= CYGWIN_VERSION_DLL_MAJOR ->
        (0 <= pty_fd g /\ 0 < tcgetpgrp (pty_fd g)
         /\ realpath ("/proc/" +++ decimal (tcgetpgrp (pty_fd g))
                        +++ "/cwd") = Some dir)
        \/ ((pty_fd g < 0 \/ tcgetpgrp (pty_fd g) <= 0) /\ 0 < pid g
            /\ realpath ("/proc/" +++ decimal (pid g) +++ "/cwd")
               = Some dir) ->
        expand_path g path = dir +++ "/" +++ path).
Proof.
  intros Hrel.
  assert (Hbody :
    expand_path g path
    = if 1005 <=? CYGWIN_VERSION_DLL_MAJOR then
        match
          (if 0 <?
              (if (if 0 <=? pty_fd g then tcgetpgrp (pty_fd g) else 0) <=? 0
               then pid g
               else if 0 <=? pty_fd g then tcgetpgrp (pty_fd g) else 0)
           then
             realpath
               ("/proc/"
                  +++ decimal
                        (if (if 0 <=? pty_fd g then tcgetpgrp (pty_fd g)
                             else 0) <=? 0
                         then pid g
                         else if 0 <=? pty_fd g then tcgetpgrp (pty_fd g)
                              else 0)
                  +++ "/cwd")
           else None)
        with
        | Some dir => dir +++ "/" +++ path
        | None => home g +++ "/" +++ path
        end
      else home g +++ "/" +++ path).
  { destruct path as [| c p]; [reflexivity |].
    rewrite expand_path_cases. cbn in Hrel.
    apply andb_true_iff in Hrel. destruct Hrel as [Ht Hs].
    apply negb_true_iff in Ht, Hs. rewrite Ht, Hs. reflexivity. }
  assert (Hfg : 0 <= pty_fd g -> 0 < tcgetpgrp (pty_fd g) ->
                (if (if 0 <=? pty_fd g then tcgetpgrp (pty_fd g) else 0)
                      <=? 0
                 then pid g
                 else if 0 <=? pty_fd g then tcgetpgrp (pty_fd g) else 0)
                = tcgetpgrp (pty_fd g)).
  { intros Hfd Hpg. apply Z.leb_le in Hfd. rewrite Hfd.
    replace (tcgetpgrp (pty_fd g) <=? 0) with false
      by (symmetry; apply Z.leb_gt; exact Hpg).
    reflexivity. }
  assert (Hchild : pty_fd g < 0 \/ tcgetpgrp (pty_fd g) <= 0 ->
                   (if (if 0 <=? pty_fd g then tcgetpgrp (pty_fd g) else 0)
                         <=? 0
                    then pid g
                    else if 0 <=? pty_fd g then tcgetpgrp (pty_fd g) else 0)
                   = pid g).
  { intros Hno.
    replace ((if 0 <=? pty_fd g then tcgetpgrp (pty_fd g) else 0) <=? 0)
      with true; [reflexivity |].
    symmetry. apply Z.leb_le.
    destruct (Z.leb_spec 0 (pty_fd g)); lia. }
  rewrite Hbody. split.
  - intros [Hold | [(Hpid & Hno) | [(Hfd & Hpg & Hlink)
                                   | (Hno & Hpid & Hlink)]]].
    + apply Z.leb_gt in Hold. rewrite Hold. reflexivity.
    + destruct (1005 <=? CYGWIN_VERSION_DLL_MAJOR); [| reflexivity].
      rewrite (Hchild Hno).
      replace (0 <? pid g) with false by (symmetry; apply Z.ltb_ge; lia).
      reflexivity.
    + destruct (1005 <=? CYGWIN_VERSION_DLL_MAJOR); [| reflexivity].
      rewrite (Hfg Hfd Hpg), Hlink.
      destruct (0 <? tcgetpgrp (pty_fd g)); reflexivity.
    + destruct (1005 <=? CYGWIN_VERSION_DLL_MAJOR); [| reflexivity].
      rewrite (Hchild Hno), Hlink.
      destruct (0 <? pid g); reflexivity.
  - intros dir Hnew Hcase. apply Z.leb_le in Hnew. rewrite Hnew.
    destruct Hcase as [(Hfd & Hpg & Hlink) | (Hno & Hpid & Hlink)].
    + rewrite (Hfg Hfd Hpg), Hlink.
      replace (0 <? tcgetpgrp (pty_fd g)) with true
        by (symmetry; apply Z.ltb_lt; exact Hpg).
      reflexivity.
    + rewrite (Hchild Hno), Hlink.
      replace (0 <? pid g) with true
        by (symmetry; apply Z.ltb_lt; exact Hpid).
      reflexivity.
Qed.

(** X15.  On Cygwin 1.7 a converted path shorter than MAX_PATH loses its
    long path prefix: "\\?\UNC\" becomes "\\" and "\\?\" is dropped; a path
    of MAX_PATH characters or more is returned as converted. *)
Theorem to_win_drops_long_prefix (exp_path : string) (tail : list wchar) :
  1007 <= CYGWIN_VERSION_DLL_MAJOR ->
  (cygwin_create_path exp_path = Some (L "\\?\UNC\" ++ tail) ->
   Z.of_nat (wcslen (L "\\?\UNC\" ++ tail)) < MAX_PATH ->
   to_win exp_path = Some (L "\\" ++ tail))
  /\ (cygwin_create_path exp_path = Some (L "\\?\" ++ tail) ->
      Z.of_nat (wcslen (L "\\?\" ++ tail)) < MAX_PATH ->
      wide_eqb (firstn 4 tail) (L "UNC\") = false ->
      to_win exp_path = Some tail)
  /\ (forall w,
        cygwin_create_path exp_path = Some w ->
        MAX_PATH <= Z.of_nat (wcslen w) ->
        to_win exp_path = Some w).
Proof.
  intros Hver. apply Z.leb_le in Hver. unfold to_win. rewrite Hver.
  split; [| split].
  - intros -> Hlen. apply Z.ltb_lt in Hlen. rewrite Hlen. reflexivity.
  - intros -> Hlen Hunc. apply Z.ltb_lt in Hlen. rewrite Hlen.
    change (firstn 8 (L "\\?\" ++ tail))
      with (L "\\?\" ++ firstn 4 tail)%list.
    replace (wide_eqb (L "\\?\" ++ firstn 4 tail) (L "\\?\UNC\"))
      with (wide_eqb (firstn 4 tail) (L "UNC\")) by reflexivity.
    rewrite Hunc. reflexivity.
  - intros w -> Hlen. apply Z.ltb_ge in Hlen. rewrite Hlen. reflexivity.
Qed.

End Expansion.

Lemma expand_path_is_absolute_witness :
  is_absolute (expand_path (running HOLD_DEFAULT) "docs/x") = true.
Proof.
  exact (expand_path_is_absolute (H := plain_host) (running HOLD_DEFAULT)
           "docs/x" eq_refl
           ltac:(cbn; intros; discriminate) ltac:(cbn; intros; discriminate)).
Defined.

Lemma expand_named_tilde_witness :
  expand_path (running HOLD_DEFAULT) "~bob/x" = "/x"%string.
Proof.
  exact (expand_named_tilde (P := cygwin) (H := plain_host) (running HOLD_DEFAULT) "b" "ob" "x" eq_refl
           ltac:(cbn; lia)).
Defined.

(** The working directory of the foreground process 200 is asked for and
    not found: home is used, and not the directory of the child 100. *)
Lemma relative_path_falls_back_to_home_witness :
  expand_path (H := lost_cwd_host) (running HOLD_DEFAULT) "docs/x"
  = "/home/u/docs/x"%string
  /\ expand_path (H := lost_cwd_host) (set_pty_fd (-1) (running HOLD_DEFAULT))
       "docs/x"
     = "/srv/work/docs/x"%string.
Proof.
  split.
  - apply (proj1 (relative_path_falls_back_to_home (H := lost_cwd_host)
                    (running HOLD_DEFAULT) "docs/x" eq_refl)).
    right. right. left. vm_compute. repeat split; discriminate.
  - apply (proj2 (relative_path_falls_back_to_home (H := lost_cwd_host)
                    (set_pty_fd (-1) (running HOLD_DEFAULT)) "docs/x"
                    eq_refl) "/srv/work"%string).
    + vm_compute. discriminate.
    + right. vm_compute. repeat split; try reflexivity. left. reflexivity.
Defined.

Lemma to_win_drops_long_prefix_witness :
  to_win (H := unc_host) "/x" = Some (L "\\srv\share/x")
  /\ to_win "/x" = Some (L "C:\cygwin/x")
  /\ to_win long_path = Some (L ("\\?\C:\cygwin" +++ long_path)).
Proof.
  split; [| split].
  - exact (proj1 (to_win_drops_long_prefix (P := cygwin) (H := unc_host) "/x"
                    (L "srv\share/x") ltac:(cbn; lia))
             eq_refl eq_refl).
  - exact (proj1 (proj2 (to_win_drops_long_prefix (P := cygwin) (H := plain_host) "/x" (L "C:\cygwin/x")
                           ltac:(cbn; lia)))
             eq_refl eq_refl eq_refl).
  - exact (proj2 (proj2 (to_win_drops_long_prefix (P := cygwin) (H := plain_host) long_path []
                           ltac:(cbn; lia)))
             (L ("\\?\C:\cygwin" +++ long_path)) eq_refl
             ltac:(vm_compute; discriminate)).
Defined.

(** ** child_create: the failed fork and the child side *)

Section Spawning.
Context {P : Platform} {C : Charset}.

(** X16.  When the fork fails, [child_create] returns with no child tracked
    and the pty descriptor untouched.  It shows "Failed to fork child
    process" with the reason, followed by the rebasing hint when the reason
    is EAGAIN and by nothing when it is not; the only other message is that
    of a log file that cannot be opened.  From the initial state the
    terminal then stays open, and the first input sent to the child ends it
    with [exit(0)]. *)
Theorem child_create_fork_failure (sp : spawn) (s : globals) :
  sp_forkpty sp < 0 ->
  run_res (child_create sp s) = Ret tt
  /\ pid (run_state (child_create sp s)) = 0
  /\ pty_fd (run_state (child_create sp s)) = pty_fd s
  /\ status (run_state (child_create sp s)) = status s
  /\ shown ErrorMsg (run_trace (child_create sp s))
     = "Failed to fork child process: " +++ strerror (sp_fork_errno sp)
         +++ "."
         +++ (if sp_fork_errno sp =? EAGAIN then
                String "013" (String "010"
                  "DLL rebasing may be required. See 'rebaseall --help'.")
              else EmptyString)
         +++ match log_file sp with
             | Some _ =>
                 if sp_open_log sp <? 0 then
                   "Failed to open log file: "
                     +++ strerror (sp_open_log_errno sp) +++ "."
                 else EmptyString
             | None => EmptyString
             end
  /\ forall (h c : string) (p : hold_t) (buf : string) (echoing : bool)
       (sc : syscalls),
       run_res ((child_create sp ;; child_send buf echoing sc)
                  (initial h c p)) = Exit 0.
Proof.
  intros Hfork. apply Z.ltb_lt in Hfork.
  assert (Hrun : forall s0,
            exists t s1,
              child_create sp s0 = (t, s1, Ret tt)
              /\ pid s1 = 0 /\ pty_fd s1 = pty_fd s0
              /\ status s1 = status s0
              /\ shown ErrorMsg t
                 = "Failed to fork child process: "
                     +++ strerror (sp_fork_errno sp) +++ "."
                     +++ (if sp_fork_errno sp =? EAGAIN then
                            String "013" (String "010"
                              "DLL rebasing may be required. See 'rebaseall --help'.")
                          else EmptyString)
                     +++ match log_file sp with
                         | Some _ =>
                             if sp_open_log sp <? 0 then
                               "Failed to open log file: "
                                 +++ strerror (sp_open_log_errno sp) +++ "."
                             else EmptyString
                         | None => EmptyString
                         end).
  { intros s0. unfold child_create, signal, error.
    rewrite !bind_emit, bind_modify. rewrite Hfork.
    destruct sp as [lang fk master fk_errno w7 console exec_errno exec_fails
                    ptsn login open_win open_log open_log_errno term bs utmp
                    logf].
    cbn [sp_forkpty sp_fork_errno sp_master utmp_enabled sp_ptsname
         sp_getlogin sp_open_windows sp_open_log sp_open_log_errno log_file]
      in *.
    unfold when.
    destruct (fk_errno =? EAGAIN); destruct logf;
      try destruct (open_log <? 0);
      unfold bind, emit, modify, gets, ret, after; cbn;
      eexists; eexists; (split; [reflexivity |]);
      repeat (split; [reflexivity |]);
      rewrite ?append_assoc; cbn; rewrite ?append_assoc; cbn;
      rewrite ?append_empty_r; reflexivity. }
  destruct (Hrun s) as (t & s1 & Hr & Hpid & Hfd & Hst & Hshown).
  rewrite Hr. cbn.
  repeat (split; [assumption || reflexivity |]).
  intros h c p buf echoing sc.
  destruct (Hrun (initial h c p)) as (t0 & s0 & Hr0 & Hpid0 & Hfd0 & _).
  erewrite bind_run by exact Hr0.
  rewrite (child_send_when_gone s0 buf echoing sc);
    [reflexivity | rewrite Hfd0; cbn; lia | exact Hpid0].
Qed.

Lemma signal_free_from (t : trace) :
  (forall sig h, ~ In (EvSignal sig h) t) ->
  forall h sig, disposition_from h t sig = h.
Proof. intros Hfree h sig. apply disposition_from_no_signal, Hfree. Qed.

(** The calls of the child side: between the handlers of [child_create]
    and the resets nothing touches a signal, and nothing does after them. *)
Lemma child_side_trace (sp : spawn) (s : globals) :
  sp_forkpty sp = 0 ->
  exists pre post,
    run_trace (child_create sp s)
    = ([EvSignal SIGHUP SIG_IGN; EvSignal SIGINT Hsigexit;
        EvSignal SIGTERM Hsigexit; EvSignal SIGQUIT Hsigexit;
        EvSignal SIGCHLD Hsigchld]
         ++ pre
         ++ [EvSignal SIGHUP SIG_DFL; EvSignal SIGINT SIG_DFL;
             EvSignal SIGQUIT SIG_DFL; EvSignal SIGTERM SIG_DFL;
             EvSignal SIGCHLD SIG_DFL; EvSignal SIGTSTP SIG_IGN;
             EvSignal SIGTTIN SIG_IGN; EvSignal SIGTTOU SIG_IGN]
         ++ post)%list
    /\ (forall h sig, disposition_from h pre sig = h)
    /\ (forall h sig, disposition_from h post sig = h)
    /\ run_res (child_create sp s)
       = (if sp_exec_fails sp then Exit 255 else Exec)
    /\ win_fd (run_state (child_create sp s)) = win_fd s
    /\ log_fd (run_state (child_create sp s)) = log_fd s.
Proof.
  intros Hfork.
  unfold child_create, child_side, signal.
  rewrite !bind_emit, bind_modify. rewrite Hfork. cbn [Z.ltb Z.eqb Z.compare].
  destruct sp as [lang fk master fk_errno w7 console exec_errno exec_fails
                  ptsn login open_win open_log open_log_errno term bs utmp
                  logf].
  cbn [sp_forkpty sp_fork_errno sp_master utmp_enabled sp_ptsname sp_getlogin
       sp_open_windows sp_open_log sp_open_log_errno log_file sp_lang
       sp_windows7 sp_alloc_console sp_exec_errno sp_exec_fails cfg_term
       cfg_backspace_sends_bs] in *.
  unfold when.
  destruct ((CYGWIN_VERSION_DLL_MAJOR <? 1007)
            && (negb (CYGWIN_VERSION_DLL_MAJOR =? 1005) || w7));
    [destruct console; [exists [EvAllocConsole; EvHideConsole]
                       | exists [EvAllocConsole]]
    | exists []];
    destruct lang; destruct exec_fails;
    unfold bind, emit, modify, gets, ret, exit, replaced, after, run_trace,
      run_state, run_res;
    cbn [fst snd app];
    eexists; (split; [reflexivity |]);
    (split; [intros h sig; reflexivity |]);
    (split; [intros h sig; reflexivity |]);
    repeat split; reflexivity.
Qed.

(** Whatever was in place before, the resets of the child side decide. *)
Lemma resets_last (h : handler) (sig : Z) :
  NoDup [SIGHUP; SIGINT; SIGQUIT; SIGTERM; SIGCHLD; SIGTSTP; SIGTTIN;
         SIGTTOU] ->
  disposition_from h
    [EvSignal SIGHUP SIG_DFL; EvSignal SIGINT SIG_DFL;
     EvSignal SIGQUIT SIG_DFL; EvSignal SIGTERM SIG_DFL;
     EvSignal SIGCHLD SIG_DFL; EvSignal SIGTSTP SIG_IGN;
     EvSignal SIGTTIN SIG_IGN; EvSignal SIGTTOU SIG_IGN] sig
  = if existsb (Z.eqb sig) [SIGHUP; SIGINT; SIGQUIT; SIGTERM; SIGCHLD]
    then SIG_DFL
    else if existsb (Z.eqb sig) [SIGTSTP; SIGTTIN; SIGTTOU] then SIG_IGN
    else h.
Proof.
  intros Hdistinct.
  repeat match goal with
         | H : NoDup (_ :: _) |- _ => inversion H; clear H; subst
         end.
  cbn [In] in *. cbn [disposition_from existsb].
  rewrite !(Z.eqb_sym sig).
  repeat match goal with
         | |- context [?a =? ?b] =>
             destruct (Z.eqb_spec a b);
             [try subst sig; try (exfalso; intuition congruence) |]
         end; reflexivity.
Qed.


(** X17.  On the child side of the fork [child_create] never returns: it
    ends in the image of the command, or in [exit(255)] when the exec
    fails.  By then the handlers the parent side installed are undone:
    SIGHUP, SIGINT, SIGQUIT, SIGTERM and SIGCHLD have their default
    disposition, the job control signals SIGTSTP, SIGTTIN and SIGTTOU are
    ignored; and the window and log descriptors are not opened. *)
Theorem child_side_resets_signals (sp : spawn) (s : globals) :
  NoDup [SIGHUP; SIGINT; SIGQUIT; SIGTERM; SIGCHLD; SIGTSTP; SIGTTIN;
         SIGTTOU] ->
  sp_forkpty sp = 0 ->
  run_res (child_create sp s)
  = (if sp_exec_fails sp then Exit 255 else Exec)
  /\ Forall (fun sig => disposition (run_trace (child_create sp s)) sig
                        = SIG_DFL)
       [SIGHUP; SIGINT; SIGQUIT; SIGTERM; SIGCHLD]
  /\ Forall (fun sig => disposition (run_trace (child_create sp s)) sig
                        = SIG_IGN)
       [SIGTSTP; SIGTTIN; SIGTTOU]
  /\ win_fd (run_state (child_create sp s)) = win_fd s
  /\ log_fd (run_state (child_create sp s)) = log_fd s.
Proof.
  intros Hdistinct Hfork.
  destruct (child_side_trace sp s Hfork)
    as (pre & post & Ht & Hpre & Hpost & Hres & Hwin & Hlog).
  pose proof (fun h sig => resets_last h sig Hdistinct) as Hlast.
  repeat match goal with
         | H : NoDup (_ :: _) |- _ => inversion H; clear H; subst
         end.
  cbn [In] in *.
  split; [exact Hres |].
  split; [| split; [| split; assumption]].
  - rewrite Ht. unfold disposition.
    repeat constructor; rewrite !disposition_from_app, Hpost, Hlast;
      cbn [existsb]; rewrite Z.eqb_refl, ?orb_true_r; reflexivity.
  - rewrite Ht. unfold disposition.
    repeat constructor; rewrite !disposition_from_app, Hpost, Hlast;
      cbn [existsb];
      repeat match goal with
             | |- context [?a =? ?b] =>
                 destruct (Z.eqb_spec a b);
                 [try (exfalso; intuition congruence) |]
             end; try reflexivity; exfalso; intuition congruence.
Qed.

End Spawning.

Lemma cygwin_child_signals_distinct :
  NoDup [SIGHUP; SIGINT; SIGQUIT; SIGTERM; SIGCHLD; SIGTSTP; SIGTTIN;
         SIGTTOU].
Proof.
  repeat (constructor; [cbn; intros Hin; intuition discriminate |]).
  constructor.
Qed.

Lemma child_create_fork_failure_witness :
  run_res (child_create spawn_fails (initial "/home/u" "sh" HOLD_DEFAULT))
  = Ret tt
  /\ shown ErrorMsg
       (run_trace
          (child_create spawn_fails (initial "/home/u" "sh" HOLD_DEFAULT)))
     = ("Failed to fork child process: Resource temporarily unavailable."
          +++ String "013" (String "010"
                "DLL rebasing may be required. See 'rebaseall --help'."))
  /\ run_res ((child_create spawn_fails ;; child_send "x" false (mkSys 0 0))
                (initial "/home/u" "sh" HOLD_DEFAULT)) = Exit 0.
Proof.
  destruct (child_create_fork_failure spawn_fails
              (initial "/home/u" "sh" HOLD_DEFAULT) eq_refl)
    as (Hres & _ & _ & _ & Hshown & Hsend).
  split; [exact Hres |]. split; [rewrite Hshown; reflexivity |].
  exact (Hsend "/home/u"%string "sh"%string HOLD_DEFAULT "x"%string false
           (mkSys 0 0)).
Defined.

Lemma child_side_resets_signals_witness :
  run_res (child_create spawn_child (initial "/home/u" "sh" HOLD_DEFAULT))
  = Exit 255
  /\ disposition
       (run_trace
          (child_create spawn_child (initial "/home/u" "sh" HOLD_DEFAULT)))
       SIGHUP = SIG_DFL.
Proof.
  destruct (child_side_resets_signals spawn_child
              (initial "/home/u" "sh" HOLD_DEFAULT)
              cygwin_child_signals_distinct eq_refl)
    as (Hres & Hdfl & _).
  split; [exact Hres |]. inversion Hdfl; assumption.
Defined.

(** ** child_is_parent *)

Section ProcessTableProperties.
Context {P : Platform}.

Lemma substring_fits (n : nat) (s : string) :
  (String.length s <= n)%nat -> substring 0 n s = s.
Proof.
  revert n. induction s as [| c s IH]; intros [| n] Hlen; cbn in *;
    try reflexivity; try lia.
  rewrite IH by lia. reflexivity.
Qed.

(** The name of an entry that is looked into is not cut by [snprintf]. *)
Lemma snprintf_fits (pn : string) :
  looked_into pn = true -> snprintf 12 (pn +++ "/ppid") = pn +++ "/ppid".
Proof.
  unfold looked_into. intros Hl. apply andb_true_iff in Hl as [_ Hlen].
  apply Nat.leb_le in Hlen.
  unfold snprintf. apply substring_fits.
  rewrite length_append. cbn. lia.
Qed.

Lemma scan_proc_true (fs : proc_fs) (p : Z) (entries : list string) :
  p <> 0 ->
  fst (scan_proc fs p entries) = true
  <-> exists pn, In pn entries /\ looked_into pn = true
                 /\ proc_ppid fs ("/proc/" +++ pn +++ "/ppid")
                    = Some (Some p).
Proof.
  intros Hp. induction entries as [| pn entries IH]; cbn [scan_proc].
  - split; [discriminate | intros (pn & [] & _)].
  - fold (looked_into pn).
    destruct (looked_into pn) eqn:Hl.
    + rewrite (snprintf_fits pn Hl).
      destruct (proc_ppid fs ("/proc/" +++ pn +++ "/ppid"))
        as [[v |] |] eqn:Hf.
      * destruct (Z.eqb_spec v p) as [-> | Hne].
        -- split; [intros _ | reflexivity].
           exists pn. split; [left; reflexivity | split; assumption].
        -- destruct (scan_proc fs p entries) as [res t]. cbn [fst] in *.
           rewrite IH. split.
           ++ intros (pn' & Hin & H'). exists pn'. split; [right |]; assumption.
           ++ intros (pn' & [<- | Hin] & Hl' & Hf').
              ** congruence.
              ** exists pn'. split; [| split]; assumption.
      * destruct (Z.eqb_spec 0 p) as [<- | Hne]; [congruence |].
        destruct (scan_proc fs p entries) as [res t]. cbn [fst] in *.
        rewrite IH. split.
        -- intros (pn' & Hin & H'). exists pn'. split; [right |]; assumption.
        -- intros (pn' & [<- | Hin] & Hl' & Hf').
           ++ congruence.
           ++ exists pn'. split; [| split]; assumption.
      * destruct (scan_proc fs p entries) as [res t]. cbn [fst] in *.
        rewrite IH. split.
        -- intros (pn' & Hin & H'). exists pn'. split; [right |]; assumption.
        -- intros (pn' & [<- | Hin] & Hl' & Hf').
           ++ congruence.
           ++ exists pn'. split; [| split]; assumption.
    + rewrite IH. split.
      * intros (pn' & Hin & H'). exists pn'. split; [right |]; assumption.
      * intros (pn' & [<- | Hin] & Hl' & Hf').
        -- congruence.
        -- exists pn'. split; [| split]; assumption.
Qed.

(** X18.  [child_is_parent] answers true exactly when a child is tracked,
    /proc can be listed, and one of its entries whose name starts with a
    digit and has six characters at most has a ppid file that opens and
    holds the tracked pid.  An entry whose file does not open, or holds no
    number, never counts. *)
Theorem child_is_parent_iff (g : globals) (fs : proc_fs) :
  fst (child_is_parent g fs) = true
  <-> pid g <> 0
      /\ exists entries pn,
           proc_entries fs = Some entries /\ In pn entries
           /\ looked_into pn = true
           /\ proc_ppid fs ("/proc/" +++ pn +++ "/ppid")
              = Some (Some (pid g)).
Proof.
  unfold child_is_parent.
  destruct (Z.eqb_spec (pid g) 0) as [Hz | Hnz].
  - cbn. split; [discriminate | intros [Hp _]; contradiction].
  - destruct (proc_entries fs) as [entries |].
    + pose proof (scan_proc_true fs (pid g) entries Hnz) as Hs.
      destruct (scan_proc fs (pid g) entries) as [res t]. cbn [fst] in *.
      rewrite Hs. split.
      * intros (pn & H'). split; [exact Hnz |].
        exists entries, pn. split; [reflexivity | exact H'].
      * intros (_ & entries' & pn & He & H').
        injection He as <-. exists pn. exact H'.
    + cbn. split; [discriminate |].
      intros (_ & entries & pn & He & _). discriminate.
Qed.

Lemma left_open_app (t1 t2 : list proc_event) (files dirs : Z) :
  left_open files dirs (t1 ++ t2)
  = left_open (fst (left_open files dirs t1)) (snd (left_open files dirs t1))
      t2.
Proof.
  revert files dirs.
  induction t1 as [| e t1 IH]; intros files dirs; [reflexivity |].
  destruct e as [[|] | | fn [|] | fn]; cbn [left_open app]; apply IH.
Qed.

Lemma scan_proc_closes (fs : proc_fs) (p : Z) (entries : list string)
  (files dirs : Z) :
  left_open files dirs (snd (scan_proc fs p entries)) = (files, dirs).
Proof.
  induction entries as [| pn entries IH]; cbn [scan_proc]; [reflexivity |].
  destruct (starts_with_digit pn && (String.length pn <=? 6)%nat);
    [| exact IH].
  destruct (proc_ppid fs _) as [scanned |].
  - destruct (_ =? p).
    + cbn. f_equal. lia.
    + destruct (scan_proc fs p entries) as [res t]. cbn [snd left_open] in *.
      replace (files + 1 - 1) with files by lia. exact IH.
  - destruct (scan_proc fs p entries) as [res t]. cbn [snd left_open] in *.
    exact IH.
Qed.

Lemma scan_proc_opens (fs : proc_fs) (p : Z) (entries : list string)
  (fn : string) (ok : bool) :
  In (PrFopen fn ok) (snd (scan_proc fs p entries)) ->
  exists pn, In pn entries /\ looked_into pn = true
             /\ fn = "/proc/" +++ pn +++ "/ppid".
Proof.
  induction entries as [| pn entries IH]; cbn [scan_proc]; [intros [] |].
  fold (looked_into pn).
  assert (Hrest : In (PrFopen fn ok) (snd (scan_proc fs p entries)) ->
                  exists pn0, In pn0 (pn :: entries)
                              /\ looked_into pn0 = true
                              /\ fn = "/proc/" +++ pn0 +++ "/ppid").
  { intros Hin. destruct (IH Hin) as (pn0 & Hin0 & H').
    exists pn0. split; [right |]; assumption. }
  destruct (looked_into pn) eqn:Hl; [| exact Hrest].
  rewrite (snprintf_fits pn Hl).
  assert (Hhere : forall b,
            PrFopen ("/proc/" +++ pn +++ "/ppid") b = PrFopen fn ok ->
            exists pn0, In pn0 (pn :: entries)
                        /\ looked_into pn0 = true
                        /\ fn = "/proc/" +++ pn0 +++ "/ppid").
  { intros b Heq. injection Heq as <- <-.
    exists pn. split; [left; reflexivity |].
    split; [exact Hl | reflexivity]. }
  destruct (proc_ppid fs ("/proc/" +++ pn +++ "/ppid")) as [scanned |].
  - destruct (_ =? p).
    + cbn [snd]. intros [Heq | [Heq | []]]; [| discriminate].
      exact (Hhere true Heq).
    + destruct (scan_proc fs p entries) as [res t]. cbn [snd] in *.
      intros [Heq | [Heq | Hin]]; [| discriminate |].
      * exact (Hhere true Heq).
      * exact (Hrest Hin).
  - destruct (scan_proc fs p entries) as [res t]. cbn [snd] in *.
    intros [Heq | Hin].
    + exact (Hhere false Heq).
    + exact (Hrest Hin).
Qed.

(** X19.  Whatever /proc holds and wherever the scan stops, also when it
    breaks off at the first match, [child_is_parent] closes every file and
    the directory it opened.  A file it tries to open is the ppid file of a
    listed entry that is looked into, under its whole name: the name has 17
    characters at most, so that it is never cut to the 18 bytes of [fn]. *)
Theorem child_is_parent_leaves_nothing_open (g : globals) (fs : proc_fs) :
  left_open 0 0 (snd (child_is_parent g fs)) = (0, 0)
  /\ forall fn ok,
       In (PrFopen fn ok) (snd (child_is_parent g fs)) ->
       (String.length fn <= 17)%nat
       /\ exists entries pn,
            proc_entries fs = Some entries /\ In pn entries
            /\ looked_into pn = true
            /\ fn = "/proc/" +++ pn +++ "/ppid".
Proof.
  unfold child_is_parent.
  destruct (pid g =? 0); [split; [reflexivity | intros fn ok []] |].
  destruct (proc_entries fs) as [entries |].
  - pose proof (scan_proc_closes fs (pid g) entries 0 (0 + 1)) as Hc.
    pose proof (fun fn ok => scan_proc_opens fs (pid g) entries fn ok) as Ho.
    destruct (scan_proc fs (pid g) entries) as [res t]. cbn [snd] in *.
    split.
    + cbn [left_open]. rewrite left_open_app, Hc. reflexivity.
    + intros fn ok [Heq | Hin]; [discriminate |].
      apply in_app_or in Hin as [Hin | [Heq | []]]; [| discriminate].
      destruct (Ho fn ok Hin) as (pn & Hin' & Hl & ->).
      split.
      * unfold looked_into in Hl. apply andb_true_iff in Hl as [_ Hlen].
        apply Nat.leb_le in Hlen.
        cbn [String.append String.length].
        rewrite length_append. cbn. lia.
      * exists entries, pn. repeat (split; [assumption || reflexivity |]).
        reflexivity.
  - split; [reflexivity |]. intros fn ok [Heq | []]. discriminate.
Qed.

End ProcessTableProperties.

Lemma child_is_parent_iff_witness :
  fst (child_is_parent (running HOLD_DEFAULT) sample_proc) = true.
Proof.
  apply (proj2 (child_is_parent_iff (running HOLD_DEFAULT) sample_proc)).
  split; [cbn; lia |].
  exists ["1"; "100"; "self"; "1234567"; "4711"; "cpuinfo"]%string,
    "4711"%string.
  repeat split; cbn; tauto.
Defined.

Lemma child_is_parent_leaves_nothing_open_witness :
  left_open 0 0 (snd (child_is_parent (running HOLD_DEFAULT) sample_proc))
  = (0, 0)
  /\ (String.length "/proc/100/ppid" <= 17)%nat.
Proof.
  split.
  - exact (proj1 (child_is_parent_leaves_nothing_open (running HOLD_DEFAULT)
                    sample_proc)).
  - apply (proj2 (child_is_parent_leaves_nothing_open (running HOLD_DEFAULT)
                    sample_proc) "/proc/100/ppid"%string true).
    vm_compute. tauto.
Defined.

(** ** child_fork *)

Section Forking.
Context {P : Platform}.

Lemma last_char_append (s : string) (c : ascii) :
  last_char (s +++ String c EmptyString) = Some c.
Proof.
  induction s as [| x s IH]; [reflexivity |].
  cbn [String.append last_char]. rewrite IH.
  destruct (s +++ String c EmptyString) eqn:Hs; [| reflexivity].
  destruct s; discriminate.
Qed.

Lemma substring_prefix (a b : string) :
  substring 0 (String.length a) (a +++ b) = a.
Proof.
  induction a as [| x a IH]; cbn.
  - destruct b; reflexivity.
  - rewrite IH. reflexivity.
Qed.

(** The quotes around a string are stripped, whatever is between them. *)
Lemma strip_quotes_quoted (s : string) : strip_quotes (quoted s) = Some s.
Proof.
  unfold strip_quotes, quoted.
  change (String "034" (s +++ String "034" EmptyString))
    with (String "034" EmptyString +++ (s +++ String "034" EmptyString)).
  rewrite <- append_assoc, last_char_append.
  cbn [String.append get is_quote Ascii.eqb Bool.eqb andb].
  cbn [String.length]. rewrite length_append. cbn [String.length].
  replace (S (String.length s + 1) <=? 1)%nat with false
    by (symmetry; apply Nat.leb_gt; lia).
  unfold drop. cbn [String.length substring].
  rewrite length_append. cbn [String.length].
  replace (S (String.length s + 1) - 1)%nat
    with (String.length (s +++ String "034" EmptyString))
    by (rewrite length_append; cbn; lia).
  rewrite substring_whole.
  replace (S (String.length s + 1) - 2)%nat with (String.length s) by lia.
  rewrite substring_prefix. reflexivity.
Qed.

(** X20.  [child_fork] does nothing in the parent, also when the fork
    fails.  The child closes the window descriptor and those of the pty and
    the log file that are open, and nothing else; then it runs
    /proc/self/exe or, on a Cygwin before 1.5, where that is missing,
    [argv[0]]: without the quotes around it when it is quoted, whatever is
    between them, and as it is when it does not both start and end with a
    quote.  The child never returns to the caller: it exits with 255 when
    the exec comes back. *)
Theorem child_fork_closes_and_execs (g : globals) (exec_returns : bool) :
  (forall fork_ret argv0, fork_ret <> 0 ->
     child_fork g fork_ret argv0 exec_returns = Some ([], ForkReturns))
  /\ exists closes,
       closes
       = (map FkClose (filter (fun fd => 0 <=? fd) [pty_fd g; log_fd g])
            ++ [FkClose (win_fd g)])%list
       /\ (forall e, In e closes
                  <-> exists fd, e = FkClose fd
                                 /\ (fd = win_fd g
                                     \/ (0 <= fd
                                         /\ (fd = pty_fd g
                                             \/ fd = log_fd g))))
       /\ (1005 <= CYGWIN_VERSION_DLL_MAJOR ->
           forall argv0,
             child_fork g 0 argv0 exec_returns
             = Some ((closes ++ [FkExecv "/proc/self/exe"])%list,
                     if exec_returns then ForkExits 255 else ForkReplaced))
       /\ (CYGWIN_VERSION_DLL_MAJOR < 1005 ->
           (forall s,
              child_fork g 0 (quoted s) exec_returns
              = Some ((closes ++ [FkExecvp s])%list,
                      if exec_returns then ForkExits 255 else ForkReplaced))
           /\ (forall argv0,
                 is_quote (get 0 argv0) && is_quote (last_char argv0) = false ->
                 child_fork g 0 argv0 exec_returns
                 = Some ((closes ++ [FkExecvp argv0])%list,
                         if exec_returns then ForkExits 255
                         else ForkReplaced))).
Proof.
  split.
  - intros fork_ret argv0 Hne. unfold child_fork.
    destruct (Z.eqb_spec fork_ret 0); [contradiction | reflexivity].
  - exists ((if 0 <=? pty_fd g then [FkClose (pty_fd g)] else [])
            ++ (if 0 <=? log_fd g then [FkClose (log_fd g)] else [])
            ++ [FkClose (win_fd g)])%list.
    split; [| split; [| split]].
    + cbn [filter map].
      destruct (0 <=? pty_fd g); destruct (0 <=? log_fd g); reflexivity.
    + intros e. split.
      * intros Hin.
        apply in_app_or in Hin as [Hin | Hin];
          [| apply in_app_or in Hin as [Hin | [<- | []]]].
        -- destruct (Z.leb_spec 0 (pty_fd g)); [| destruct Hin].
           destruct Hin as [<- | []]. eexists. split; [reflexivity |].
           right. split; [assumption | left; reflexivity].
        -- destruct (Z.leb_spec 0 (log_fd g)); [| destruct Hin].
           destruct Hin as [<- | []]. eexists. split; [reflexivity |].
           right. split; [assumption | right; reflexivity].
        -- eexists. split; [reflexivity | left; reflexivity].
      * intros (fd & -> & [-> | (Hpos & [-> | ->])]).
        -- apply in_or_app. right. apply in_or_app. right. left. reflexivity.
        -- apply in_or_app. left.
           apply Z.leb_le in Hpos. rewrite Hpos. left. reflexivity.
        -- apply in_or_app. right. apply in_or_app. left.
           apply Z.leb_le in Hpos. rewrite Hpos. left. reflexivity.
    + intros Hnew argv0. unfold child_fork. cbn [Z.eqb].
      apply Z.leb_le in Hnew. rewrite Hnew. reflexivity.
    + intros Hold. apply Z.leb_gt in Hold. split.
      * intros s. unfold child_fork. cbn [Z.eqb].
        rewrite Hold, strip_quotes_quoted. reflexivity.
      * intros argv0 Hplain. unfold child_fork, strip_quotes. cbn [Z.eqb].
        rewrite Hold, Hplain. reflexivity.
Qed.

End Forking.

Lemma child_fork_closes_and_execs_witness :
  exists closes,
    child_fork (P := cygwin_1_3) (running HOLD_DEFAULT) 0
      (quoted "C:/bin/mintty") true
    = Some ((closes ++ [FkExecvp "C:/bin/mintty"])%list, ForkExits 255)
    /\ In (FkClose 3) closes /\ ~ In (FkClose (-1)) closes.
Proof.
  destruct (child_fork_closes_and_execs (P := cygwin_1_3)
              (running HOLD_DEFAULT) true)
    as (_ & closes & _ & Hcloses & _ & Hold).
  destruct (Hold ltac:(cbn; lia)) as (Hquoted & _).
  exists closes. split; [exact (Hquoted "C:/bin/mintty"%string) |]. split.
  - apply Hcloses. exists 3. split; [reflexivity |].
    right. cbn. split; [lia | left; reflexivity].
  - intros Hin. apply Hcloses in Hin as (fd & Heq' & Hfd).
    injection Heq' as <-. cbn in Hfd. lia.
Defined.

(** ** child_create: the parent side and the log file *)

Section Logging.
Context {P : Platform} {C : Charset}.

(** X21.  When the fork succeeds and the log file cannot be opened, the
    parent side of [child_create] returns with the child tracked on the pty
    descriptor, shows "Failed to open log file" with the reason and nothing
    else, and leaves the log descriptor negative: no session that follows
    writes to a log file. *)
Theorem failed_log_open_disables_logging (sp : spawn) (s : globals)
  (file : string) :
  0 < sp_forkpty sp -> log_file sp = Some file -> sp_open_log sp < 0 ->
  run_res (child_create sp s) = Ret tt
  /\ pid (run_state (child_create sp s)) = sp_forkpty sp
  /\ pty_fd (run_state (child_create sp s)) = sp_master sp
  /\ shown ErrorMsg (run_trace (child_create sp s))
     = "Failed to open log file: " +++ strerror (sp_open_log_errno sp)
         +++ "."
  /\ forall (acts : list action) (bs : string),
       ~ In (EvLogWrite bs)
           (run_trace (session acts (run_state (child_create sp s)))).
Proof.
  intros Hfork Hfile Hopen.
  assert (Hrun : exists t,
            child_create sp s
            = (t, set_errno (sp_open_log_errno sp)
                    (set_log_fd (sp_open_log sp)
                       (set_win_fd (sp_open_windows sp)
                          (set_pty_fd (sp_master sp)
                             (set_pid (sp_forkpty sp) s)))), Ret tt)
            /\ shown ErrorMsg t
               = "Failed to open log file: "
                   +++ strerror (sp_open_log_errno sp) +++ ".").
  { unfold child_create, signal, error.
    rewrite !bind_emit, bind_modify.
    replace (sp_forkpty sp <? 0) with false
      by (symmetry; apply Z.ltb_ge; lia).
    replace (sp_forkpty sp =? 0) with false
      by (symmetry; apply Z.eqb_neq; lia).
    rewrite Hfile.
    replace (sp_open_log sp <? 0) with true
      by (symmetry; apply Z.ltb_lt; exact Hopen).
    unfold write_utmp, when.
    destruct (utmp_enabled sp); [destruct (sp_ptsname sp) |];
      unfold bind, emit, modify, gets, ret, after; cbn;
      eexists; (split; [reflexivity |]); cbn;
      rewrite ?append_empty_r; reflexivity. }
  destruct Hrun as (t & Hr & Hshown). rewrite Hr.
  cbn [run_res run_state run_trace fst snd].
  split; [reflexivity |]. split; [reflexivity |]. split; [reflexivity |].
  split; [exact Hshown |].
  intros acts bs Hin.
  destruct (lawful_session acts
              (set_errno (sp_open_log_errno sp)
                 (set_log_fd (sp_open_log sp)
                    (set_win_fd (sp_open_windows sp)
                       (set_pty_fd (sp_master sp)
                          (set_pid (sp_forkpty sp) s))))))
    as (_ & Ht & _).
  rewrite Forall_forall in Ht. specialize (Ht _ Hin).
  cbn in Ht. lia.
Qed.

End Logging.

Lemma failed_log_open_disables_logging_witness :
  shown ErrorMsg
    (run_trace (child_create spawn_no_log
                  (initial "/home/u" "sh" HOLD_DEFAULT)))
  = "Failed to open log file: Permission denied."%string
  /\ ~ In (EvLogWrite "hi")
         (run_trace
            (session [Do_child_proc exit_1_rounds exit_1_stream]
               (run_state (child_create spawn_no_log
                             (initial "/home/u" "sh" HOLD_DEFAULT))))).
Proof.
  destruct (failed_log_open_disables_logging spawn_no_log
              (initial "/home/u" "sh" HOLD_DEFAULT) "/log"
              ltac:(cbn; lia) eq_refl ltac:(cbn; lia))
    as (_ & _ & _ & Hshown & Hlog).
  split; [exact Hshown |].
  exact (Hlog [Do_child_proc exit_1_rounds exit_1_stream] "hi"%string).
Defined.
